(** * Session authority, request gate, TTL configuration and task ownership
    of the task-manager backend, embedded from the Go sources.

    Part I gives the definitions: the pieces of Go's standard library the
    sources call ([time], [encoding/base64], [strings], [os], [crypto/rand]),
    then one module per Go package of the repository.  Part II states and
    proves the properties. *)

From Stdlib Require Import ZArith String Ascii List Lia Permutation.
From Stdlib Require Import Strings.Byte Floats.SpecFloat.
From stdpp Require Import gmap strings list fin_maps sorting.

Local Open Scope string_scope.
Local Open Scope Z_scope.

(* ===================================================================== *)
(** * Part I: definitions                                                 *)
(* ===================================================================== *)

(** Go's [(T, error)] results: [Ok] stands for a nil error, [Err] for a
    non-nil one (the accompanying zero value of [T] is not kept). *)
Inductive result (A E : Type) : Type :=
| Ok (a : A)
| Err (e : E).
Arguments Ok {A E} a.
Arguments Err {A E} e.

(** [uint]: user and task identifiers.  The sources only store and compare
    them, so no wrap-around arises. *)
Abbreviation uint := N (only parsing).

(** Unsigned and signed 64-bit wrap-around. *)
Definition wrap_uint64 (z : Z) : Z := z mod 2 ^ 64.
Definition wrap_int64 (z : Z) : Z := (z + 2 ^ 63) mod 2 ^ 64 - 2 ^ 63.

(** A byte of a Go string, as a number. *)
Definition byteZ (c : ascii) : Z := Z.of_N (N_of_ascii c).

(** ['0' <= c && c <= '9'] *)
Definition isDigit (c : ascii) : bool := (48 <=? byteZ c) && (byteZ c <=? 57).

(** [len(s)] *)
Definition len (s : string) : Z := Z.of_nat (String.length s).

(** ** [float64], as far as [time.ParseDuration] needs it

    IEEE 754 binary64 with round-to-nearest-even, on the standard library's
    executable specification of floating-point numbers. *)
Module float64.
Definition t : Type := spec_float.
Definition prec : Z := 53.
Definition emax : Z := 1024.
(** [float64(n)] for an unsigned integer [n]. *)
Definition of_uint64 (n : Z) : t := binary_normalize prec emax n 0 false.
Definition mul (x y : t) : t := SFmul prec emax x y.
Definition div (x y : t) : t := SFdiv prec emax x y.
(** [uint64(x)]: truncation toward zero.  [ParseDuration] converts values
    between 0 and 3.6e12 only. *)
Definition to_uint64 (x : t) : Z :=
  match x with
  | S754_finite false m e =>
      if 0 <=? e then wrap_uint64 (Z.pos m * 2 ^ e) else Z.pos m / 2 ^ (- e)
  | _ => 0
  end.
End float64.

(** ** Package [time] *)
Module time.
(** An instant on the process clock, in nanoseconds.  Instants are
    unbounded integers: the range of [time.Time] is not modelled. *)
Abbreviation Time := Z (only parsing).
(** [time.Duration] is an [int64] count of nanoseconds. *)
Abbreviation Duration := Z (only parsing).

Definition Nanosecond : Duration := 1.
Definition Microsecond : Duration := 1000 * Nanosecond.
Definition Millisecond : Duration := 1000 * Microsecond.
Definition Second : Duration := 1000 * Millisecond.
Definition Minute : Duration := 60 * Second.
Definition Hour : Duration := 60 * Minute.

(** [t.After(u)]: strictly later. *)
Definition After (t u : Time) : bool := u <? t.
(** [t.Add(d)]. *)
Definition Add (t : Time) (d : Duration) : Time := t + d.
(** [t.Truncate(d)] and [t.Round(d)]: down to a multiple of [d], and to the
    nearest one with halfway values rounded up; [t] itself when [d <= 0].
    Go counts the multiples from its zero time; instants here are counted
    from an epoch a whole number of seconds away from it (as the Unix epoch
    is), which gives the same multiples for every [d] that divides a second. *)
Definition Truncate (t : Time) (d : Duration) : Time :=
  if d <=? 0 then t else t - t mod d.
Definition Round (t : Time) (d : Duration) : Time :=
  if d <=? 0 then t
  else
    let r := t mod d in
    if r + r <? d then t - r else t + (d - r).

(** The three error texts of [ParseDuration]. *)
Inductive ParseError : Type :=
| invalid_duration (orig : string)
| missing_unit (orig : string)
| unknown_unit (u orig : string).

(** [leadingInt]: consumes the leading digits; fails on overflow. *)
Fixpoint leadingInt_loop (x : Z) (s : string) : option (Z * string) :=
  match s with
  | String c s' =>
      if isDigit c then
        if x >? 2 ^ 63 / 10 then None
        else
          let x := wrap_uint64 (x * 10 + byteZ c - 48) in
          if x >? 2 ^ 63 then None else leadingInt_loop x s'
      else Some (x, s)
  | EmptyString => Some (x, s)
  end.
Definition leadingInt (s : string) : option (Z * string) := leadingInt_loop 0 s.

(** [leadingFraction]: consumes the leading digits after the point; on
    overflow it stops accumulating precision. *)
Fixpoint leadingFraction_loop (x : Z) (scale : float64.t) (overflow : bool)
    (s : string) : Z * float64.t * string :=
  match s with
  | String c s' =>
      if isDigit c then
        if overflow then leadingFraction_loop x scale overflow s'
        else if x >? (2 ^ 63 - 1) / 10 then leadingFraction_loop x scale true s'
        else
          let y := wrap_uint64 (x * 10 + byteZ c - 48) in
          if y >? 2 ^ 63 then leadingFraction_loop x scale true s'
          else leadingFraction_loop y (float64.mul scale (float64.of_uint64 10)) false s'
      else (x, scale, s)
  | EmptyString => (x, scale, s)
  end.
Definition leadingFraction (s : string) : Z * float64.t * string :=
  leadingFraction_loop 0 (float64.of_uint64 1) false s.

(** The unit: the bytes up to the next ['.'] or digit. *)
Fixpoint splitUnit (s : string) : string * string :=
  match s with
  | String c s' =>
      if (byteZ c =? 46) || isDigit c then (EmptyString, s)
      else let '(u, rest) := splitUnit s' in (String c u, rest)
  | EmptyString => (EmptyString, EmptyString)
  end.

(** The micro sign U+00B5 and the Greek mu U+03BC, in UTF-8. *)
Definition micro_us : string :=
  String (ascii_of_nat 194) (String (ascii_of_nat 181) "s").
Definition mu_us : string :=
  String (ascii_of_nat 206) (String (ascii_of_nat 188) "s").

Definition unitMap (u : string) : option Z :=
  if String.eqb u "ns" then Some Nanosecond
  else if String.eqb u "us" then Some Microsecond
  else if String.eqb u micro_us then Some Microsecond
  else if String.eqb u mu_us then Some Microsecond
  else if String.eqb u "ms" then Some Millisecond
  else if String.eqb u "s" then Some Second
  else if String.eqb u "m" then Some Minute
  else if String.eqb u "h" then Some Hour
  else None.

(** One turn of the loop [for s != ""] of [ParseDuration]: a number, a unit,
    and the sum so far.  Returns the new sum and the rest of the input. *)
Definition parseTerm (orig s : string) (d : Z) : result (Z * string) ParseError :=
  match s with
  | EmptyString => Err (invalid_duration orig)
  | String c0 _ =>
      if negb ((byteZ c0 =? 46) || isDigit c0) then Err (invalid_duration orig)
      else
        let pl := len s in
        match leadingInt s with
        | None => Err (invalid_duration orig)
        | Some (v, s) =>
            let pre := negb (pl =? len s) in
            let '(f, scale, post, s) :=
              match s with
              | String c s' =>
                  if byteZ c =? 46 then
                    let pl := len s' in
                    let '(f, scale, s'') := leadingFraction s' in
                    (f, scale, negb (pl =? len s''), s'')
                  else (0, float64.of_uint64 1, false, s)
              | EmptyString => (0, float64.of_uint64 1, false, s)
              end in
            if negb pre && negb post then Err (invalid_duration orig)
            else
              let '(u, s) := splitUnit s in
              if String.eqb u "" then Err (missing_unit orig)
              else
                match unitMap u with
                | None => Err (unknown_unit u orig)
                | Some unit =>
                    if v >? 2 ^ 63 / unit then Err (invalid_duration orig)
                    else
                      let v := wrap_uint64 (v * unit) in
                      let v' :=
                        if f >? 0 then
                          wrap_uint64
                            (v + float64.to_uint64
                                   (float64.mul (float64.of_uint64 f)
                                      (float64.div (float64.of_uint64 unit) scale)))
                        else v in
                      if (f >? 0) && (v' >? 2 ^ 63) then Err (invalid_duration orig)
                      else
                        let d := wrap_uint64 (d + v') in
                        if d >? 2 ^ 63 then Err (invalid_duration orig)
                        else Ok (d, s)
                end
        end
  end.

(** The loop itself.  Every turn consumes at least the unit, so [fuel]
    bounds the number of turns by the length of the input; [None] is
    running out of fuel. *)
Fixpoint parseTerms (fuel : nat) (orig s : string) (d : Z)
    : option (result Z ParseError) :=
  match s with
  | EmptyString => Some (Ok d)
  | String _ _ =>
      match fuel with
      | O => None
      | S fuel =>
          match parseTerm orig s d with
          | Err e => Some (Err e)
          | Ok (d, s) => parseTerms fuel orig s d
          end
      end
  end.

(** [time.ParseDuration]: an optional sign, then one or more terms, each a
    decimal number (with an optional fraction) followed by a unit. *)
Definition ParseDuration (s : string) : result Duration ParseError :=
  let orig := s in
  let '(neg, s) :=
    match s with
    | String c s' =>
        if (byteZ c =? 45) || (byteZ c =? 43) then (byteZ c =? 45, s')
        else (false, s)
    | EmptyString => (false, s)
    end in
  if String.eqb s "0" then Ok 0
  else if String.eqb s "" then Err (invalid_duration orig)
  else
    match parseTerms (String.length s) orig s 0 with
    | None => Err (invalid_duration orig)
    | Some (Err e) => Err e
    | Some (Ok d) =>
        if neg then Ok (wrap_int64 (- wrap_int64 d))
        else if d >? 2 ^ 63 - 1 then Err (invalid_duration orig)
        else Ok (wrap_int64 d)
    end.
End time.

(** ** Package [encoding/base64]: [URLEncoding.EncodeToString] *)
Module base64.
(** The URL-safe alphabet. *)
Definition encodeURL : string :=
  "ABCDEFGHIJKLMNOPQRSTUVWXYZabcdefghijklmnopqrstuvwxyz0123456789-_".
Definition padChar : ascii := "="%char.

(** [enc.encode[i]] *)
Definition encode (i : Z) : ascii :=
  match String.get (Z.to_nat i) encodeURL with
  | Some c => c
  | None => padChar
  end.

Definition uint_of_byte (b : byte) : Z := Z.of_N (Byte.to_N b).

(** [Encode]: three source bytes give four characters; a remainder of one
    or two bytes is padded with ['=']. *)
Fixpoint EncodeToString (src : list byte) : string :=
  match src with
  | b0 :: b1 :: b2 :: rest =>
      let val :=
        Z.lor (Z.lor (Z.shiftl (uint_of_byte b0) 16) (Z.shiftl (uint_of_byte b1) 8))
          (uint_of_byte b2) in
      String (encode (Z.land (Z.shiftr val 18) 63))
        (String (encode (Z.land (Z.shiftr val 12) 63))
           (String (encode (Z.land (Z.shiftr val 6) 63))
              (String (encode (Z.land val 63)) (EncodeToString rest))))
  | [b0; b1] =>
      let val := Z.lor (Z.shiftl (uint_of_byte b0) 16) (Z.shiftl (uint_of_byte b1) 8) in
      String (encode (Z.land (Z.shiftr val 18) 63))
        (String (encode (Z.land (Z.shiftr val 12) 63))
           (String (encode (Z.land (Z.shiftr val 6) 63))
              (String padChar EmptyString)))
  | [b0] =>
      let val := Z.shiftl (uint_of_byte b0) 16 in
      String (encode (Z.land (Z.shiftr val 18) 63))
        (String (encode (Z.land (Z.shiftr val 12) 63))
           (String padChar (String padChar EmptyString)))
  | [] => EmptyString
  end.
End base64.

(** ** Package [crypto/rand] *)
Module rand.
(** What one call of [rand.Read] meets: a source that delivers a byte for
    every position of the buffer, or a source that fails. *)
Inductive Source : Type :=
| Fill (bytes : nat -> byte)
| Fail (err : string).

(** [rand.Read(b)]: fills [b] entirely, or reports the error. *)
Definition Read (src : Source) (b : list byte) : list byte * option string :=
  match src with
  | Fill bytes => (imap (fun i _ => bytes i) b, None)
  | Fail err => (b, Some err)
  end.
End rand.

(** ** Package [os] *)
Module os.
Abbreviation Environ := (gmap string string) (only parsing).
(** [os.Getenv(key)]: the empty string when the variable is unset. *)
Definition Getenv (env : Environ) (key : string) : string :=
  match env !! key with
  | Some v => v
  | None => ""
  end.
End os.

(** ** Package [unicode/utf8] *)
Module utf8.
Definition RuneError : Z := 65533.
Definition RuneSelf : Z := 128.
Definition UTFMax : nat := 4.

(** The table [first]: what the first byte of a sequence announces.  The
    low three bits are the length, the high four index [acceptRanges];
    [0xF0] marks ASCII and [0xF1] an invalid first byte. *)
Definition first (b : Z) : Z :=
  if b <? 128 then 240
  else if b <? 194 then 241
  else if b <? 224 then 2
  else if b =? 224 then 19
  else if b <? 237 then 3
  else if b =? 237 then 35
  else if b <? 240 then 3
  else if b =? 240 then 52
  else if b <? 244 then 4
  else if b =? 244 then 68
  else 241.

(** The range the second byte must lie in. *)
Definition acceptRanges (i : Z) : Z * Z :=
  if i =? 0 then (128, 191)
  else if i =? 1 then (160, 191)
  else if i =? 2 then (128, 159)
  else if i =? 3 then (144, 191)
  else if i =? 4 then (128, 143)
  else (0, 0).

(** A continuation byte: [locb <= b && b <= hicb]. *)
Definition continuation (b : Z) : bool := (128 <=? b) && (b <=? 191).

(** [utf8.DecodeRuneInString]: the first rune of [s] and its width in
    bytes; [(RuneError, 1)] for an invalid encoding, [(RuneError, 0)] for
    the empty string. *)
Definition DecodeRuneInString (s : string) : Z * nat :=
  match s with
  | EmptyString => (RuneError, 0%nat)
  | String c0 rest =>
      let s0 := byteZ c0 in
      let x := first s0 in
      if 240 <=? x then ((if x =? 240 then s0 else RuneError), 1%nat)
      else
        let sz := Z.land x 7 in
        let accept := acceptRanges (Z.shiftr x 4) in
        match rest with
        | EmptyString => (RuneError, 1%nat)
        | String c1 rest =>
            let s1 := byteZ c1 in
            if (s1 <? accept.1) || (accept.2 <? s1) then (RuneError, 1%nat)
            else if sz <=? 2 then
              (Z.lor (Z.shiftl (Z.land s0 31) 6) (Z.land s1 63), 2%nat)
            else
              match rest with
              | EmptyString => (RuneError, 1%nat)
              | String c2 rest =>
                  let s2 := byteZ c2 in
                  if negb (continuation s2) then (RuneError, 1%nat)
                  else if sz <=? 3 then
                    (Z.lor (Z.lor (Z.shiftl (Z.land s0 15) 12)
                              (Z.shiftl (Z.land s1 63) 6)) (Z.land s2 63), 3%nat)
                  else
                    match rest with
                    | EmptyString => (RuneError, 1%nat)
                    | String c3 _ =>
                        let s3 := byteZ c3 in
                        if negb (continuation s3) then (RuneError, 1%nat)
                        else
                          (Z.lor (Z.lor (Z.lor (Z.shiftl (Z.land s0 7) 18)
                                           (Z.shiftl (Z.land s1 63) 12))
                                    (Z.shiftl (Z.land s2 63) 6)) (Z.land s3 63), 4%nat)
                    end
              end
        end
  end.

(** [utf8.RuneStart]: not a continuation byte. *)
Definition RuneStart (b : Z) : bool := negb (Z.land b 192 =? 128).

(** The backward scan of [DecodeLastRuneInString]: from [start], step down
    to a byte that can start a rune, but not below [lim]. *)
Fixpoint backToStart (steps : nat) (s : string) (start lim : nat) : Z :=
  match steps with
  | O => Z.of_nat start - 1
  | S steps =>
      match start with
      | O => -1
      | S start' =>
          if (start' <? lim)%nat then Z.of_nat start'
          else
            match String.get start' s with
            | Some c =>
                if RuneStart (byteZ c) then Z.of_nat start'
                else backToStart steps s start' lim
            | None => Z.of_nat start'
            end
      end
  end.

(** [utf8.DecodeLastRuneInString]: the last rune of [s] and its width. *)
Definition DecodeLastRuneInString (s : string) : Z * nat :=
  let end_ := String.length s in
  match end_ with
  | O => (RuneError, 0%nat)
  | S start =>
      match String.get start s with
      | None => (RuneError, 0%nat)
      | Some c =>
          let r := byteZ c in
          if r <? RuneSelf then (r, 1%nat)
          else
            let lim := (end_ - UTFMax)%nat in
            let start := Z.to_nat (Z.max 0 (backToStart UTFMax s start lim)) in
            let '(r, size) :=
              DecodeRuneInString (String.substring start (end_ - start) s) in
            if (start + size =? end_)%nat then (r, size) else (RuneError, 1%nat)
      end
  end.
End utf8.

(** ** Package [unicode] *)
Module unicode.
(** [unicode.IsSpace]: the Latin-1 spaces, then the White_Space table. *)
Definition IsSpace (r : Z) : bool :=
  if (0 <=? r) && (r <=? 255) then
    (r =? 9) || (r =? 10) || (r =? 11) || (r =? 12) || (r =? 13) || (r =? 32)
    || (r =? 133) || (r =? 160)
  else
    (r =? 5760) || ((8192 <=? r) && (r <=? 8202)) || (r =? 8232) || (r =? 8233)
    || (r =? 8239) || (r =? 8287) || (r =? 12288).
End unicode.

(** ** Package [strings] *)
Module strings.
(** [s[i:]] and [s[:i]] *)
Definition from (i : nat) (s : string) : string :=
  String.substring i (String.length s - i) s.
Definition upto (i : nat) (s : string) : string := String.substring 0 i s.

(** [strings.HasPrefix] and [strings.TrimPrefix] *)
Definition HasPrefix (s prefix_ : string) : bool := String.prefix prefix_ s.
Definition TrimPrefix (s prefix_ : string) : string :=
  if HasPrefix s prefix_ then from (String.length prefix_) s else s.

(** [strings.Contains] *)
Definition Contains (s substr : string) : bool :=
  match String.index 0 substr s with
  | Some _ => true
  | None => false
  end.

(** [strings.ContainsAny], for a set [chars] of ASCII characters, where
    the search goes byte by byte. *)
Fixpoint ContainsAny (s chars : string) : bool :=
  match s with
  | EmptyString => false
  | String c s' =>
      existsb (Ascii.eqb c) (list_ascii_of_string chars) || ContainsAny s' chars
  end.

(** The table [asciiSpace]. *)
Definition asciiSpace (c : Z) : bool :=
  (c =? 9) || (c =? 10) || (c =? 11) || (c =? 12) || (c =? 13) || (c =? 32).

(** [strings.TrimLeftFunc(s, f)]: skips the runes of [s] that satisfy [f];
    [skip] counts the bytes of the current rune still to pass. *)
Fixpoint trimLeft (f : Z -> bool) (skip : nat) (s : string) : string :=
  match s with
  | EmptyString => EmptyString
  | String _ s' =>
      match skip with
      | S skip => trimLeft f skip s'
      | O =>
          let '(r, size) := utf8.DecodeRuneInString s in
          if f r then trimLeft f (size - 1) s' else s
      end
  end.
Definition TrimLeftFunc (s : string) (f : Z -> bool) : string := trimLeft f 0 s.

(** [lastIndexFunc(s, f, false)]: the byte index of the last rune that does
    not satisfy [f], or -1.  The loop runs down from [i = len(s)]; [skip]
    counts the bytes of the current rune still to pass. *)
Fixpoint lastIndex (s : string) (f : Z -> bool) (skip i : nat) : Z :=
  match i with
  | O => -1
  | S i' =>
      match skip with
      | S skip => lastIndex s f skip i'
      | O =>
          let '(r, size) := utf8.DecodeLastRuneInString (upto i s) in
          if negb (f r) then Z.of_nat (i - size) else lastIndex s f (size - 1) i'
      end
  end.
Definition lastIndexFunc (s : string) (f : Z -> bool) : Z :=
  lastIndex s f 0 (String.length s).

(** [strings.TrimRightFunc] *)
Definition TrimRightFunc (s : string) (f : Z -> bool) : string :=
  let i := lastIndexFunc s f in
  let i :=
    if 0 <=? i then
      match String.get (Z.to_nat i) s with
      | Some c =>
          if utf8.RuneSelf <=? byteZ c then
            i + Z.of_nat (utf8.DecodeRuneInString (from (Z.to_nat i) s)).2
          else i + 1
      | None => i + 1
      end
    else i + 1 in
  upto (Z.to_nat i) s.

(** [strings.TrimFunc] *)
Definition TrimFunc (s : string) (f : Z -> bool) : string :=
  TrimRightFunc (TrimLeftFunc s f) f.

(** The second loop of [TrimSpace], from the end of the string (here the
    reversed rest, last byte first): the number of ASCII spaces passed, and
    whether the loop stopped at a byte outside ASCII. *)
Fixpoint trailingSpaces (rev_s : list ascii) : nat * bool :=
  match rev_s with
  | [] => (0%nat, false)
  | c :: rest =>
      if utf8.RuneSelf <=? byteZ c then (0%nat, true)
      else if asciiSpace (byteZ c) then
        let '(n, nonASCII) := trailingSpaces rest in (S n, nonASCII)
      else (0%nat, false)
  end.

(** [strings.TrimSpace]: the ASCII fast path from both ends; on the first
    byte outside ASCII it hands what is left to the Unicode-aware functions. *)
Fixpoint TrimSpace (s : string) : string :=
  match s with
  | EmptyString => EmptyString
  | String c s' =>
      if utf8.RuneSelf <=? byteZ c then TrimFunc s unicode.IsSpace
      else if asciiSpace (byteZ c) then TrimSpace s'
      else
        let '(n, nonASCII) := trailingSpaces (rev (list_ascii_of_string s)) in
        let stop := (String.length s - n)%nat in
        if nonASCII then TrimRightFunc (upto stop s) unicode.IsSpace
        else upto stop s
  end.
End strings.

(** ** Package [utils] of the session variant: the session table *)
Module utils.
Record sessionData : Type := { UserID : uint; ExpiresAt : time.Time }.

(** The package-level table [activeSessions].  The functions below are
    taken one call at a time, each from the table the previous call left;
    [activeSessionsMutex] is not modelled. *)
Abbreviation Sessions := (gmap string sessionData) (only parsing).

(** The errors [GenerateToken] wraps. *)
Inductive GenerateError : Type :=
| failed_to_generate_random_bytes (err : string)
| invalid_JWT_EXPIRES_IN_value (err : time.ParseError).

(** [errors.New(text)] *)
Inductive error : Type := errors_New (text : string).
Definition Error (e : error) : string := let 'errors_New text := e in text.

(** [GenerateToken] creates a new session ID for the given user ID.  The
    environment, the random source and the clock reading [now] of
    [time.Now()] are what the call observes; the table is threaded. *)
Definition GenerateToken (env : os.Environ) (src : rand.Source) (now : time.Time)
    (userID : uint) (activeSessions : Sessions)
    : result string GenerateError * Sessions :=
  let b := replicate 32 Byte.x00 in
  match rand.Read src b with
  | (_, Some err) => (Err (failed_to_generate_random_bytes err), activeSessions)
  | (b, None) =>
      let sessionID := base64.EncodeToString b in
      let expiresInStr := os.Getenv env "JWT_EXPIRES_IN" in
      let expiresInStr := if String.eqb expiresInStr "" then "24h" else expiresInStr in
      match time.ParseDuration expiresInStr with
      | Err err => (Err (invalid_JWT_EXPIRES_IN_value err), activeSessions)
      | Ok expiresIn =>
          (Ok sessionID,
           <[sessionID := {| UserID := userID; ExpiresAt := time.Add now expiresIn |}]>
             activeSessions)
      end
  end.

(** [ValidateToken] validates a session ID and returns the user ID if
    valid; an expired entry is deleted on the way. *)
Definition ValidateToken (now : time.Time) (sessionID : string)
    (activeSessions : Sessions) : result uint error * Sessions :=
  if String.eqb sessionID "" then (Err (errors_New "empty session ID"), activeSessions)
  else
    match activeSessions !! sessionID with
    | None => (Err (errors_New "invalid session"), activeSessions)
    | Some session =>
        if time.After now (ExpiresAt session) then
          (Err (errors_New "session expired"), delete sessionID activeSessions)
        else (Ok (UserID session), activeSessions)
    end.

(** [CleanupSessions] removes expired sessions: the [range] loop over the
    table, deleting from it as it goes. *)
Definition CleanupSessions (now : time.Time) (activeSessions : Sessions) : Sessions :=
  map_fold
    (fun id session (table : Sessions) =>
       if time.After now (ExpiresAt session) then delete id table else table)
    activeSessions activeSessions.
End utils.

(** ** Package [config] *)
Module config.
(** [getDurationEnvOrDefault] retrieves a duration environment variable or
    returns a default value if not set.  (The warning it logs on a value that
    does not parse is not kept.) *)
Definition getDurationEnvOrDefault (env : os.Environ) (key : string)
    (defaultValue : time.Duration) : time.Duration :=
  let value := os.Getenv env key in
  if String.eqb value "" then defaultValue
  else
    let value :=
      if negb (strings.ContainsAny value "hms") then value ++ "h" else value in
    match time.ParseDuration value with
    | Err _ => defaultValue
    | Ok duration => duration
    end.

(** The field [JWT.ExpiresIn] as [Load] fills it. *)
Definition JWT_ExpiresIn (env : os.Environ) : time.Duration :=
  getDurationEnvOrDefault env "JWT_EXPIRES_IN" (24 * time.Hour).
End config.

(** ** Package [models] *)
Module models.
Module User.
Record t : Type := {
  ID : uint;
  Username : string;
  Email : string;
  Password : string;
  CreatedAt : time.Time;
  UpdatedAt : time.Time;
  DeletedAt : option time.Time
}.
End User.

Definition StatusTodo : string := "todo".
Definition PriorityMedium : string := "medium".

(** The association field [User] of a task is never loaded by the code
    below and is left out. *)
Module Task.
Record t : Type := {
  ID : uint;
  UserID : uint;
  Title : string;
  Description : string;
  DueDate : option time.Time;
  Priority : string;
  Status : string;
  CreatedAt : time.Time;
  UpdatedAt : time.Time;
  DeletedAt : option time.Time
}.
End Task.
End models.

(** ** The record store behind [gorm.DB]

    A conventional relational store: one list of rows per table, the
    primary key in [ID], soft deletion through [DeletedAt].  Every statement
    takes the error the driver reports for it, if any. *)
Module gorm.
Inductive Error : Type :=
| ErrRecordNotFound
| ErrDriver (text : string).

Definition Error_text (e : Error) : string :=
  match e with
  | ErrRecordNotFound => "record not found"
  | ErrDriver text => text
  end.

Section Table.
Context {A : Type} (ID : A -> uint) (DeletedAt : A -> option time.Time).

(** [deleted_at IS NULL] *)
Definition live (row : A) : bool :=
  match DeletedAt row with
  | None => true
  | Some _ => false
  end.

(** [ORDER BY id LIMIT 1] *)
Fixpoint lowest (rows : list A) : option A :=
  match rows with
  | [] => None
  | row :: rows =>
      match lowest rows with
      | Some row' => if (ID row <=? ID row')%N then Some row else Some row'
      | None => Some row
      end
  end.

(** [db.Where(cond).First(&row)] *)
Definition First (fault : option string) (cond : A -> bool) (rows : list A)
    : result A Error :=
  match fault with
  | Some text => Err (ErrDriver text)
  | None =>
      match lowest (List.filter (fun row => live row && cond row) rows) with
      | Some row => Ok row
      | None => Err ErrRecordNotFound
      end
  end.
End Table.

(** [db.NowFunc()], the stamp of [created_at], [updated_at] and [deleted_at].
    [InitDB] opens the store with [mysql.Open] and a [gorm.Config] without
    [NowFunc], so the stamp is the one of the MySQL dialector at its default
    precision: [time.Now().Round(time.Millisecond)]. *)
Definition NowFunc (now : time.Time) : time.Time := time.Round now time.Millisecond.

(** What a [datetime(3)] column keeps of an instant: the driver sends it cut
    to the microsecond and the engine rounds that to the millisecond. *)
Definition datetime3 (t : time.Time) : time.Time :=
  time.Round (time.Truncate t time.Microsecond) time.Millisecond.

(** The row the tasks table keeps for a task: its four time columns are
    [datetime(3)]. *)
Definition stored (task : models.Task.t) : models.Task.t :=
  {| models.Task.ID := models.Task.ID task;
     models.Task.UserID := models.Task.UserID task;
     models.Task.Title := models.Task.Title task;
     models.Task.Description := models.Task.Description task;
     models.Task.DueDate := option_map datetime3 (models.Task.DueDate task);
     models.Task.Priority := models.Task.Priority task;
     models.Task.Status := models.Task.Status task;
     models.Task.CreatedAt := datetime3 (models.Task.CreatedAt task);
     models.Task.UpdatedAt := datetime3 (models.Task.UpdatedAt task);
     models.Task.DeletedAt := option_map datetime3 (models.Task.DeletedAt task) |}.

(** [db.Save(task)]: sets [UpdatedAt] of the task to the stamp and writes
    all its fields to the row with the task's primary key; a key that is not
    in the table is inserted.  The task is returned as the caller's struct
    has it, the table holds it as [stored]. *)
Definition Save (fault : option string) (now : time.Time) (task : models.Task.t)
    (rows : list models.Task.t) : result (models.Task.t * list models.Task.t) Error :=
  match fault with
  | Some text => Err (ErrDriver text)
  | None =>
      let task :=
        {| models.Task.ID := models.Task.ID task;
           models.Task.UserID := models.Task.UserID task;
           models.Task.Title := models.Task.Title task;
           models.Task.Description := models.Task.Description task;
           models.Task.DueDate := models.Task.DueDate task;
           models.Task.Priority := models.Task.Priority task;
           models.Task.Status := models.Task.Status task;
           models.Task.CreatedAt := models.Task.CreatedAt task;
           models.Task.UpdatedAt := NowFunc now;
           models.Task.DeletedAt := models.Task.DeletedAt task |} in
      if existsb (fun row => (models.Task.ID row =? models.Task.ID task)%N) rows then
        Ok (task,
            map (fun row =>
                   if (models.Task.ID row =? models.Task.ID task)%N then stored task
                   else row)
              rows)
      else Ok (task, (rows ++ [stored task])%list)
  end.

(** [db.Delete(task)]: the soft delete of the live row with the task's
    primary key, which sets [deleted_at] to the stamp. *)
Definition Delete (fault : option string) (now : time.Time) (task : models.Task.t)
    (rows : list models.Task.t) : result (list models.Task.t) Error :=
  match fault with
  | Some text => Err (ErrDriver text)
  | None =>
      Ok (map (fun row =>
                 if (models.Task.ID row =? models.Task.ID task)%N
                    && live models.Task.DeletedAt row
                 then
                   {| models.Task.ID := models.Task.ID row;
                      models.Task.UserID := models.Task.UserID row;
                      models.Task.Title := models.Task.Title row;
                      models.Task.Description := models.Task.Description row;
                      models.Task.DueDate := models.Task.DueDate row;
                      models.Task.Priority := models.Task.Priority row;
                      models.Task.Status := models.Task.Status row;
                      models.Task.CreatedAt := models.Task.CreatedAt row;
                      models.Task.UpdatedAt := models.Task.UpdatedAt row;
                      models.Task.DeletedAt := Some (NowFunc now) |}
                 else row)
            rows)
  end.
End gorm.

(** ** Package [database] *)
Module database.
Record DB : Type := {
  users : list models.User.t;
  tasks : list models.Task.t
}.
End database.

(** ** Package [middlewares] of the session variant: the request gate *)
Module middlewares.
(** [http.Header]: the values of each header of the request, by name. *)
Record Request : Type := { Header : gmap string (list string) }.

(** [c.GetHeader(key)]: the first value of the header, the empty string
    when there is none. *)
Definition GetHeader (req : Request) (key : string) : string :=
  match Header req !! key with
  | Some (value :: _) => value
  | _ => ""
  end.

Definition StatusUnauthorized : Z := 401.

(** How the gate leaves the request: answered and aborted,
    [c.JSON(code, gin.H{"error": error}); c.Abort()], or handed on with the
    identity attached, [c.Set("userID", userID); c.Set("user", user); c.Next()]. *)
Inductive Outcome : Type :=
| Abort (code : Z) (error : string)
| Next (userID : uint) (user : models.User.t).

(** [AuthMiddleware] authenticates the user by validating the session ID
    from the request header. *)
Definition AuthMiddleware (fault : option string) (db : database.DB)
    (now : time.Time) (req : Request) (activeSessions : utils.Sessions)
    : Outcome * utils.Sessions :=
  let authHeader := GetHeader req "Authorization" in
  if String.eqb authHeader "" then
    (Abort StatusUnauthorized "Authorization header is required", activeSessions)
  else
    let sessionID := strings.TrimSpace authHeader in
    match utils.ValidateToken now sessionID activeSessions with
    | (Err err, activeSessions) =>
        (Abort StatusUnauthorized ("Invalid session: " ++ utils.Error err), activeSessions)
    | (Ok userID, activeSessions) =>
        match
          gorm.First models.User.ID models.User.DeletedAt fault
            (fun user => (models.User.ID user =? userID)%N) (database.users db)
        with
        | Err _ =>
            (Abort StatusUnauthorized "User not found or invalid session", activeSessions)
        | Ok user => (Next userID user, activeSessions)
        end
    end.
End middlewares.

(** ** Package [middlewares] of the JWT variant: the bearer gate *)
Module middlewares_jwt.
(** An error of the JWT validation: its text, and whether it is
    [jwt.ErrTokenExpired]. *)
Record TokenError : Type := { text : string; is_ErrTokenExpired : bool }.

Section Gate.
(** [utils.ValidateToken] of the JWT variant: signature and claims are
    checked by the JWT library. *)
Variable ValidateToken : string -> result uint TokenError.

Definition bearerPrefix : string := "Bearer ".

(** [AuthMiddleware] authenticates the user by validating the JWT token
    from the request header. *)
Definition AuthMiddleware (fault : option string) (db : database.DB)
    (req : middlewares.Request) : middlewares.Outcome :=
  let authHeader := middlewares.GetHeader req "Authorization" in
  if String.eqb authHeader "" then
    middlewares.Abort middlewares.StatusUnauthorized "Authorization header is required"
  else if negb (strings.HasPrefix authHeader bearerPrefix) then
    middlewares.Abort middlewares.StatusUnauthorized
      "Authorization header must be in format: Bearer {token}"
  else
    let tokenString := strings.TrimPrefix authHeader bearerPrefix in
    if String.eqb tokenString "" then
      middlewares.Abort middlewares.StatusUnauthorized "Token cannot be empty"
    else
      match ValidateToken tokenString with
      | Err err =>
          let status := middlewares.StatusUnauthorized in
          let errorMsg :=
            if is_ErrTokenExpired err || strings.Contains (text err) "token expired"
            then "Token has expired"
            else if strings.Contains (text err) "signature" then "Invalid token signature"
            else if strings.Contains (text err) "parsing" then "Token format is invalid"
            else "Invalid token" in
          middlewares.Abort status errorMsg
      | Ok userID =>
          match
            gorm.First models.User.ID models.User.DeletedAt fault
              (fun user => (models.User.ID user =? userID)%N) (database.users db)
          with
          | Err _ =>
              middlewares.Abort middlewares.StatusUnauthorized
                "User not found or invalid token"
          | Ok user => middlewares.Next userID user
          end
      end.
End Gate.
End middlewares_jwt.

(** ** Package [services]: the task service *)
Module services.
Module TaskRequest.
Record t : Type := {
  Title : string;
  Description : string;
  DueDate : option time.Time;
  Priority : string;
  UserID : uint
}.
End TaskRequest.

Module TaskStatusRequest.
Record t : Type := { Status : string; UserID : uint }.
End TaskStatusRequest.

Module TaskFilterOptions.
Record t : Type := {
  UserID : uint;
  Status : string;
  Priority : string;
  SortBy : string;
  Order : string;
  Page : Z;
  PageSize : Z
}.
End TaskFilterOptions.

Record PaginatedTasksResponse : Type := {
  Tasks : list models.Task.t;
  CurrentPage : Z;
  PageSize : Z;
  TotalItems : Z;
  TotalPages : Z
}.

(** A service call runs up to two statements; [faults k] is the error the
    driver reports for the [k]-th of them, if any. *)
Abbreviation Faults := (nat -> option string) (only parsing).

(** [GetTaskByID] retrieves a task by ID if it belongs to the specified user. *)
Definition GetTaskByID (fault : option string) (db : database.DB) (taskID userID : uint)
    : result models.Task.t string :=
  match
    gorm.First models.Task.ID models.Task.DeletedAt fault
      (fun task => (models.Task.ID task =? taskID)%N && (models.Task.UserID task =? userID)%N)
      (database.tasks db)
  with
  | Err gorm.ErrRecordNotFound => Err "task not found"
  | Err err => Err ("failed to retrieve task: " ++ gorm.Error_text err)
  | Ok task => Ok task
  end.

(** [UpdateTask] updates an existing task if it belongs to the specified user. *)
Definition UpdateTask (faults : Faults) (now : time.Time) (db : database.DB)
    (taskID : uint) (req : TaskRequest.t) : result models.Task.t string * database.DB :=
  match GetTaskByID (faults 0%nat) db taskID (TaskRequest.UserID req) with
  | Err err => (Err err, db)
  | Ok task =>
      let task :=
        {| models.Task.ID := models.Task.ID task;
           models.Task.UserID := models.Task.UserID task;
           models.Task.Title := TaskRequest.Title req;
           models.Task.Description := TaskRequest.Description req;
           models.Task.DueDate := TaskRequest.DueDate req;
           models.Task.Priority :=
             if negb (String.eqb (TaskRequest.Priority req) "")
             then TaskRequest.Priority req else models.Task.Priority task;
           models.Task.Status := models.Task.Status task;
           models.Task.CreatedAt := models.Task.CreatedAt task;
           models.Task.UpdatedAt := models.Task.UpdatedAt task;
           models.Task.DeletedAt := models.Task.DeletedAt task |} in
      match gorm.Save (faults 1%nat) now task (database.tasks db) with
      | Err err => (Err ("failed to update task: " ++ gorm.Error_text err), db)
      | Ok (task, rows) =>
          (Ok task, {| database.users := database.users db; database.tasks := rows |})
      end
  end.

(** [UpdateTaskStatus] updates only the status of a task. *)
Definition UpdateTaskStatus (faults : Faults) (now : time.Time) (db : database.DB)
    (taskID : uint) (req : TaskStatusRequest.t)
    : result models.Task.t string * database.DB :=
  match GetTaskByID (faults 0%nat) db taskID (TaskStatusRequest.UserID req) with
  | Err err => (Err err, db)
  | Ok task =>
      let task :=
        {| models.Task.ID := models.Task.ID task;
           models.Task.UserID := models.Task.UserID task;
           models.Task.Title := models.Task.Title task;
           models.Task.Description := models.Task.Description task;
           models.Task.DueDate := models.Task.DueDate task;
           models.Task.Priority := models.Task.Priority task;
           models.Task.Status := TaskStatusRequest.Status req;
           models.Task.CreatedAt := models.Task.CreatedAt task;
           models.Task.UpdatedAt := models.Task.UpdatedAt task;
           models.Task.DeletedAt := models.Task.DeletedAt task |} in
      match gorm.Save (faults 1%nat) now task (database.tasks db) with
      | Err err => (Err ("failed to update task status: " ++ gorm.Error_text err), db)
      | Ok (task, rows) =>
          (Ok task, {| database.users := database.users db; database.tasks := rows |})
      end
  end.

(** [DeleteTask] deletes a task if it belongs to the specified user. *)
Definition DeleteTask (faults : Faults) (now : time.Time) (db : database.DB)
    (taskID userID : uint) : option string * database.DB :=
  match GetTaskByID (faults 0%nat) db taskID userID with
  | Err err => (Some err, db)
  | Ok task =>
      match gorm.Delete (faults 1%nat) now task (database.tasks db) with
      | Err err => (Some ("failed to delete task: " ++ gorm.Error_text err), db)
      | Ok rows => (None, {| database.users := database.users db; database.tasks := rows |})
      end
  end.

Section Listing.
(** The order the database engine gives to an ORDER BY clause: a comparison
    of rows, or the error it reports for a clause it does not accept. *)
Variable orderBy : string -> result (models.Task.t -> models.Task.t -> bool) string.

(** [GetTasks] retrieves tasks with pagination, filtering, and sorting. *)
Definition GetTasks (faults : Faults) (db : database.DB) (options : TaskFilterOptions.t)
    : result PaginatedTasksResponse string :=
  let page := TaskFilterOptions.Page options in
  let page := if page <? 1 then 1 else page in
  let pageSize := TaskFilterOptions.PageSize options in
  let pageSize :=
    if pageSize <? 1 then 10 else if pageSize >? 100 then 100 else pageSize in
  let offset := wrap_int64 ((page - 1) * pageSize) in
  let query :=
    List.filter
      (fun task =>
         gorm.live models.Task.DeletedAt task
         && (models.Task.UserID task =? TaskFilterOptions.UserID options)%N)
      (database.tasks db) in
  let query :=
    if negb (String.eqb (TaskFilterOptions.Status options) "") then
      List.filter
        (fun task => String.eqb (models.Task.Status task) (TaskFilterOptions.Status options))
        query
    else query in
  let query :=
    if negb (String.eqb (TaskFilterOptions.Priority options) "") then
      List.filter
        (fun task =>
           String.eqb (models.Task.Priority task) (TaskFilterOptions.Priority options))
        query
    else query in
  let sortBy :=
    if negb (String.eqb (TaskFilterOptions.SortBy options) "")
    then TaskFilterOptions.SortBy options else "created_at" in
  let order :=
    if negb (String.eqb (TaskFilterOptions.Order options) "")
    then TaskFilterOptions.Order options else "desc" in
  match faults 0%nat with
  | Some text => Err ("failed to count tasks: " ++ text)
  | None =>
      let totalTasks := Z.of_nat (length query) in
      match
        match faults 1%nat with
        | Some text => Err text
        | None =>
            match orderBy (sortBy ++ " " ++ order) with
            | Err text => Err text
            | Ok before =>
                Ok (take (Z.to_nat pageSize)
                      (drop (Z.to_nat offset)
                         (merge_sort (fun x y => Is_true (before x y)) query)))
            end
        end
      with
      | Err text => Err ("failed to retrieve tasks: " ++ text)
      | Ok tasks =>
          let totalPages := Z.quot (wrap_int64 (totalTasks + pageSize - 1)) pageSize in
          Ok {| Tasks := tasks;
                CurrentPage := page;
                PageSize := pageSize;
                TotalItems := totalTasks;
                TotalPages := totalPages |}
      end
  end.
End Listing.
End services.

(** ** Notions the properties are stated with *)

(** The tables the process can be in: [activeSessions] starts empty and
    is only touched by the three functions above. *)
Inductive reachable : utils.Sessions -> Prop :=
| reachable_init : reachable ∅
| reachable_GenerateToken env src now userID st :
    reachable st -> reachable (utils.GenerateToken env src now userID st).2
| reachable_ValidateToken now sessionID st :
    reachable st -> reachable (utils.ValidateToken now sessionID st).2
| reachable_CleanupSessions now st :
    reachable st -> reachable (utils.CleanupSessions now st).

(** One call on the table, and a run of calls, each at its clock reading. *)
Inductive Call : Type :=
| CallGenerateToken (env : os.Environ) (src : rand.Source) (userID : uint)
| CallValidateToken (sessionID : string)
| CallCleanupSessions.

Definition call (now : time.Time) (c : Call) (st : utils.Sessions) : utils.Sessions :=
  match c with
  | CallGenerateToken env src userID => (utils.GenerateToken env src now userID st).2
  | CallValidateToken sessionID => (utils.ValidateToken now sessionID st).2
  | CallCleanupSessions => utils.CleanupSessions now st
  end.

Definition run (calls : list (time.Time * Call)) (st : utils.Sessions) : utils.Sessions :=
  foldl (fun table '(now, c) => call now c table) st calls.

(** The identifier a call of [GenerateToken] stores under, if it stores. *)
Definition issues (now : time.Time) (c : Call) (st : utils.Sessions) : option string :=
  match c with
  | CallGenerateToken env src userID =>
      match (utils.GenerateToken env src now userID st).1 with
      | Ok sessionID => Some sessionID
      | Err _ => None
      end
  | _ => None
  end.

(** A run during which the session [sid] is left to live: no call comes
    after [deadline], and no [GenerateToken] draws [sid] again. *)
Fixpoint undisturbed (sid : string) (deadline : time.Time)
    (calls : list (time.Time * Call)) (st : utils.Sessions) : Prop :=
  match calls with
  | [] => True
  | (now, c) :: calls =>
      now <= deadline /\ issues now c st <> Some sid /\
      undisturbed sid deadline calls (call now c st)
  end.

(** A run of the periodic cleanup, one call per clock reading. *)
Definition sweeps (times : list time.Time) (st : utils.Sessions) : utils.Sessions :=
  foldl (fun table now => utils.CleanupSessions now table) st times.

(** The outcomes of [ValidateToken] under the names of the specification. *)
Definition EmptyCredential : utils.error := utils.errors_New "empty session ID".
Definition NotFound : utils.error := utils.errors_New "invalid session".
Definition Expired : utils.error := utils.errors_New "session expired".

(** The duration [GenerateToken] adds to the clock: [JWT_EXPIRES_IN], or
    ["24h"] when it is unset or empty, through [time.ParseDuration]. *)
Definition configuredTTL (env : os.Environ) : result time.Duration time.ParseError :=
  time.ParseDuration
    (if String.eqb (os.Getenv env "JWT_EXPIRES_IN") "" then "24h"
     else os.Getenv env "JWT_EXPIRES_IN").

(** The value of a string of decimal digits, and the test for such a
    string: the JWT_EXPIRES_IN values "supplied without a unit suffix". *)
Fixpoint decimal_loop (x : Z) (s : string) : Z :=
  match s with
  | EmptyString => x
  | String c s' => decimal_loop (x * 10 + (byteZ c - 48)) s'
  end.
Definition decimal (s : string) : Z := decimal_loop 0 s.
Fixpoint digits (s : string) : bool :=
  match s with
  | EmptyString => true
  | String c s' => isDigit c && digits s'
  end.

(** What may follow the digits [leadingInt] consumes. *)
Definition no_digit_ahead (rest : string) : Prop :=
  match rest with
  | EmptyString => True
  | String c _ => isDigit c = false
  end.

(** Sample inputs. *)
Definition zeros : rand.Source := rand.Fill (fun _ => Byte.x00).
Definition ones : rand.Source := rand.Fill (fun _ => Byte.xff).
Definition zeros_id : string := "AAAAAAAAAAAAAAAAAAAAAAAAAAAAAAAAAAAAAAAAAAA=".
Definition day : time.Duration := 86400000000000.

(** A users table and a tasks table; the times of the rows are whole
    milliseconds, as the tables keep them. *)
Definition alice : models.User.t :=
  {| models.User.ID := 7; models.User.Username := "alice";
     models.User.Email := "alice@example.com"; models.User.Password := "$2a$10$hash";
     models.User.CreatedAt := 500000000; models.User.UpdatedAt := 500000000;
     models.User.DeletedAt := None |}.
Definition task_of_alice : models.Task.t :=
  {| models.Task.ID := 1; models.Task.UserID := 7; models.Task.Title := "write report";
     models.Task.Description := ""; models.Task.DueDate := None;
     models.Task.Priority := "medium"; models.Task.Status := "todo";
     models.Task.CreatedAt := 600000000; models.Task.UpdatedAt := 600000000;
     models.Task.DeletedAt := None |}.
Definition task_of_bob : models.Task.t :=
  {| models.Task.ID := 2; models.Task.UserID := 8; models.Task.Title := "book flights";
     models.Task.Description := ""; models.Task.DueDate := Some 9000000000;
     models.Task.Priority := "high"; models.Task.Status := "todo";
     models.Task.CreatedAt := 700000000; models.Task.UpdatedAt := 700000000;
     models.Task.DeletedAt := None |}.
Definition sample_db : database.DB :=
  {| database.users := [alice]; database.tasks := [task_of_alice; task_of_bob] |}.
Definition no_faults : nat -> option string := fun _ => None.
(** An engine that orders by creation time and knows no other column. *)
Definition by_created_at (clause : string)
    : result (models.Task.t -> models.Task.t -> bool) string :=
  if String.eqb clause "created_at desc" then
    Ok (fun x y => models.Task.CreatedAt y <=? models.Task.CreatedAt x)
  else if String.eqb clause "created_at asc" then
    Ok (fun x y => models.Task.CreatedAt x <=? models.Task.CreatedAt y)
  else Err "Unknown column in 'order clause'".

(** The characters of an identifier: the URL-safe alphabet and the padding. *)
Definition urlsafe (c : ascii) : bool :=
  existsb (Ascii.eqb c) (list_ascii_of_string base64.encodeURL)
  || Ascii.eqb c base64.padChar.

Fixpoint all_chars (p : ascii -> bool) (s : string) : bool :=
  match s with
  | EmptyString => true
  | String c s' => p c && all_chars p s'
  end.

(** A call that is no [GenerateToken]. *)
Definition housekeeping (c : Call) : bool :=
  match c with
  | CallGenerateToken _ _ _ => false
  | _ => true
  end.

(** ** Package [middlewares], continued: the identity attached to the request *)
Module gin.
(** The values the gate stores under the keys of [gin.Context], by their
    dynamic type: [uint], [models.User], [*models.User]. *)
Inductive any : Type :=
| any_uint (n : uint)
| any_User (user : models.User.t)
| any_User_pointer (user : models.User.t).

(** [c.Keys] *)
Abbreviation Keys := (gmap string any) (only parsing).

(** A call returns, or panics on a failed type assertion. *)
Inductive outcome (A : Type) : Type :=
| Returns (a : A)
| Panics (text : string).
Arguments Returns {A} a.
Arguments Panics {A} text.
End gin.

Module middlewares_keys.
(** What [AuthMiddleware] leaves in the context before [c.Next()]:
    [c.Set("userID", userID)] with a [uint] and [c.Set("user", user)] with a
    [models.User] value.  An aborted request gets no key. *)
Definition attached (o : middlewares.Outcome) (keys : gin.Keys) : gin.Keys :=
  match o with
  | middlewares.Next userID user =>
      <["user" := gin.any_User user]> (<["userID" := gin.any_uint userID]> keys)
  | middlewares.Abort _ _ => keys
  end.

(** [GetUserID] retrieves the current user ID from context. *)
Definition GetUserID (keys : gin.Keys) : gin.outcome (uint * bool) :=
  match keys !! "userID" with
  | None => gin.Returns (0%N, false)
  | Some (gin.any_uint userID) => gin.Returns (userID, true)
  | Some (gin.any_User _) =>
      gin.Panics "interface conversion: interface {} is models.User, not uint"
  | Some (gin.any_User_pointer _) =>
      gin.Panics "interface conversion: interface {} is *models.User, not uint"
  end.

(** [GetUser] retrieves the current user from context. *)
Definition GetUser (keys : gin.Keys) : gin.outcome (option models.User.t * bool) :=
  match keys !! "user" with
  | None => gin.Returns (None, false)
  | Some (gin.any_User_pointer user) => gin.Returns (Some user, true)
  | Some (gin.any_User _) =>
      gin.Panics "interface conversion: interface {} is models.User, not *models.User"
  | Some (gin.any_uint _) =>
      gin.Panics "interface conversion: interface {} is uint, not *models.User"
  end.
End middlewares_keys.

(** An ASCII byte that is no white space, and a string of ASCII white space. *)
Definition solid (c : ascii) : bool :=
  (byteZ c <? utf8.RuneSelf) && negb (strings.asciiSpace (byteZ c)).
Definition blank (s : string) : bool :=
  all_chars (fun c => (byteZ c <? utf8.RuneSelf) && strings.asciiSpace (byteZ c)) s.
Definition first_char (s : string) : option ascii :=
  match s with
  | String c _ => Some c
  | EmptyString => None
  end.
Definition last_char (s : string) : option ascii := last (list_ascii_of_string s).

(** A request with one Authorization value. *)
Definition with_authorization (value : string) : middlewares.Request :=
  {| middlewares.Header := {[ "Authorization" := [value] ]} |}.

(** A stand-in for the JWT validation, for sample runs. *)
Definition sample_jwt (token : string) : result uint middlewares_jwt.TokenError :=
  if String.eqb token "good" then Ok 7%N
  else Err {| middlewares_jwt.text := "invalid token: token signature is invalid";
              middlewares_jwt.is_ErrTokenExpired := false |}.

(** ** The record store, continued: [db.Create] *)
Module gorm_create.
(** The duplicate-key error of the engine. *)
Definition duplicate_entry : gorm.Error :=
  gorm.ErrDriver "Error 1062 (23000): Duplicate entry".

(** [db.Create(&task)] for a task whose primary key and timestamps are
    zero, as [CreateTask] builds it: both timestamps are set to the stamp,
    the engine assigns the key [newID] (AUTO_INCREMENT), and the row is
    added, as the table keeps it.  A key that is already in the table is
    refused.  [fault] is any other error of the statement. *)
Definition task (fault : option string) (now : time.Time) (newID : uint)
    (t : models.Task.t) (rows : list models.Task.t)
    : result (models.Task.t * list models.Task.t) gorm.Error :=
  match fault with
  | Some text => Err (gorm.ErrDriver text)
  | None =>
      if existsb (fun row => (models.Task.ID row =? newID)%N) rows then Err duplicate_entry
      else
        let t :=
          {| models.Task.ID := newID;
             models.Task.UserID := models.Task.UserID t;
             models.Task.Title := models.Task.Title t;
             models.Task.Description := models.Task.Description t;
             models.Task.DueDate := models.Task.DueDate t;
             models.Task.Priority := models.Task.Priority t;
             models.Task.Status := models.Task.Status t;
             models.Task.CreatedAt := gorm.NowFunc now;
             models.Task.UpdatedAt := gorm.NowFunc now;
             models.Task.DeletedAt := models.Task.DeletedAt t |} in
        Ok (t, (rows ++ [gorm.stored t])%list)
  end.
End gorm_create.

(** ** Package [services], continued: [CreateTask] *)
Module services_create.
(** [CreateTask] creates a new task for the user. *)
Definition CreateTask (faults : services.Faults) (now : time.Time) (newID : uint)
    (db : database.DB) (req : services.TaskRequest.t)
    : result models.Task.t string * database.DB :=
  let task :=
    {| models.Task.ID := 0;
       models.Task.UserID := services.TaskRequest.UserID req;
       models.Task.Title := services.TaskRequest.Title req;
       models.Task.Description := services.TaskRequest.Description req;
       models.Task.DueDate := services.TaskRequest.DueDate req;
       models.Task.Priority :=
         if negb (String.eqb (services.TaskRequest.Priority req) "")
         then services.TaskRequest.Priority req else models.PriorityMedium;
       models.Task.Status := models.StatusTodo;
       models.Task.CreatedAt := 0;
       models.Task.UpdatedAt := 0;
       models.Task.DeletedAt := None |} in
  match gorm_create.task (faults 0%nat) now newID task (database.tasks db) with
  | Err err => (Err ("failed to create task: " ++ gorm.Error_text err), db)
  | Ok (task, rows) =>
      (Ok task, {| database.users := database.users db; database.tasks := rows |})
  end.
End services_create.

(** The rows a listing is about: the live tasks of the user that pass the
    status and priority filters, when these are given. *)
Definition matching (options : services.TaskFilterOptions.t) (task : models.Task.t) : bool :=
  gorm.live models.Task.DeletedAt task
  && (models.Task.UserID task =? services.TaskFilterOptions.UserID options)%N
  && (String.eqb (services.TaskFilterOptions.Status options) ""
      || String.eqb (models.Task.Status task) (services.TaskFilterOptions.Status options))
  && (String.eqb (services.TaskFilterOptions.Priority options) ""
      || String.eqb (models.Task.Priority task) (services.TaskFilterOptions.Priority options)).

(** The same listing, asked for another page. *)
Definition at_page (options : services.TaskFilterOptions.t) (page : Z)
    : services.TaskFilterOptions.t :=
  {| services.TaskFilterOptions.UserID := services.TaskFilterOptions.UserID options;
     services.TaskFilterOptions.Status := services.TaskFilterOptions.Status options;
     services.TaskFilterOptions.Priority := services.TaskFilterOptions.Priority options;
     services.TaskFilterOptions.SortBy := services.TaskFilterOptions.SortBy options;
     services.TaskFilterOptions.Order := services.TaskFilterOptions.Order options;
     services.TaskFilterOptions.Page := page;
     services.TaskFilterOptions.PageSize := services.TaskFilterOptions.PageSize options |}.

(** The page size [GetTasks] works with. *)
Definition effective_page_size (options : services.TaskFilterOptions.t) : Z :=
  let pageSize := services.TaskFilterOptions.PageSize options in
  if pageSize <? 1 then 10 else if pageSize >? 100 then 100 else pageSize.

(** The ORDER BY clause [GetTasks] builds. *)
Definition order_clause (options : services.TaskFilterOptions.t) : string :=
  (if String.eqb (services.TaskFilterOptions.SortBy options) "" then "created_at"
   else services.TaskFilterOptions.SortBy options)
  ++ " " ++
  (if String.eqb (services.TaskFilterOptions.Order options) "" then "desc"
   else services.TaskFilterOptions.Order options).

(** A request, a status request and a listing of user 7. *)
Definition sample_request : services.TaskRequest.t :=
  {| services.TaskRequest.Title := "pay rent"; services.TaskRequest.Description := "";
     services.TaskRequest.DueDate := None; services.TaskRequest.Priority := "";
     services.TaskRequest.UserID := 7 |}.
(** A tasks table in which user 7 has a second, later task. *)
Definition later_task_of_alice : models.Task.t :=
  {| models.Task.ID := 3; models.Task.UserID := 7; models.Task.Title := "file taxes";
     models.Task.Description := ""; models.Task.DueDate := None;
     models.Task.Priority := "low"; models.Task.Status := "todo";
     models.Task.CreatedAt := 800000000; models.Task.UpdatedAt := 800000000;
     models.Task.DeletedAt := None |}.
Definition busy_db : database.DB :=
  {| database.users := [alice];
     database.tasks := [task_of_alice; task_of_bob; later_task_of_alice] |}.
Definition sample_options : services.TaskFilterOptions.t :=
  {| services.TaskFilterOptions.UserID := 7; services.TaskFilterOptions.Status := "";
     services.TaskFilterOptions.Priority := ""; services.TaskFilterOptions.SortBy := "";
     services.TaskFilterOptions.Order := ""; services.TaskFilterOptions.Page := 0;
     services.TaskFilterOptions.PageSize := 0 |}.

(** ** Package [golang.org/x/crypto/bcrypt] *)
Module bcrypt.
Inductive error : Type :=
| ErrMismatchedHashAndPassword
| ErrOther (text : string).
End bcrypt.

(** ** Package [models], continued: the methods of [User] *)
Module models_User.
Section Methods.
(** [bcrypt.GenerateFromPassword(password, bcrypt.DefaultCost)], which draws
    a salt: the hash this call gets, or the error; and
    [bcrypt.CompareHashAndPassword(hashedPassword, password)]. *)
Variable GenerateFromPassword : string -> result string bcrypt.error.
Variable CompareHashAndPassword : string -> string -> option bcrypt.error.

(** [BeforeSave] is a GORM hook that encrypts the password before saving. *)
Definition BeforeSave (u : models.User.t) : result models.User.t bcrypt.error :=
  if negb (String.eqb (models.User.Password u) "") then
    match GenerateFromPassword (models.User.Password u) with
    | Err err => Err err
    | Ok hashedPassword =>
        Ok {| models.User.ID := models.User.ID u;
              models.User.Username := models.User.Username u;
              models.User.Email := models.User.Email u;
              models.User.Password := hashedPassword;
              models.User.CreatedAt := models.User.CreatedAt u;
              models.User.UpdatedAt := models.User.UpdatedAt u;
              models.User.DeletedAt := models.User.DeletedAt u |}
    end
  else Ok u.

(** The errors of [CheckPassword]. *)
Inductive CheckError : Type :=
| incorrect_password
| other (err : bcrypt.error).

(** [CheckPassword] compares the provided password with the stored hash. *)
Definition CheckPassword (u : models.User.t) (password : string) : option CheckError :=
  match CompareHashAndPassword (models.User.Password u) password with
  | Some bcrypt.ErrMismatchedHashAndPassword => Some incorrect_password
  | Some err => Some (other err)
  | None => None
  end.
End Methods.
End models_User.

(** ** The record store, continued: [db.Create] on the users table *)
Module gorm_users.
(** What [db.Create(&user).Error] can be: the error of the [BeforeSave]
    hook, or an error of the store. *)
Inductive CreateError : Type :=
| hook_error (err : bcrypt.error)
| store_error (err : gorm.Error).

Section Create.
Variable GenerateFromPassword : string -> result string bcrypt.error.
(** The equality of the engine on the text columns [username] and [email]
    (their collation). *)
Variable same : string -> string -> bool.

(** [db.Create(&user)] for a user whose primary key and timestamps are
    zero, as [Register] builds it: the hook runs first; then both
    timestamps are set to the stamp, which a [datetime(3)] column keeps as it
    is, the engine assigns the key [newID], and the row is added.  The columns [username] and [email] are [unique], and the
    key is: a row that has one of the three already, deleted or not, makes
    the engine refuse.  [fault] is any other error of the statement. *)
Definition Create (fault : option string) (now : time.Time) (newID : uint)
    (u : models.User.t) (rows : list models.User.t)
    : result (models.User.t * list models.User.t) CreateError :=
  match models_User.BeforeSave GenerateFromPassword u with
  | Err err => Err (hook_error err)
  | Ok u =>
      match fault with
      | Some text => Err (store_error (gorm.ErrDriver text))
      | None =>
          if existsb
               (fun row =>
                  (models.User.ID row =? newID)%N
                  || same (models.User.Username row) (models.User.Username u)
                  || same (models.User.Email row) (models.User.Email u))
               rows
          then Err (store_error gorm_create.duplicate_entry)
          else
            let u :=
              {| models.User.ID := newID;
                 models.User.Username := models.User.Username u;
                 models.User.Email := models.User.Email u;
                 models.User.Password := models.User.Password u;
                 models.User.CreatedAt := gorm.NowFunc now;
                 models.User.UpdatedAt := gorm.NowFunc now;
                 models.User.DeletedAt := models.User.DeletedAt u |} in
            Ok (u, (rows ++ [u])%list)
      end
  end.
End Create.
End gorm_users.

(** ** Package [services], continued: the user service *)
Module services_users.
Module UserRegisterRequest.
Record t : Type := { Username : string; Email : string; Password : string }.
End UserRegisterRequest.

Module UserLoginRequest.
Record t : Type := { Email : string; Password : string }.
End UserLoginRequest.

Record AuthResponse : Type := { Token : string; User : models.User.t }.

(** The errors [Register] and [Login] return: a fixed text, or a text that
    wraps the error of the step that failed. *)
Inductive Error : Type :=
| username_already_exists
| database_error_while_checking_username (err : gorm.Error)
| email_already_exists
| database_error_while_checking_email (err : gorm.Error)
| failed_to_create_user (err : gorm_users.CreateError)
| failed_to_generate_session (err : utils.GenerateError)
| invalid_email_or_password
| database_error (err : gorm.Error).

Section Service.
Variable GenerateFromPassword : string -> result string bcrypt.error.
Variable CompareHashAndPassword : string -> string -> option bcrypt.error.
Variable same : string -> string -> bool.

(** [Register] creates a new user account.  [faults] are the errors of its
    three statements; [now] is the clock reading of the insert and [now'] the
    later one of [GenerateToken]. *)
Definition Register (faults : services.Faults) (now : time.Time) (newID : uint)
    (env : os.Environ) (src : rand.Source) (now' : time.Time)
    (db : database.DB) (activeSessions : utils.Sessions) (req : UserRegisterRequest.t)
    : result AuthResponse Error * database.DB * utils.Sessions :=
  match
    gorm.First models.User.ID models.User.DeletedAt (faults 0%nat)
      (fun user => same (models.User.Username user) (UserRegisterRequest.Username req))
      (database.users db)
  with
  | Ok _ => (Err username_already_exists, db, activeSessions)
  | Err (gorm.ErrDriver _ as err) =>
      (Err (database_error_while_checking_username err), db, activeSessions)
  | Err gorm.ErrRecordNotFound =>
      match
        gorm.First models.User.ID models.User.DeletedAt (faults 1%nat)
          (fun user => same (models.User.Email user) (UserRegisterRequest.Email req))
          (database.users db)
      with
      | Ok _ => (Err email_already_exists, db, activeSessions)
      | Err (gorm.ErrDriver _ as err) =>
          (Err (database_error_while_checking_email err), db, activeSessions)
      | Err gorm.ErrRecordNotFound =>
          let user :=
            {| models.User.ID := 0;
               models.User.Username := UserRegisterRequest.Username req;
               models.User.Email := UserRegisterRequest.Email req;
               models.User.Password := UserRegisterRequest.Password req;
               models.User.CreatedAt := 0;
               models.User.UpdatedAt := 0;
               models.User.DeletedAt := None |} in
          match
            gorm_users.Create GenerateFromPassword same (faults 2%nat) now newID user
              (database.users db)
          with
          | Err err => (Err (failed_to_create_user err), db, activeSessions)
          | Ok (user, rows) =>
              let db := {| database.users := rows; database.tasks := database.tasks db |} in
              match utils.GenerateToken env src now' (models.User.ID user) activeSessions with
              | (Err err, activeSessions) =>
                  (Err (failed_to_generate_session err), db, activeSessions)
              | (Ok token, activeSessions) =>
                  (Ok {| Token := token; User := user |}, db, activeSessions)
              end
          end
      end
  end.

(** [Login] authenticates a user and returns a token. *)
Definition Login (fault : option string) (env : os.Environ) (src : rand.Source)
    (now : time.Time) (db : database.DB) (activeSessions : utils.Sessions)
    (req : UserLoginRequest.t) : result AuthResponse Error * utils.Sessions :=
  match
    gorm.First models.User.ID models.User.DeletedAt fault
      (fun user => same (models.User.Email user) (UserLoginRequest.Email req))
      (database.users db)
  with
  | Err gorm.ErrRecordNotFound => (Err invalid_email_or_password, activeSessions)
  | Err err => (Err (database_error err), activeSessions)
  | Ok user =>
      match
        models_User.CheckPassword CompareHashAndPassword user (UserLoginRequest.Password req)
      with
      | Some _ => (Err invalid_email_or_password, activeSessions)
      | None =>
          match utils.GenerateToken env src now (models.User.ID user) activeSessions with
          | (Err err, activeSessions) =>
              (Err (failed_to_generate_session err), activeSessions)
          | (Ok token, activeSessions) =>
              (Ok {| Token := token; User := user |}, activeSessions)
          end
      end
  end.
End Service.
End services_users.

(** The user [Register] stores for a request. *)
Definition registered (req : services_users.UserRegisterRequest.t) (hash : string)
    (newID : uint) (now : time.Time) : models.User.t :=
  {| models.User.ID := newID;
     models.User.Username := services_users.UserRegisterRequest.Username req;
     models.User.Email := services_users.UserRegisterRequest.Email req;
     models.User.Password := hash;
     models.User.CreatedAt := gorm.NowFunc now;
     models.User.UpdatedAt := gorm.NowFunc now;
     models.User.DeletedAt := None |}.

(** The users table with one more row. *)
Definition with_user (db : database.DB) (user : models.User.t) : database.DB :=
  {| database.users := (database.users db ++ [user])%list;
     database.tasks := database.tasks db |}.

(** No row of the table, live or deleted, has the key or shares the
    username or the email. *)
Definition available (same : string -> string -> bool) (db : database.DB)
    (newID : uint) (req : services_users.UserRegisterRequest.t) : Prop :=
  forall row, row ∈ database.users db ->
    models.User.ID row <> newID /\
    same (models.User.Username row) (services_users.UserRegisterRequest.Username req) = false /\
    same (models.User.Email row) (services_users.UserRegisterRequest.Email req) = false.

(** Stand-ins for the two bcrypt functions, for sample runs. *)
Definition sample_hash (password : string) : result string bcrypt.error :=
  Ok ("$2a$10$" ++ password).
Definition sample_compare (hashedPassword password : string) : option bcrypt.error :=
  if String.eqb hashedPassword ("$2a$10$" ++ password) then None
  else Some bcrypt.ErrMismatchedHashAndPassword.
Definition sample_register : services_users.UserRegisterRequest.t :=
  {| services_users.UserRegisterRequest.Username := "bob";
     services_users.UserRegisterRequest.Email := "bob@example.com";
     services_users.UserRegisterRequest.Password := "secret" |}.
Definition bob : models.User.t :=
  {| models.User.ID := 8; models.User.Username := "bob";
     models.User.Email := "bob@example.com"; models.User.Password := "$2a$10$secret";
     models.User.CreatedAt := 0; models.User.UpdatedAt := 0;
     models.User.DeletedAt := None |}.

(** ** Package [strconv]: [ParseUint] *)
Module strconv.
Inductive NumError : Type := ErrSyntax | ErrRange.

Definition maxUint64 : Z := 2 ^ 64 - 1.

(** [lower(c)]: [c | ('x' - 'X')] *)
Definition lower (c : Z) : Z := Z.lor c 32.

(** The loop of [ParseUint] over the bytes of [s], from the value [n]. *)
Fixpoint ParseUint_loop (base cutoff maxVal : Z) (s : string) (n : Z)
    : result Z NumError :=
  match s with
  | EmptyString => Ok n
  | String c s =>
      let c := byteZ c in
      match
        if (48 <=? c) && (c <=? 57) then Some (c - 48)
        else if (97 <=? lower c) && (lower c <=? 122) then Some (lower c - 97 + 10)
        else None
      with
      | None => Err ErrSyntax
      | Some d =>
          if d >=? base then Err ErrSyntax
          else if n >=? cutoff then Err ErrRange
          else
            let n := wrap_uint64 (n * base) in
            let n1 := wrap_uint64 (n + d) in
            if (n1 <? n) || (n1 >? maxVal) then Err ErrRange
            else ParseUint_loop base cutoff maxVal s n1
      end
  end.

(** [ParseUint(s, base, bitSize)] for a base from 2 to 36 and a bit size
    from 1 to 64, which is how the code calls it (base 0, with its prefixes
    and underscores, and bit size 0 are left out). *)
Definition ParseUint (s : string) (base bitSize : Z) : result Z NumError :=
  if String.eqb s "" then Err ErrSyntax
  else ParseUint_loop base (maxUint64 / base + 1) (2 ^ bitSize - 1) s 0.
End strconv.

(** ** Package [handlers]: the handlers of the task routes *)
Module handlers.
(** What a handler sends with [c.JSON]: [gin.H{"error": text}],
    [gin.H{"message": text}], or a task. *)
Inductive Body : Type :=
| error (text : string)
| message (text : string)
| task (t : models.Task.t).
Record Response : Type := { code : Z; body : Body }.

Definition StatusOK : Z := 200.
Definition StatusBadRequest : Z := 400.
Definition StatusUnauthorized : Z := 401.
Definition StatusNotFound : Z := 404.
Definition StatusInternalServerError : Z := 500.

(** [GetTask] retrieves a single task by its ID.  [id] is [c.Param("id")]
    and [keys] the keys of the context. *)
Definition GetTask (fault : option string) (db : database.DB) (keys : gin.Keys)
    (id : string) : gin.outcome Response :=
  match strconv.ParseUint id 10 32 with
  | Err _ => gin.Returns {| code := StatusBadRequest; body := error "Invalid task ID" |}
  | Ok taskID =>
      match middlewares_keys.GetUserID keys with
      | gin.Panics text => gin.Panics text
      | gin.Returns (_, false) =>
          gin.Returns {| code := StatusUnauthorized; body := error "Unauthorized" |}
      | gin.Returns (userID, true) =>
          match
            gorm.First models.Task.ID models.Task.DeletedAt fault
              (fun task =>
                 (Z.of_N (models.Task.ID task) =? taskID)
                 && (models.Task.UserID task =? userID)%N)
              (database.tasks db)
          with
          | Err gorm.ErrRecordNotFound =>
              gin.Returns {| code := StatusNotFound; body := error "Task not found" |}
          | Err err =>
              gin.Returns
                {| code := StatusInternalServerError;
                   body := error ("Failed to retrieve task: " ++ gorm.Error_text err) |}
          | Ok t => gin.Returns {| code := StatusOK; body := task t |}
          end
      end
  end.

(** [DeleteTask] deletes a task by its ID. *)
Definition DeleteTask (faults : services.Faults) (now : time.Time) (db : database.DB)
    (keys : gin.Keys) (id : string) : gin.outcome Response * database.DB :=
  match strconv.ParseUint id 10 32 with
  | Err _ =>
      (gin.Returns {| code := StatusBadRequest; body := error "Invalid task ID" |}, db)
  | Ok taskID =>
      match middlewares_keys.GetUserID keys with
      | gin.Panics text => (gin.Panics text, db)
      | gin.Returns (_, false) =>
          (gin.Returns {| code := StatusUnauthorized; body := error "Unauthorized" |}, db)
      | gin.Returns (userID, true) =>
          match
            gorm.First models.Task.ID models.Task.DeletedAt (faults 0%nat)
              (fun task =>
                 (Z.of_N (models.Task.ID task) =? taskID)
                 && (models.Task.UserID task =? userID)%N)
              (database.tasks db)
          with
          | Err gorm.ErrRecordNotFound =>
              (gin.Returns {| code := StatusNotFound; body := error "Task not found" |}, db)
          | Err err =>
              (gin.Returns
                 {| code := StatusInternalServerError;
                    body := error ("Failed to retrieve task: " ++ gorm.Error_text err) |},
               db)
          | Ok t =>
              match gorm.Delete (faults 1%nat) now t (database.tasks db) with
              | Err err =>
                  (gin.Returns
                     {| code := StatusInternalServerError;
                        body := error ("Failed to delete task: " ++ gorm.Error_text err) |},
                   db)
              | Ok rows =>
                  (gin.Returns
                     {| code := StatusOK; body := message "Task deleted successfully" |},
                   {| database.users := database.users db; database.tasks := rows |})
              end
          end
      end
  end.
End handlers.

(** ** Package [routes]: the task routes behind the gate *)
Module routes.
(** [tasks.Use(middlewares.AuthMiddleware())] before a handler of the group:
    a request the gate aborts gets the gate's answer and the handler does not
    run; otherwise the handler runs on the context the gate has filled. *)
Definition guarded {S : Type} (fault : option string) (db : database.DB)
    (now : time.Time) (req : middlewares.Request) (activeSessions : utils.Sessions)
    (handler : gin.Keys -> gin.outcome handlers.Response * S) (unchanged : S)
    : gin.outcome handlers.Response * S * utils.Sessions :=
  match middlewares.AuthMiddleware fault db now req activeSessions with
  | (middlewares.Abort code error, activeSessions) =>
      (gin.Returns {| handlers.code := code; handlers.body := handlers.error error |},
       unchanged, activeSessions)
  | (middlewares.Next _ _ as passed, activeSessions) =>
      let '(response, s) := handler (middlewares_keys.attached passed ∅) in
      (response, s, activeSessions)
  end.

(** [tasks.GET("/:id", handlers.GetTask)] *)
Definition GET_task (faults : services.Faults) (db : database.DB) (now : time.Time)
    (req : middlewares.Request) (id : string) (activeSessions : utils.Sessions)
    : gin.outcome handlers.Response * utils.Sessions :=
  let '(response, _, activeSessions) :=
    guarded (faults 0%nat) db now req activeSessions
      (fun keys => (handlers.GetTask (faults 1%nat) db keys id, tt)) tt in
  (response, activeSessions).

(** [tasks.DELETE("/:id", handlers.DeleteTask)]; [now] is the clock reading
    of the gate and [now'] that of the delete. *)
Definition DELETE_task (faults : services.Faults) (db : database.DB) (now now' : time.Time)
    (req : middlewares.Request) (id : string) (activeSessions : utils.Sessions)
    : gin.outcome handlers.Response * database.DB * utils.Sessions :=
  guarded (faults 0%nat) db now req activeSessions
    (fun keys => handlers.DeleteTask (fun k => faults (S k)) now' db keys id) db.
End routes.

(** The task key an id parameter stands for: the value of a non-empty
    string of decimal digits, when it is below 2^32. *)
Definition task_key (id : string) : option Z :=
  if negb (String.eqb id "") && digits id && (decimal id <? 2 ^ 32) then Some (decimal id)
  else None.

(** The query of the task handlers, once the parameter is parsed and the
    gate has attached the user. *)
Definition owned (n : Z) (userID : uint) (task : models.Task.t) : bool :=
  (Z.of_N (models.Task.ID task) =? n) && (models.Task.UserID task =? userID)%N.

(** The session table after one login of user 7 at 1000, and its session. *)
Definition sample_sessions : gmap string utils.sessionData :=
  (utils.GenerateToken ∅ zeros 1000 7%N ∅).2.
Definition sample_session : utils.sessionData :=
  {| utils.UserID := 7%N; utils.ExpiresAt := 1000 + day |}.

(* ===================================================================== *)
(** * Part II: properties                                                 *)
(* ===================================================================== *)

(** ** The clock *)

Lemma After_lt (t u : Z) : time.After t u = true <-> u < t.
Proof. unfold time.After. apply Z.ltb_lt. Qed.

Lemma After_ge (t u : Z) : time.After t u = false <-> t <= u.
Proof. unfold time.After. rewrite Z.ltb_ge. reflexivity. Qed.

(** ** The library functions on sample inputs *)

Example ParseDuration_samples :
  time.ParseDuration "24h" = Ok (24 * time.Hour) /\
  time.ParseDuration "1h30m" = Ok (90 * time.Minute) /\
  time.ParseDuration "1.5h" = Ok (90 * time.Minute) /\
  time.ParseDuration "-1.5h" = Ok (- (90 * time.Minute)) /\
  time.ParseDuration "0.3333333333333333333h" = Ok (20 * time.Minute) /\
  time.ParseDuration "9223372036854775807ns" = Ok (2 ^ 63 - 1) /\
  time.ParseDuration "-9223372036854775808ns" = Ok (- 2 ^ 63) /\
  time.ParseDuration "0" = Ok 0 /\
  time.ParseDuration "48" = Err (time.missing_unit "48") /\
  time.ParseDuration "7d" = Err (time.unknown_unit "d" "7d") /\
  time.ParseDuration "" = Err (time.invalid_duration "") /\
  time.ParseDuration "3000000h" = Err (time.invalid_duration "3000000h").
Proof. repeat split; vm_compute; reflexivity. Qed.

Example EncodeToString_samples :
  base64.EncodeToString [Byte.x66; Byte.x6f; Byte.x6f] = "Zm9v" /\
  base64.EncodeToString [Byte.x66; Byte.x6f] = "Zm8=" /\
  base64.EncodeToString [Byte.x66] = "Zg==" /\
  base64.EncodeToString [Byte.xfb; Byte.xff] = "-_8=".
Proof. repeat split; reflexivity. Qed.

Example TrimSpace_samples :
  strings.TrimSpace "  abc def  " = "abc def" /\
  strings.TrimSpace "   " = "" /\
  strings.TrimSpace "Bearer abc " = "Bearer abc" /\
  strings.TrimSpace
    (String (ascii_of_nat 194) (String (ascii_of_nat 160) " x ")) = "x".
Proof. repeat split; vm_compute; reflexivity. Qed.

(** ** [time.ParseDuration] on decimal values *)

Lemma isDigit_range c : isDigit c = true <-> 48 <= byteZ c <= 57.
Proof. unfold isDigit. rewrite andb_true_iff, !Z.leb_le. reflexivity. Qed.

Lemma decimal_loop_ge s : forall x, digits s = true -> 0 <= x -> x <= decimal_loop x s.
Proof.
  induction s as [|c s IH]; intros x Hd Hx; simpl in *; [lia|].
  apply andb_true_iff in Hd as [Hc%isDigit_range Hd].
  specialize (IH (x * 10 + (byteZ c - 48)) Hd). lia.
Qed.

Lemma append_nil_l (s : string) : "" ++ s = s.
Proof. reflexivity. Qed.
Lemma append_cons (c : ascii) (s t : string) : String c s ++ t = String c (s ++ t).
Proof. reflexivity. Qed.

Lemma leadingInt_loop_digits s rest : forall x,
  digits s = true -> 0 <= x -> decimal_loop x s <= 2 ^ 63 -> no_digit_ahead rest ->
  time.leadingInt_loop x (s ++ rest) = Some (decimal_loop x s, rest).
Proof.
  induction s as [|c s IH]; intros x Hd Hx Hmax Hrest.
  - rewrite append_nil_l. destruct rest as [|c rest]; [done|].
    cbn [time.leadingInt_loop]. cbn [no_digit_ahead] in Hrest. by rewrite Hrest.
  - simpl in Hd, Hmax. apply andb_true_iff in Hd as [Hc Hd].
    pose proof Hc as Hr%isDigit_range.
    pose proof (decimal_loop_ge s (x * 10 + (byteZ c - 48)) Hd ltac:(lia)) as Hge.
    rewrite append_cons. cbn [time.leadingInt_loop]. rewrite Hc.
    assert ((x >? 2 ^ 63 / 10) = false) as ->.
    { rewrite Z.gtb_ltb. apply Z.ltb_ge. apply Z.div_le_lower_bound; lia. }
    assert (wrap_uint64 (x * 10 + byteZ c - 48) = x * 10 + (byteZ c - 48)) as ->.
    { unfold wrap_uint64. rewrite Z.mod_small; lia. }
    assert ((x * 10 + (byteZ c - 48) >? 2 ^ 63) = false) as ->.
    { rewrite Z.gtb_ltb. apply Z.ltb_ge. lia. }
    apply IH; [done | lia | done | done].
Qed.

Lemma leadingInt_loop_all_digits s : forall x,
  digits s = true ->
  time.leadingInt_loop x s = None \/ exists v, time.leadingInt_loop x s = Some (v, "").
Proof.
  induction s as [|c s IH]; intros x Hd; [right; by eexists|].
  cbn [digits] in Hd. apply andb_true_iff in Hd as [Hc Hd].
  cbn [time.leadingInt_loop]. rewrite Hc.
  destruct (x >? 2 ^ 63 / 10); [by left|].
  destruct (wrap_uint64 (x * 10 + byteZ c - 48) >? 2 ^ 63); [by left|].
  by apply IH.
Qed.

Lemma eqb_cons_nonempty c c' s : s <> "" -> String.eqb (String c s) (String c' "") = false.
Proof. intros Hs. cbn [String.eqb]. destruct s; [done|]. by destruct (Ascii.eqb c c'). Qed.

(** A value made of decimal digits only, other than "0", is no Go duration:
    the unit is missing (or the number overflows). *)
Lemma ParseDuration_unitless s :
  digits s = true -> s <> "" -> s <> "0" ->
  time.ParseDuration s = Err (time.invalid_duration s) \/
  time.ParseDuration s = Err (time.missing_unit s).
Proof.
  intros Hd Hne H0. destruct s as [|c0 s]; [done|].
  pose proof Hd as Hd'. cbn [digits] in Hd'. apply andb_true_iff in Hd' as [Hc Hds].
  pose proof Hc as Hr%isDigit_range.
  unfold time.ParseDuration.
  assert ((byteZ c0 =? 45) || (byteZ c0 =? 43) = false) as ->.
  { apply orb_false_iff. split; apply Z.eqb_neq; lia. }
  assert (String.eqb (String c0 s) "0" = false) as ->.
  { apply String.eqb_neq. done. }
  assert (String.eqb (String c0 s) "" = false) as -> by done.
  cbn [String.length time.parseTerms].
  assert (time.parseTerm (String c0 s) (String c0 s) 0 = Err (time.invalid_duration (String c0 s)) \/
          time.parseTerm (String c0 s) (String c0 s) 0 = Err (time.missing_unit (String c0 s))) as [-> | ->];
    [|by left|by right].
  unfold time.parseTerm. rewrite Hc, orb_true_r. cbn [negb].
  unfold time.leadingInt.
  destruct (leadingInt_loop_all_digits (String c0 s) 0 Hd) as [-> | [v ->]]; [by left|].
  assert ((len (String c0 s) =? len "") = false) as ->.
  { apply Z.eqb_neq. unfold len. simpl. lia. }
  cbn. by right.
Qed.

Lemma decimal_loop_nonneg s : forall x, digits s = true -> 0 <= x -> 0 <= decimal_loop x s.
Proof. intros x Hd Hx. pose proof (decimal_loop_ge s x Hd Hx). lia. Qed.

Lemma parseTerms_nil fuel orig d : time.parseTerms fuel orig "" d = Some (Ok d).
Proof. by destruct fuel. Qed.

(** A decimal number of hours, up to the largest that fits a duration. *)
Lemma ParseDuration_hours s :
  digits s = true -> s <> "" -> decimal s <= 2562047 ->
  time.ParseDuration (s ++ "h") = Ok (decimal s * time.Hour).
Proof.
  intros Hd Hne Hmax. destruct s as [|c0 s]; [done|].
  pose proof Hd as Hd'. cbn [digits] in Hd'. apply andb_true_iff in Hd' as [Hc Hds].
  pose proof Hc as Hr%isDigit_range.
  pose proof (decimal_loop_nonneg (String c0 s) 0 Hd ltac:(lia)) as Hpos.
  fold (decimal (String c0 s)) in Hpos.
  rewrite append_cons. unfold time.ParseDuration.
  assert ((byteZ c0 =? 45) || (byteZ c0 =? 43) = false) as ->.
  { apply orb_false_iff. split; apply Z.eqb_neq; lia. }
  assert (String.eqb (String c0 (s ++ "h")) "0" = false) as ->.
  { apply eqb_cons_nonempty. by destruct s. }
  assert (String.eqb (String c0 (s ++ "h")) "" = false) as -> by done.
  cbn [String.length time.parseTerms].
  assert (time.parseTerm (String c0 (s ++ "h")) (String c0 (s ++ "h")) 0 =
          Ok (decimal (String c0 s) * time.Hour, "")) as ->.
  { unfold time.parseTerm. rewrite Hc, orb_true_r. cbn [negb].
    unfold time.leadingInt. rewrite <- append_cons.
    rewrite (leadingInt_loop_digits (String c0 s) "h" 0 Hd); [|lia| |done].
    2:{ fold (decimal (String c0 s)). lia. }
    fold (decimal (String c0 s)).
    assert ((len (String c0 s ++ "h") =? len "h") = false) as ->.
    { apply Z.eqb_neq. unfold len. rewrite append_cons. cbn [String.length].
      destruct s; simpl; lia. }
    cbn [negb andb].
    change (byteZ "h" =? 46) with false. cbv iota beta.
    change (time.splitUnit "h") with ("h", ""). cbv iota beta.
    change (String.eqb "h" "") with false. cbv iota.
    change (time.unitMap "h") with (Some time.Hour). cbv iota beta.
    change (0 >? 0) with false. cbv iota. cbn [andb].
    change (2 ^ 63 / time.Hour) with 2562047.
    assert ((decimal (String c0 s) >? 2562047) = false) as ->.
    { rewrite Z.gtb_ltb. apply Z.ltb_ge. lia. }
    assert (wrap_uint64 (decimal (String c0 s) * time.Hour) = decimal (String c0 s) * time.Hour) as ->.
    { unfold wrap_uint64. apply Z.mod_small. change time.Hour with 3600000000000. lia. }
    assert (wrap_uint64 (0 + decimal (String c0 s) * time.Hour) = decimal (String c0 s) * time.Hour) as ->.
    { unfold wrap_uint64. rewrite Z.add_0_l. apply Z.mod_small.
      change time.Hour with 3600000000000. lia. }
    assert ((decimal (String c0 s) * time.Hour >? 2 ^ 63) = false) as ->.
    { rewrite Z.gtb_ltb. apply Z.ltb_ge. change time.Hour with 3600000000000. lia. }
    done. }
  rewrite parseTerms_nil.
  assert ((decimal (String c0 s) * time.Hour >? 2 ^ 63 - 1) = false) as ->.
  { rewrite Z.gtb_ltb. apply Z.ltb_ge. change time.Hour with 3600000000000. lia. }
  f_equal. unfold wrap_int64. change time.Hour with 3600000000000.
  rewrite Z.mod_small; lia.
Qed.

Lemma ContainsAny_digits s : digits s = true -> strings.ContainsAny s "hms" = false.
Proof.
  induction s as [|c s IH]; intros Hd; [done|].
  cbn [digits] in Hd. apply andb_true_iff in Hd as [Hc%isDigit_range Hd].
  cbn [strings.ContainsAny]. rewrite (IH Hd), orb_false_r.
  change (list_ascii_of_string "hms") with ["h"; "m"; "s"]%char.
  cbn [existsb]. rewrite orb_false_r.
  assert (forall c', (byteZ c' < 48 \/ 57 < byteZ c') -> Ascii.eqb c c' = false) as Hneq.
  { intros c' Hc'. apply Ascii.eqb_neq. intros ->. lia. }
  rewrite !Hneq; [done| | |]; vm_compute; right; done.
Qed.

Lemma getDurationEnvOrDefault_hours env key def s :
  os.Getenv env key = s ->
  digits s = true -> s <> "" -> decimal s <= 2562047 ->
  config.getDurationEnvOrDefault env key def = decimal s * time.Hour.
Proof.
  intros Henv Hd Hne Hmax. unfold config.getDurationEnvOrDefault. rewrite Henv.
  rewrite (proj2 (String.eqb_neq s "") Hne).
  rewrite (ContainsAny_digits s Hd). cbn [negb].
  by rewrite (ParseDuration_hours s Hd Hne Hmax).
Qed.

(** ** The loop of [ParseDuration] never runs out of fuel *)

Lemma leadingInt_loop_length s : forall x v rest,
  time.leadingInt_loop x s = Some (v, rest) -> (String.length rest <= String.length s)%nat.
Proof.
  induction s as [|c s IH]; intros x v rest; cbn [time.leadingInt_loop].
  - intros [= _ <-]. done.
  - destruct (isDigit c); [|intros [= _ <-]; done].
    destruct (x >? 2 ^ 63 / 10); [done|].
    destruct (_ >? 2 ^ 63); [done|].
    intros H%IH. cbn [String.length]. lia.
Qed.

Lemma leadingFraction_loop_length s : forall x scale overflow,
  (String.length (time.leadingFraction_loop x scale overflow s).2 <= String.length s)%nat.
Proof.
  induction s as [|c s IH]; intros x scale overflow; cbn [time.leadingFraction_loop]; [done|].
  destruct (isDigit c); [|done]. cbn [String.length].
  destruct overflow; [by apply Nat.le_le_succ_r|].
  destruct (x >? _); [by apply Nat.le_le_succ_r|].
  destruct (_ >? 2 ^ 63); by apply Nat.le_le_succ_r.
Qed.

Lemma splitUnit_length s :
  String.length s = (String.length (time.splitUnit s).1 + String.length (time.splitUnit s).2)%nat.
Proof.
  induction s as [|c s IH]; [done|]. cbn [time.splitUnit].
  destruct ((byteZ c =? 46) || isDigit c); [done|].
  destruct (time.splitUnit s) as [u rest]. simpl in *. lia.
Qed.

Lemma parseTerm_shrinks orig s d d' s' :
  time.parseTerm orig s d = Ok (d', s') -> (String.length s' < String.length s)%nat.
Proof.
  unfold time.parseTerm. destruct s as [|c0 s0]; [done|].
  destruct (negb _); [done|].
  destruct (time.leadingInt (String c0 s0)) as [[v s1]|] eqn:Hint; [|done].
  apply leadingInt_loop_length in Hint.
  set (frac := match s1 with String c s'0 => _ | EmptyString => _ end).
  assert (String.length frac.2 <= String.length s1)%nat as Hfrac.
  { subst frac. destruct s1 as [|c s1']; [done|].
    destruct (byteZ c =? 46); [|done].
    unfold time.leadingFraction.
    pose proof (leadingFraction_loop_length s1' 0 (float64.of_uint64 1) false) as Hl.
    destruct (time.leadingFraction_loop _ _ _ _) as [[f scale] s'']. simpl in *. lia. }
  destruct frac as [[[f scale] post] s2]. cbn [snd] in Hfrac.
  destruct (negb _ && negb post); [done|].
  pose proof (splitUnit_length s2) as Hunit.
  destruct (time.splitUnit s2) as [u s3]. cbn [fst snd] in Hunit.
  destruct (String.eqb u "") eqn:Hu; [done|].
  apply String.eqb_neq in Hu.
  destruct (time.unitMap u) as [unit|]; [|done].
  destruct (v >? _); [done|].
  destruct (_ && _); [done|].
  destruct (_ >? 2 ^ 63); [done|].
  intros [= _ <-]. destruct u; [done|]. cbn [String.length] in *. lia.
Qed.

Lemma parseTerms_fuel orig : forall fuel s d,
  (String.length s <= fuel)%nat -> time.parseTerms fuel orig s d <> None.
Proof.
  induction fuel as [|fuel IH]; intros s d Hlen.
  - destruct s; [done|]. cbn [String.length] in Hlen. lia.
  - destruct s as [|c s]; [done|]. cbn [time.parseTerms].
    destruct (time.parseTerm orig (String c s) d) as [[d' s']|e] eqn:Hterm; [|done].
    apply parseTerm_shrinks in Hterm. apply IH. lia.
Qed.

(** The fuel [ParseDuration] starts its loop with is enough. *)
Lemma ParseDuration_fuel orig s d :
  time.parseTerms (String.length s) orig s d <> None.
Proof. by apply parseTerms_fuel. Qed.

(** ** Session identifiers are never empty *)

Lemma EncodeToString_nil_inv (src : list byte) :
  base64.EncodeToString src = "" -> src = [].
Proof. destruct src as [|b0 [|b1 [|b2 rest]]]; simpl; congruence. Qed.

Lemma GenerateToken_Ok_inv env src now userID (st : gmap string utils.sessionData) sid st' :
  utils.GenerateToken env src now userID st = (Ok sid, st') ->
  exists bytes ttl,
    src = rand.Fill bytes /\
    sid = base64.EncodeToString (imap (fun i _ => bytes i) (replicate 32 Byte.x00)) /\
    configuredTTL env = Ok ttl /\
    st' = <[sid := {| utils.UserID := userID; utils.ExpiresAt := now + ttl |}]> st.
Proof.
  unfold utils.GenerateToken, configuredTTL.
  destruct src as [bytes|err]; cbn [rand.Read]; [|discriminate].
  destruct (time.ParseDuration _) as [ttl|e] eqn:Httl; [|discriminate].
  intros [= <- <-]. exists bytes, ttl. repeat split; done.
Qed.

Lemma GenerateToken_id_nonempty env src now userID (st : gmap string utils.sessionData) sid st' :
  utils.GenerateToken env src now userID st = (Ok sid, st') -> sid <> "".
Proof.
  intros (bytes & ttl & _ & -> & _ & _)%GenerateToken_Ok_inv Hnil.
  apply EncodeToString_nil_inv in Hnil. discriminate Hnil.
Qed.

(** An identifier is the 44 characters that encode 32 bytes. *)
Lemma GenerateToken_id_length env src now userID (st : gmap string utils.sessionData) sid st' :
  utils.GenerateToken env src now userID st = (Ok sid, st') -> String.length sid = 44%nat.
Proof. intros (bytes & ttl & _ & -> & _ & _)%GenerateToken_Ok_inv. reflexivity. Qed.

(** ** Lookups after each operation *)

Lemma ValidateToken_table now sid (st : gmap string utils.sessionData) :
  (utils.ValidateToken now sid st).2 = st \/
  (utils.ValidateToken now sid st).2 = delete sid st.
Proof.
  unfold utils.ValidateToken.
  destruct (String.eqb sid ""); [by left|].
  destruct (st !! sid) as [session|]; [|by left].
  destruct (time.After now _); [by right | by left].
Qed.

Lemma CleanupSessions_fold_lookup now (acc m : gmap string utils.sessionData) id :
  map_fold
    (fun id session (table : gmap string utils.sessionData) =>
       if time.After now (utils.ExpiresAt session) then delete id table else table)
    acc m !! id =
  match m !! id with
  | Some session => if time.After now (utils.ExpiresAt session) then None else acc !! id
  | None => acc !! id
  end.
Proof.
  revert id.
  apply (map_fold_weak_ind (fun r (m : gmap string utils.sessionData) =>
    forall id, r !! id =
      match m !! id with
      | Some session =>
          if time.After now (utils.ExpiresAt session) then None else acc !! id
      | None => acc !! id
      end)).
  - intros id. by rewrite lookup_empty.
  - intros i x m' r Hi IH id.
    destruct (decide (i = id)) as [->|Hne].
    + rewrite lookup_insert_eq. specialize (IH id). rewrite Hi in IH.
      destruct (time.After now (utils.ExpiresAt x)); [apply lookup_delete_eq | done].
    + rewrite lookup_insert_ne by done. rewrite <- IH.
      destruct (time.After now (utils.ExpiresAt x)); [by rewrite lookup_delete_ne | done].
Qed.

Lemma CleanupSessions_lookup now (st : gmap string utils.sessionData) id :
  utils.CleanupSessions now st !! id =
  match st !! id with
  | Some session => if time.After now (utils.ExpiresAt session) then None else Some session
  | None => None
  end.
Proof.
  unfold utils.CleanupSessions. rewrite CleanupSessions_fold_lookup.
  destruct (st !! id) eqn:E; [|done]. by destruct (time.After _ _).
Qed.

Lemma reachable_no_empty_id (st : gmap string utils.sessionData) :
  reachable st -> st !! "" = None.
Proof.
  induction 1 as [|env src now userID st _ IH|now sid st _ IH|now st _ IH].
  - apply lookup_empty.
  - destruct (utils.GenerateToken env src now userID st) as [[sid|e] st'] eqn:E; simpl.
    + pose proof (GenerateToken_id_nonempty _ _ _ _ _ _ _ E) as Hne.
      apply GenerateToken_Ok_inv in E as (? & ? & _ & _ & _ & ->).
      by rewrite lookup_insert_ne.
    + revert E. unfold utils.GenerateToken.
      destruct (rand.Read src _) as [b [err|]]; [by intros [= _ <-]|].
      destruct (time.ParseDuration _); [discriminate | by intros [= _ <-]].
  - destruct (ValidateToken_table now sid st) as [-> | ->]; [done|].
    rewrite lookup_delete. case_decide; done.
  - rewrite CleanupSessions_lookup, IH. done.
Qed.

Lemma GenerateToken_Err_inv env src now userID (st : gmap string utils.sessionData) e st' :
  utils.GenerateToken env src now userID st = (Err e, st') ->
  st' = st /\
  ((exists err, src = rand.Fail err /\ e = utils.failed_to_generate_random_bytes err) \/
   (exists bytes err, src = rand.Fill bytes /\ configuredTTL env = Err err /\
                      e = utils.invalid_JWT_EXPIRES_IN_value err)).
Proof.
  unfold utils.GenerateToken, configuredTTL.
  destruct src as [bytes|err]; cbn [rand.Read].
  - destruct (time.ParseDuration _) as [ttl|err] eqn:Httl; [discriminate|].
    intros [= <- <-]. split; [done|]. right. by exists bytes, err.
  - intros [= <- <-]. split; [done|]. left. by exists err.
Qed.

Lemma ValidateToken_live now sid session (st : gmap string utils.sessionData) :
  sid <> "" -> st !! sid = Some session -> now <= utils.ExpiresAt session ->
  utils.ValidateToken now sid st = (Ok (utils.UserID session), st).
Proof.
  intros Hne Hsid Hnow. unfold utils.ValidateToken.
  apply String.eqb_neq in Hne. rewrite Hne, Hsid.
  apply After_ge in Hnow. by rewrite Hnow.
Qed.

Lemma ValidateToken_expired now sid session (st : gmap string utils.sessionData) :
  sid <> "" -> st !! sid = Some session -> utils.ExpiresAt session < now ->
  utils.ValidateToken now sid st = (Err Expired, delete sid st).
Proof.
  intros Hne Hsid Hnow. unfold utils.ValidateToken.
  apply String.eqb_neq in Hne. rewrite Hne, Hsid.
  apply After_lt in Hnow. by rewrite Hnow.
Qed.

Lemma ValidateToken_absent now sid (st : gmap string utils.sessionData) :
  sid <> "" -> st !! sid = None ->
  utils.ValidateToken now sid st = (Err NotFound, st).
Proof.
  intros Hne Hsid. unfold utils.ValidateToken.
  apply String.eqb_neq in Hne. by rewrite Hne, Hsid.
Qed.

Lemma ValidateToken_keeps now sid (st : gmap string utils.sessionData) id d :
  (utils.ValidateToken now sid st).2 !! id = Some d -> st !! id = Some d.
Proof.
  destruct (ValidateToken_table now sid st) as [-> | ->]; [done|].
  rewrite lookup_delete. by case_decide.
Qed.

Lemma sweeps_lookup_live times : forall (st : gmap string utils.sessionData) id session,
  st !! id = Some session ->
  Forall (fun now => now <= utils.ExpiresAt session) times ->
  sweeps times st !! id = Some session.
Proof.
  induction times as [|now times IH]; intros st id session Hid Hall; [done|].
  apply Forall_cons in Hall as [Hnow Hall]. cbn [sweeps foldl].
  apply IH; [|done]. rewrite CleanupSessions_lookup, Hid.
  apply After_ge in Hnow. by rewrite Hnow.
Qed.

Lemma generate_error_leaves_table_aux env src now userID (st : gmap string utils.sessionData) e :
  (utils.GenerateToken env src now userID st).1 = Err e ->
  (exists err, src = rand.Fail err /\ e = utils.failed_to_generate_random_bytes err) \/
  (exists err, configuredTTL env = Err err /\ e = utils.invalid_JWT_EXPIRES_IN_value err).
Proof.
  destruct (utils.GenerateToken env src now userID st) as [r st'] eqn:E.
  simpl. intros ->.
  apply GenerateToken_Err_inv in E as [-> [(err & -> & ->)|(bytes & err & -> & Httl & ->)]].
  - left. by exists err.
  - right. by exists err.
Qed.

Lemma sessions_table_after_issue env src now userID (st : gmap string utils.sessionData) :
  (utils.GenerateToken env src now userID st).2 = st \/
  exists sid session,
    (utils.GenerateToken env src now userID st).1 = Ok sid /\
    (utils.GenerateToken env src now userID st).2 = <[sid := session]> st.
Proof.
  destruct (utils.GenerateToken env src now userID st) as [[sid|e] st'] eqn:E.
  - right. apply GenerateToken_Ok_inv in E as (? & ? & _ & _ & _ & ->). by eexists _, _.
  - left. by apply GenerateToken_Err_inv in E as [-> _].
Qed.

(** ** The session authority *)

(** C1, as the code has it: the identifier that [GenerateToken] has just
    returned validates to the user the session was issued to, with no error
    and the table untouched, at every clock reading up to and including the
    session's [ExpiresAt], which is the issuing reading plus the configured
    lifetime, and at no later reading: there the validation fails with
    "session expired" and removes the entry.  At the issuing reading itself it
    therefore validates exactly when the configured lifetime is not negative,
    as it is with the default (JWT_EXPIRES_IN unset). *)
Theorem validate_after_issue env src now userID (st : gmap string utils.sessionData) sid st' :
  utils.GenerateToken env src now userID st = (Ok sid, st') ->
  exists ttl session,
    configuredTTL env = Ok ttl /\
    st' !! sid = Some session /\
    utils.UserID session = userID /\
    utils.ExpiresAt session = now + ttl /\
    (forall t, t < utils.ExpiresAt session ->
       utils.ValidateToken t sid st' = (Ok userID, st')) /\
    (forall t, utils.ValidateToken t sid st' = (Ok userID, st') <->
               t <= utils.ExpiresAt session) /\
    (forall t, utils.ExpiresAt session < t ->
       utils.ValidateToken t sid st' = (Err Expired, delete sid st')) /\
    (utils.ValidateToken now sid st' = (Ok userID, st') <-> 0 <= ttl) /\
    (os.Getenv env "JWT_EXPIRES_IN" = "" ->
       ttl = 24 * time.Hour /\ utils.ValidateToken now sid st' = (Ok userID, st')).
Proof.
  intros Hgen. pose proof (GenerateToken_id_nonempty _ _ _ _ _ _ _ Hgen) as Hne.
  apply GenerateToken_Ok_inv in Hgen as (bytes & ttl & _ & _ & Httl & ->).
  set (session := {| utils.UserID := userID; utils.ExpiresAt := now + ttl |}).
  set (st' := <[sid := session]> st).
  assert (st' !! sid = Some session) as Hsid by apply lookup_insert_eq.
  assert (forall t, utils.ValidateToken t sid st' = (Ok userID, st') <-> t <= now + ttl)
    as Hiff.
  { intros t. split.
    - intros Hok. destruct (Z.le_gt_cases t (now + ttl)) as [|Hlate]; [done|].
      rewrite (ValidateToken_expired t sid session st' Hne Hsid) in Hok by (cbn; lia).
      discriminate Hok.
    - intros Ht. by rewrite (ValidateToken_live t sid session st' Hne Hsid Ht). }
  exists ttl, session. split; [done|]. split; [done|]. split; [done|]. split; [done|].
  split; [intros t Ht; apply Hiff; cbn in Ht; lia|].
  split; [exact Hiff|].
  split; [intros t Ht; by apply (ValidateToken_expired t sid session st' Hne Hsid)|].
  split.
  - rewrite Hiff. lia.
  - intros Hunset. unfold configuredTTL in Httl. rewrite Hunset in Httl.
    vm_compute in Httl. injection Httl as <-.
    split; [reflexivity|]. apply Hiff. lia.
Qed.

Lemma validate_after_issue_witness :
  utils.GenerateToken ∅ zeros 1000 7%N ∅ =
    (Ok zeros_id, {[ zeros_id := {| utils.UserID := 7; utils.ExpiresAt := 1000 + day |} ]}) /\
  exists ttl session,
    configuredTTL ∅ = Ok ttl /\
    ({[ zeros_id := {| utils.UserID := 7; utils.ExpiresAt := 1000 + day |} ]}
       : gmap string utils.sessionData) !! zeros_id = Some session /\
    utils.UserID session = 7%N /\
    utils.ExpiresAt session = 1000 + ttl /\
    (forall t, t < utils.ExpiresAt session ->
       utils.ValidateToken t zeros_id
         {[ zeros_id := {| utils.UserID := 7; utils.ExpiresAt := 1000 + day |} ]} =
       (Ok 7%N, {[ zeros_id := {| utils.UserID := 7; utils.ExpiresAt := 1000 + day |} ]})) /\
    (forall t,
       utils.ValidateToken t zeros_id
         {[ zeros_id := {| utils.UserID := 7; utils.ExpiresAt := 1000 + day |} ]} =
       (Ok 7%N, {[ zeros_id := {| utils.UserID := 7; utils.ExpiresAt := 1000 + day |} ]}) <->
       t <= utils.ExpiresAt session) /\
    (forall t, utils.ExpiresAt session < t ->
       utils.ValidateToken t zeros_id
         {[ zeros_id := {| utils.UserID := 7; utils.ExpiresAt := 1000 + day |} ]} =
       (Err Expired,
        delete zeros_id
          {[ zeros_id := {| utils.UserID := 7; utils.ExpiresAt := 1000 + day |} ]})) /\
    (utils.ValidateToken 1000 zeros_id
       {[ zeros_id := {| utils.UserID := 7; utils.ExpiresAt := 1000 + day |} ]} =
     (Ok 7%N, {[ zeros_id := {| utils.UserID := 7; utils.ExpiresAt := 1000 + day |} ]}) <->
     0 <= ttl) /\
    (os.Getenv ∅ "JWT_EXPIRES_IN" = "" ->
       ttl = 24 * time.Hour /\
       utils.ValidateToken 1000 zeros_id
         {[ zeros_id := {| utils.UserID := 7; utils.ExpiresAt := 1000 + day |} ]} =
       (Ok 7%N, {[ zeros_id := {| utils.UserID := 7; utils.ExpiresAt := 1000 + day |} ]})).
Proof.
  split; [reflexivity|].
  apply (validate_after_issue ∅ zeros 1000 7%N ∅). reflexivity.
Defined.

(** C1 fails as stated: with JWT_EXPIRES_IN=-1h the session is issued, and
    validating its identifier at the issuing clock reading, or at any later
    one, fails with "session expired". *)
Lemma validate_right_after_issue_counterexample :
  utils.GenerateToken {[ "JWT_EXPIRES_IN" := "-1h" ]} zeros 1000 7%N ∅ =
    (Ok zeros_id,
     {[ zeros_id := {| utils.UserID := 7; utils.ExpiresAt := 1000 - time.Hour |} ]}) /\
  utils.ValidateToken 1000 zeros_id
    {[ zeros_id := {| utils.UserID := 7; utils.ExpiresAt := 1000 - time.Hour |} ]} =
    (Err Expired, ∅) /\
  ~ (forall env src now userID (st : gmap string utils.sessionData) sid st',
       utils.GenerateToken env src now userID st = (Ok sid, st') ->
       utils.ValidateToken now sid st' = (Ok userID, st')).
Proof.
  assert (utils.GenerateToken {[ "JWT_EXPIRES_IN" := "-1h" ]} zeros 1000 7%N ∅ =
            (Ok zeros_id,
             {[ zeros_id := {| utils.UserID := 7; utils.ExpiresAt := 1000 - time.Hour |} ]}))
    as Hgen by reflexivity.
  split; [exact Hgen|]. split; [reflexivity|].
  intros Hclaim. specialize (Hclaim _ _ _ _ _ _ _ Hgen).
  vm_compute in Hclaim. discriminate Hclaim.
Qed.

(** C2, as the code has it: for a session of a reachable table whose
    [ExpiresAt] lies strictly before the clock reading, [ValidateToken]
    fails with "session expired" and deletes the entry, so a second call
    (at any time) fails with "invalid session".  Up to and including the
    instant [ExpiresAt] the session is accepted.  No call of
    [ValidateToken] adds an entry or changes one, so a lifetime is never
    extended. *)
Theorem validate_expired_evicts now now' sid session (st : gmap string utils.sessionData) :
  reachable st ->
  st !! sid = Some session ->
  utils.ExpiresAt session < now ->
  utils.ValidateToken now sid st = (Err Expired, delete sid st) /\
  utils.ValidateToken now' sid (delete sid st) = (Err NotFound, delete sid st) /\
  (forall t, t <= utils.ExpiresAt session ->
     utils.ValidateToken t sid st = (Ok (utils.UserID session), st)) /\
  (forall t id' id d,
     (utils.ValidateToken t id' st).2 !! id = Some d -> st !! id = Some d).
Proof.
  intros Hreach Hsid Hexp.
  assert (sid <> "") as Hne.
  { intros ->. apply reachable_no_empty_id in Hreach. congruence. }
  split; [by apply (ValidateToken_expired now sid session)|].
  split; [apply ValidateToken_absent; [done | apply lookup_delete_eq]|].
  split; [intros t Ht; by apply ValidateToken_live|].
  intros t id' id d. apply ValidateToken_keeps.
Qed.

Lemma validate_expired_evicts_witness :
  reachable (utils.GenerateToken ∅ zeros 1000 7%N ∅).2 /\
  (utils.GenerateToken ∅ zeros 1000 7%N ∅).2 !! zeros_id =
    Some {| utils.UserID := 7; utils.ExpiresAt := 1000 + day |} /\
  1000 + day < 1001 + day /\
  utils.ValidateToken (1001 + day) zeros_id (utils.GenerateToken ∅ zeros 1000 7%N ∅).2 =
    (Err Expired, delete zeros_id (utils.GenerateToken ∅ zeros 1000 7%N ∅).2) /\
  utils.ValidateToken (1002 + day) zeros_id
    (delete zeros_id (utils.GenerateToken ∅ zeros 1000 7%N ∅).2) =
    (Err NotFound, delete zeros_id (utils.GenerateToken ∅ zeros 1000 7%N ∅).2).
Proof.
  assert (reachable (utils.GenerateToken ∅ zeros 1000 7%N ∅).2) as Hreach
    by (apply reachable_GenerateToken, reachable_init).
  assert ((utils.GenerateToken ∅ zeros 1000 7%N ∅).2 !! zeros_id =
          Some {| utils.UserID := 7; utils.ExpiresAt := 1000 + day |}) as Hsid
    by reflexivity.
  assert (1000 + day < 1001 + day) as Hlt by (vm_compute; reflexivity).
  split; [exact Hreach|]. split; [exact Hsid|]. split; [exact Hlt|].
  destruct (validate_expired_evicts (1001 + day) (1002 + day) zeros_id _ _ Hreach Hsid Hlt)
    as (H1 & H2 & _).
  split; [exact H1 | exact H2].
Defined.

(** C2 fails at the boundary: at the very instant [ExpiresAt] the session
    is still accepted, because [time.After] is strict. *)
Lemma validate_at_expiry_counterexample :
  reachable (utils.GenerateToken ∅ zeros 1000 7%N ∅).2 /\
  (exists session,
     (utils.GenerateToken ∅ zeros 1000 7%N ∅).2 !! zeros_id = Some session /\
     1000 + day >= utils.ExpiresAt session) /\
  utils.ValidateToken (1000 + day) zeros_id (utils.GenerateToken ∅ zeros 1000 7%N ∅).2 =
    (Ok 7%N, (utils.GenerateToken ∅ zeros 1000 7%N ∅).2) /\
  (utils.ValidateToken (1000 + day) zeros_id (utils.GenerateToken ∅ zeros 1000 7%N ∅).2).1
    <> Err Expired.
Proof.
  split; [apply reachable_GenerateToken, reachable_init|].
  split; [eexists; split; [reflexivity | vm_compute; discriminate]|].
  split; [reflexivity | vm_compute; discriminate].
Qed.

(** C3, as the code has it: [CleanupSessions] removes exactly the entries
    whose [ExpiresAt] lies strictly before the clock reading and leaves all
    others as they are; an entry with [now <= ExpiresAt] at every reading
    survives any number of runs; and a run repeated at the same reading
    changes nothing more. *)
Theorem cleanup_removes_exactly_expired now (st : gmap string utils.sessionData) :
  (forall id session, st !! id = Some session ->
     (utils.ExpiresAt session < now -> utils.CleanupSessions now st !! id = None) /\
     (now <= utils.ExpiresAt session -> utils.CleanupSessions now st !! id = Some session)) /\
  (forall id, st !! id = None -> utils.CleanupSessions now st !! id = None) /\
  (forall times id session, st !! id = Some session ->
     Forall (fun t => t <= utils.ExpiresAt session) times ->
     sweeps times st !! id = Some session) /\
  utils.CleanupSessions now (utils.CleanupSessions now st) = utils.CleanupSessions now st.
Proof.
  repeat apply conj.
  - intros id session Hid. split.
    + intros Hexp%After_lt. by rewrite CleanupSessions_lookup, Hid, Hexp.
    + intros Hlive%After_ge. by rewrite CleanupSessions_lookup, Hid, Hlive.
  - intros id Hid. by rewrite CleanupSessions_lookup, Hid.
  - intros times id session Hid Hall. by apply sweeps_lookup_live.
  - apply map_eq. intros id. rewrite !CleanupSessions_lookup.
    destruct (st !! id) as [session|]; [|done].
    destruct (time.After now (utils.ExpiresAt session)) eqn:E; [done | by rewrite E].
Qed.

Lemma cleanup_removes_exactly_expired_witness :
  (utils.GenerateToken ∅ zeros 1000 7%N ∅).2 !! zeros_id =
    Some {| utils.UserID := 7; utils.ExpiresAt := 1000 + day |} /\
  utils.CleanupSessions (1001 + day) (utils.GenerateToken ∅ zeros 1000 7%N ∅).2
    !! zeros_id = None /\
  sweeps [2000; 3000; 1000 + day] (utils.GenerateToken ∅ zeros 1000 7%N ∅).2
    !! zeros_id = Some {| utils.UserID := 7; utils.ExpiresAt := 1000 + day |}.
Proof.
  assert ((utils.GenerateToken ∅ zeros 1000 7%N ∅).2 !! zeros_id =
          Some {| utils.UserID := 7; utils.ExpiresAt := 1000 + day |}) as Hsid
    by reflexivity.
  assert (1000 + day < 1001 + day) as Hexp by (vm_compute; reflexivity).
  assert (Forall (fun t => t <= 1000 + day) [2000; 3000; 1000 + day]) as Hall
    by (repeat constructor; vm_compute; discriminate).
  destruct (cleanup_removes_exactly_expired (1001 + day)
              (utils.GenerateToken ∅ zeros 1000 7%N ∅).2) as (Hone & _ & Hmany & _).
  split; [exact Hsid|].
  split; [exact (proj1 (Hone zeros_id _ Hsid) Hexp)|].
  exact (Hmany _ zeros_id _ Hsid Hall).
Defined.

(** C3 fails at the boundary: an entry with [ExpiresAt = now] satisfies
    [ExpiresAt <= now] and is not removed. *)
Lemma cleanup_at_expiry_counterexample :
  (exists session,
     ({[ zeros_id := {| utils.UserID := 7; utils.ExpiresAt := 5000 |} ]}
        : gmap string utils.sessionData) !! zeros_id = Some session /\
     utils.ExpiresAt session <= 5000) /\
  utils.CleanupSessions 5000 {[ zeros_id := {| utils.UserID := 7; utils.ExpiresAt := 5000 |} ]}
    !! zeros_id = Some {| utils.UserID := 7; utils.ExpiresAt := 5000 |}.
Proof.
  split; [eexists; split; [reflexivity | simpl; lia]|]. reflexivity.
Qed.

(** C9: [ValidateToken] on the empty string fails with "empty session ID",
    and on any other identifier that the table does not hold it fails with
    "invalid session"; neither touches the table. *)
Theorem validate_empty_and_unknown now (st : gmap string utils.sessionData) :
  utils.ValidateToken now "" st = (Err EmptyCredential, st) /\
  (forall sid, sid <> "" -> st !! sid = None ->
     utils.ValidateToken now sid st = (Err NotFound, st)).
Proof.
  split; [reflexivity|]. intros sid Hne Hsid. by apply ValidateToken_absent.
Qed.

Lemma validate_empty_and_unknown_witness :
  "not-a-real-id" <> "" /\
  (utils.GenerateToken ∅ zeros 1000 7%N ∅).2 !! "not-a-real-id" = None /\
  utils.ValidateToken 2000 "not-a-real-id" (utils.GenerateToken ∅ zeros 1000 7%N ∅).2 =
    (Err NotFound, (utils.GenerateToken ∅ zeros 1000 7%N ∅).2).
Proof.
  assert ("not-a-real-id" <> "") as Hne by discriminate.
  assert ((utils.GenerateToken ∅ zeros 1000 7%N ∅).2 !! "not-a-real-id" = None) as Habs
    by reflexivity.
  split; [exact Hne|]. split; [exact Habs|].
  exact (proj2 (validate_empty_and_unknown 2000 _) "not-a-real-id" Hne Habs).
Defined.

(** C10: whenever [GenerateToken] returns an error the table is returned as
    it was; and the error is either the failure of the random source or a
    JWT_EXPIRES_IN value that [time.ParseDuration] rejects. *)
Theorem generate_error_leaves_table env src now userID (st : gmap string utils.sessionData) e :
  (utils.GenerateToken env src now userID st).1 = Err e ->
  (utils.GenerateToken env src now userID st).2 = st /\
  ((exists err, src = rand.Fail err /\ e = utils.failed_to_generate_random_bytes err) \/
   (exists err, configuredTTL env = Err err /\ e = utils.invalid_JWT_EXPIRES_IN_value err)).
Proof.
  destruct (utils.GenerateToken env src now userID st) as [r st'] eqn:E.
  simpl. intros ->.
  apply GenerateToken_Err_inv in E as [-> [(err & -> & ->)|(bytes & err & -> & Httl & ->)]].
  - split; [done|]. left. by exists err.
  - split; [done|]. right. by exists err.
Qed.

Lemma generate_error_leaves_table_witness :
  (utils.GenerateToken {[ "JWT_EXPIRES_IN" := "7d" ]} ones 3000 8%N
     (utils.GenerateToken ∅ zeros 1000 7%N ∅).2).1 =
    Err (utils.invalid_JWT_EXPIRES_IN_value (time.unknown_unit "d" "7d")) /\
  (utils.GenerateToken {[ "JWT_EXPIRES_IN" := "7d" ]} ones 3000 8%N
     (utils.GenerateToken ∅ zeros 1000 7%N ∅).2).2 =
    (utils.GenerateToken ∅ zeros 1000 7%N ∅).2.
Proof.
  assert ((utils.GenerateToken {[ "JWT_EXPIRES_IN" := "7d" ]} ones 3000 8%N
             (utils.GenerateToken ∅ zeros 1000 7%N ∅).2).1 =
          Err (utils.invalid_JWT_EXPIRES_IN_value (time.unknown_unit "d" "7d"))) as Herr
    by reflexivity.
  split; [exact Herr|].
  exact (proj1 (generate_error_leaves_table _ _ _ _ _ _ Herr)).
Defined.

(** C4, as the code has it: with a random source that succeeds,
    [GenerateToken] is decided by the configured lifetime alone.  When
    JWT_EXPIRES_IN (or the default "24h") parses to [ttl], the call inserts
    the record [(userID, now + ttl)] under a non-empty identifier and
    returns that identifier; when it does not parse, the call fails.  The
    default is 24 hours, and a failure of the call has one of these two
    causes: the random source or the lifetime value. *)
Theorem issue_inserts_with_configured_ttl env bytes now userID
    (st : gmap string utils.sessionData) :
  match configuredTTL env with
  | Ok ttl =>
      exists sid, sid <> "" /\
        utils.GenerateToken env (rand.Fill bytes) now userID st =
          (Ok sid, <[sid := {| utils.UserID := userID; utils.ExpiresAt := now + ttl |}]> st)
  | Err err =>
      utils.GenerateToken env (rand.Fill bytes) now userID st =
        (Err (utils.invalid_JWT_EXPIRES_IN_value err), st)
  end /\
  (os.Getenv env "JWT_EXPIRES_IN" = "" -> configuredTTL env = Ok (24 * time.Hour)) /\
  (forall src e, (utils.GenerateToken env src now userID st).1 = Err e ->
     (exists err, src = rand.Fail err) \/ (exists err, configuredTTL env = Err err)).
Proof.
  split; [|split].
  - destruct (configuredTTL env) as [ttl|err] eqn:Httl.
    + destruct (utils.GenerateToken env (rand.Fill bytes) now userID st) as [[sid|e] st'] eqn:E.
      * exists sid. split; [by eapply GenerateToken_id_nonempty|].
        apply GenerateToken_Ok_inv in E as (? & ttl' & _ & _ & Httl' & ->).
        rewrite Httl in Httl'. by injection Httl' as <-.
      * apply GenerateToken_Err_inv in E as [_ [(? & [=] & _)|(? & ? & _ & Httl' & _)]].
        congruence.
    + unfold utils.GenerateToken. cbn [rand.Read]. unfold configuredTTL in Httl.
      by rewrite Httl.
  - intros Hunset. unfold configuredTTL. rewrite Hunset. reflexivity.
  - intros src e He.
    destruct (generate_error_leaves_table_aux env src now userID st e He) as [H|H].
    + left. destruct H as (err & -> & _). by exists err.
    + right. destruct H as (err & Herr & _). by exists err.
Qed.

Lemma issue_inserts_with_configured_ttl_witness :
  os.Getenv ∅ "JWT_EXPIRES_IN" = "" /\
  configuredTTL ∅ = Ok (24 * time.Hour) /\
  exists sid, sid <> "" /\
    utils.GenerateToken ∅ zeros 1000 7%N ∅ =
      (Ok sid, <[sid := {| utils.UserID := 7; utils.ExpiresAt := 1000 + day |}]> ∅).
Proof.
  assert (os.Getenv ∅ "JWT_EXPIRES_IN" = "") as Hunset by reflexivity.
  split; [exact Hunset|].
  destruct (issue_inserts_with_configured_ttl ∅ (fun _ => Byte.x00) 1000 7%N ∅)
    as (Hgen & Hdef & _).
  split; [exact (Hdef Hunset)|].
  exact Hgen.
Defined.

(** C4 fails as stated: the random source succeeds, and [GenerateToken]
    still fails, on a JWT_EXPIRES_IN value that is not a Go duration. *)
Lemma issue_fails_on_ttl_counterexample :
  (exists bytes, ones = rand.Fill bytes) /\
  utils.GenerateToken {[ "JWT_EXPIRES_IN" := "7d" ]} ones 3000 8%N ∅ =
    (Err (utils.invalid_JWT_EXPIRES_IN_value (time.unknown_unit "d" "7d")), ∅) /\
  (forall sid st', utils.GenerateToken {[ "JWT_EXPIRES_IN" := "7d" ]} ones 3000 8%N ∅
                   <> (Ok sid, st')).
Proof.
  split; [by eexists|]. split; [reflexivity|].
  intros sid st' H. vm_compute in H. discriminate H.
Qed.

(** C7, as the code has it: [ValidateToken] and [CleanupSessions] never
    add an entry and never change one; every entry of the table is
    afterwards either exactly as it was or gone.  [GenerateToken] leaves
    every entry other than the one under the identifier it returns as it
    was, so with a fresh identifier no existing entry changes; the entry
    under the returned identifier is the new record, whatever was there.
    [ValidateToken] on a session that has not expired returns the table as
    it was. *)
Theorem sessions_only_inserted_or_deleted (st : gmap string utils.sessionData) :
  (forall now sid id d,
     st !! id = Some d ->
     (utils.ValidateToken now sid st).2 !! id = Some d \/
     (utils.ValidateToken now sid st).2 !! id = None) /\
  (forall now sid id d,
     (utils.ValidateToken now sid st).2 !! id = Some d -> st !! id = Some d) /\
  (forall now id d,
     st !! id = Some d ->
     utils.CleanupSessions now st !! id = Some d \/
     utils.CleanupSessions now st !! id = None) /\
  (forall now id d,
     utils.CleanupSessions now st !! id = Some d -> st !! id = Some d) /\
  (forall env src now userID id d,
     st !! id = Some d ->
     (utils.GenerateToken env src now userID st).1 <> Ok id ->
     (utils.GenerateToken env src now userID st).2 !! id = Some d) /\
  (forall env src now userID sid,
     (utils.GenerateToken env src now userID st).1 = Ok sid ->
     st !! sid = None ->
     forall id d, st !! id = Some d ->
       (utils.GenerateToken env src now userID st).2 !! id = Some d) /\
  (forall env src now userID sid,
     (utils.GenerateToken env src now userID st).1 = Ok sid ->
     exists ttl,
       configuredTTL env = Ok ttl /\
       (utils.GenerateToken env src now userID st).2 !! sid =
         Some {| utils.UserID := userID; utils.ExpiresAt := now + ttl |}) /\
  (forall now sid session,
     st !! sid = Some session -> now <= utils.ExpiresAt session ->
     (utils.ValidateToken now sid st).2 = st).
Proof.
  repeat apply conj.
  - intros now sid id d Hid.
    destruct (ValidateToken_table now sid st) as [-> | ->]; [by left|].
    rewrite lookup_delete. case_decide; [by right | by left].
  - intros now sid id d. apply ValidateToken_keeps.
  - intros now id d Hid. rewrite CleanupSessions_lookup, Hid.
    destruct (time.After _ _); [by right | by left].
  - intros now id d. rewrite CleanupSessions_lookup.
    destruct (st !! id) as [session|]; [|done]. by destruct (time.After _ _).
  - intros env src now userID id d Hid Hne.
    destruct (utils.GenerateToken env src now userID st) as [[sid|e] st'] eqn:E; simpl in *.
    + apply GenerateToken_Ok_inv in E as (? & ? & _ & _ & _ & ->).
      rewrite lookup_insert_ne; [done | congruence].
    + by apply GenerateToken_Err_inv in E as [-> _].
  - intros env src now userID sid Hsid Hfresh id d Hid.
    destruct (utils.GenerateToken env src now userID st) as [[sid'|e] st'] eqn:E;
      simpl in *; [|discriminate].
    injection Hsid as ->.
    apply GenerateToken_Ok_inv in E as (? & ? & _ & _ & _ & ->).
    rewrite lookup_insert_ne; [done | congruence].
  - intros env src now userID sid Hsid.
    destruct (utils.GenerateToken env src now userID st) as [[sid'|e] st'] eqn:E;
      simpl in *; [|discriminate].
    injection Hsid as ->.
    apply GenerateToken_Ok_inv in E as (? & ttl & _ & _ & Httl & ->).
    exists ttl. split; [done | apply lookup_insert_eq].
  - intros now sid session Hsid Hlive. unfold utils.ValidateToken.
    destruct (String.eqb sid ""); [done|]. rewrite Hsid.
    apply After_ge in Hlive. by rewrite Hlive.
Qed.

Lemma sessions_only_inserted_or_deleted_witness :
  (utils.GenerateToken ∅ zeros 1000 7%N ∅).2 !! zeros_id =
    Some {| utils.UserID := 7; utils.ExpiresAt := 1000 + day |} /\
  2000 <= 1000 + day /\
  (utils.ValidateToken 2000 zeros_id (utils.GenerateToken ∅ zeros 1000 7%N ∅).2).2 =
    (utils.GenerateToken ∅ zeros 1000 7%N ∅).2 /\
  (utils.GenerateToken ∅ ones 3000 8%N (utils.GenerateToken ∅ zeros 1000 7%N ∅).2).1
    <> Ok zeros_id /\
  (utils.GenerateToken ∅ ones 3000 8%N (utils.GenerateToken ∅ zeros 1000 7%N ∅).2).2
    !! zeros_id = Some {| utils.UserID := 7; utils.ExpiresAt := 1000 + day |}.
Proof.
  assert ((utils.GenerateToken ∅ zeros 1000 7%N ∅).2 !! zeros_id =
          Some {| utils.UserID := 7; utils.ExpiresAt := 1000 + day |}) as Hsid
    by reflexivity.
  assert (2000 <= 1000 + day) as Hlive by (vm_compute; discriminate).
  assert ((utils.GenerateToken ∅ ones 3000 8%N
             (utils.GenerateToken ∅ zeros 1000 7%N ∅).2).1 <> Ok zeros_id) as Hother
    by (vm_compute; discriminate).
  destruct (sessions_only_inserted_or_deleted (utils.GenerateToken ∅ zeros 1000 7%N ∅).2)
    as (_ & _ & _ & _ & Hgen & _ & _ & Hval).
  split; [exact Hsid|]. split; [exact Hlive|].
  split; [exact (Hval 2000 zeros_id _ Hsid Hlive)|].
  split; [exact Hother|].
  exact (Hgen ∅ ones 3000 8%N zeros_id _ Hsid Hother).
Defined.

(** C7 fails as stated: when the random source delivers the bytes of an
    identifier that is already in the table, [GenerateToken] overwrites that
    entry; the session of user 7 becomes a session of user 8 with a new
    expiry. *)
Lemma issue_overwrites_on_collision_counterexample :
  (utils.GenerateToken ∅ zeros 1000 7%N ∅).2 !! zeros_id =
    Some {| utils.UserID := 7; utils.ExpiresAt := 1000 + day |} /\
  (utils.GenerateToken ∅ zeros 3000 8%N (utils.GenerateToken ∅ zeros 1000 7%N ∅).2).2
    !! zeros_id = Some {| utils.UserID := 8; utils.ExpiresAt := 3000 + day |} /\
  ~ (forall env src now userID (st : gmap string utils.sessionData) id d,
       st !! id = Some d ->
       (utils.GenerateToken env src now userID st).2 !! id = Some d \/
       (utils.GenerateToken env src now userID st).2 !! id = None).
Proof.
  assert ((utils.GenerateToken ∅ zeros 1000 7%N ∅).2 !! zeros_id =
          Some {| utils.UserID := 7; utils.ExpiresAt := 1000 + day |}) as Hsid
    by reflexivity.
  split; [exact Hsid|]. split; [reflexivity|].
  intros H.
  destruct (H ∅ zeros 3000 8%N _ zeros_id _ Hsid) as [E|E];
    vm_compute in E; discriminate E.
Qed.


(** ** Sessions across a run of calls *)

(** A session stays in the table, unchanged, through any run of calls made
    no later than its expiry, as long as no later [GenerateToken] draws the
    same identifier; so validating it at the end of the run still succeeds. *)
Lemma session_survives_run sid session calls : forall (st : gmap string utils.sessionData),
  st !! sid = Some session ->
  undisturbed sid (utils.ExpiresAt session) calls st ->
  run calls st !! sid = Some session.
Proof.
  induction calls as [|[now c] calls IH]; intros st Hsid Hrun; [done|].
  destruct Hrun as (Hnow & Hissue & Hrun). cbn [run foldl]. apply IH; [|done].
  destruct c as [env src userID|sid'|]; cbn [call issues] in *.
  - destruct (sessions_table_after_issue env src now userID st) as [-> | (sid' & session' & Hok & ->)];
      [done|].
    rewrite Hok in Hissue. rewrite lookup_insert_ne; [done | congruence].
  - unfold utils.ValidateToken. destruct (String.eqb sid' ""); [done|].
    destruct (st !! sid') as [session'|] eqn:Hsid'; [|done].
    destruct (time.After now (utils.ExpiresAt session')) eqn:Hafter; [|done].
    cbn [snd]. rewrite lookup_delete_ne; [done|]. intros ->.
    rewrite Hsid in Hsid'. injection Hsid' as <-.
    apply After_lt in Hafter. lia.
  - rewrite CleanupSessions_lookup, Hsid. apply After_ge in Hnow. by rewrite Hnow.
Qed.

Lemma validate_after_run env src now userID (st : gmap string utils.sessionData) sid st'
    calls t :
  utils.GenerateToken env src now userID st = (Ok sid, st') ->
  forall session, st' !! sid = Some session ->
  undisturbed sid (utils.ExpiresAt session) calls st' ->
  t <= utils.ExpiresAt session ->
  utils.ValidateToken t sid (run calls st') = (Ok userID, run calls st').
Proof.
  intros Hgen session Hsid Hrun Ht.
  pose proof (GenerateToken_id_nonempty _ _ _ _ _ _ _ Hgen) as Hne.
  apply GenerateToken_Ok_inv in Hgen as (bytes & ttl & _ & _ & _ & ->).
  rewrite lookup_insert_eq in Hsid. injection Hsid as <-.
  rewrite (ValidateToken_live t sid _ _ Hne
             (session_survives_run sid _ calls _ (lookup_insert_eq _ _ _) Hrun)); done.
Qed.

Lemma reachable_run calls : forall (st : gmap string utils.sessionData),
  reachable st -> reachable (run calls st).
Proof.
  induction calls as [|[now c] calls IH]; intros st Hst; [done|].
  cbn [run foldl]. apply IH. destruct c; cbn [call]; by constructor.
Qed.

(** ** The configured lifetime *)

(** Both readers of JWT_EXPIRES_IN fall back to 24 hours when it is unset. *)
Lemma ttl_defaults_to_24h env :
  os.Getenv env "JWT_EXPIRES_IN" = "" ->
  config.JWT_ExpiresIn env = 24 * time.Hour /\
  configuredTTL env = Ok (24 * time.Hour).
Proof.
  intros Hunset. unfold config.JWT_ExpiresIn, config.getDurationEnvOrDefault, configuredTTL.
  rewrite Hunset. split; reflexivity.
Qed.

(** C6, where the code departs from it: for a JWT_EXPIRES_IN value made of
    decimal digits only (no unit suffix), the configuration loader reads the
    value in hours, while [GenerateToken] of the session table hands the same
    value to [time.ParseDuration] as it is and fails, leaving the table as it
    was. *)
Theorem unitless_ttl_hours_in_config_error_in_session env s bytes now userID
    (st : gmap string utils.sessionData) :
  os.Getenv env "JWT_EXPIRES_IN" = s ->
  digits s = true -> s <> "" -> s <> "0" -> decimal s <= 2562047 ->
  config.JWT_ExpiresIn env = decimal s * time.Hour /\
  exists err,
    utils.GenerateToken env (rand.Fill bytes) now userID st =
      (Err (utils.invalid_JWT_EXPIRES_IN_value err), st).
Proof.
  intros Henv Hd Hne H0 Hmax. split.
  - by apply getDurationEnvOrDefault_hours.
  - unfold utils.GenerateToken. cbn [rand.Read]. rewrite Henv.
    rewrite (proj2 (String.eqb_neq s "") Hne).
    destruct (ParseDuration_unitless s Hd Hne H0) as [-> | ->]; by eexists.
Qed.

Lemma unitless_ttl_hours_in_config_error_in_session_witness :
  os.Getenv {[ "JWT_EXPIRES_IN" := "48" ]} "JWT_EXPIRES_IN" = "48" /\
  decimal "48" = 48 /\
  config.JWT_ExpiresIn {[ "JWT_EXPIRES_IN" := "48" ]} = 48 * time.Hour /\
  utils.GenerateToken {[ "JWT_EXPIRES_IN" := "48" ]} zeros 1000 7%N ∅ =
    (Err (utils.invalid_JWT_EXPIRES_IN_value (time.missing_unit "48")), ∅).
Proof.
  assert (os.Getenv {[ "JWT_EXPIRES_IN" := "48" ]} "JWT_EXPIRES_IN" = "48") as Henv
    by reflexivity.
  assert (digits "48" = true) as Hd by reflexivity.
  assert ("48" <> "") as Hne by discriminate.
  assert ("48" <> "0") as H0 by discriminate.
  assert (decimal "48" <= 2562047) as Hmax by (vm_compute; discriminate).
  destruct (unitless_ttl_hours_in_config_error_in_session
              {[ "JWT_EXPIRES_IN" := "48" ]} "48" (fun _ => Byte.x00) 1000 7%N ∅
              Henv Hd Hne H0 Hmax) as [Hconfig _].
  split; [exact Henv|]. split; [reflexivity|]. split; [exact Hconfig|]. reflexivity.
Defined.

(** ** The record store *)

Section TableFacts.
Context {A : Type} (ID : A -> uint) (DeletedAt : A -> option time.Time).

Lemma lowest_elem_of (rows : list A) row :
  gorm.lowest ID rows = Some row -> row ∈ rows.
Proof.
  revert row. induction rows as [|r rows IH]; intros row; cbn [gorm.lowest]; [done|].
  destruct (gorm.lowest ID rows) as [r'|].
  - destruct (ID r <=? ID r')%N; intros [= <-].
    + apply list_elem_of_here.
    + apply list_elem_of_further. by apply IH.
  - intros [= <-]. apply list_elem_of_here.
Qed.

Lemma lowest_None (rows : list A) : gorm.lowest ID rows = None -> rows = [].
Proof.
  destruct rows as [|r rows]; [done|]. cbn [gorm.lowest].
  destruct (gorm.lowest ID rows) as [r'|]; [|done]. by destruct (ID r <=? ID r')%N.
Qed.

Lemma First_Ok_inv fault cond (rows : list A) row :
  gorm.First ID DeletedAt fault cond rows = Ok row ->
  fault = None /\ row ∈ rows /\ gorm.live DeletedAt row = true /\ cond row = true.
Proof.
  unfold gorm.First. destruct fault; [done|].
  destruct (gorm.lowest ID _) as [r|] eqn:E; [|done]. intros [= ->].
  apply lowest_elem_of in E. apply list_elem_of_In, filter_In in E as [Hin Hc].
  apply andb_true_iff in Hc as [Hlive Hcond]. by rewrite list_elem_of_In.
Qed.

Lemma First_no_match fault cond (rows : list A) :
  (forall row, row ∈ rows -> cond row = false) ->
  exists err, gorm.First ID DeletedAt fault cond rows = Err err /\
              (fault = None -> err = gorm.ErrRecordNotFound).
Proof.
  intros Hnone. destruct (gorm.First ID DeletedAt fault cond rows) as [row|err] eqn:E.
  - apply First_Ok_inv in E as (_ & Hin & _ & Hcond). rewrite (Hnone row Hin) in Hcond.
    discriminate.
  - exists err. split; [done|]. intros ->. unfold gorm.First in E.
    destruct (gorm.lowest ID _); [discriminate | by injection E as <-].
Qed.
End TableFacts.

(** ** The request gate *)

Lemma GetHeader_absent req key :
  middlewares.Header req !! key = None -> middlewares.GetHeader req key = "".
Proof. unfold middlewares.GetHeader. by intros ->. Qed.

Lemma AuthMiddleware_no_value fault db now req (st : gmap string utils.sessionData) :
  middlewares.GetHeader req "Authorization" = "" ->
  middlewares.AuthMiddleware fault db now req st =
    (middlewares.Abort 401 "Authorization header is required", st).
Proof. unfold middlewares.AuthMiddleware. by intros ->. Qed.

Lemma AuthMiddleware_value fault db now req (st : gmap string utils.sessionData) :
  middlewares.GetHeader req "Authorization" <> "" ->
  match
    utils.ValidateToken now (strings.TrimSpace (middlewares.GetHeader req "Authorization")) st
  with
  | (Err err, st') =>
      middlewares.AuthMiddleware fault db now req st =
        (middlewares.Abort 401 ("Invalid session: " ++ utils.Error err), st')
  | (Ok userID, st') =>
      (middlewares.AuthMiddleware fault db now req st).2 = st' /\
      ((exists user,
          (middlewares.AuthMiddleware fault db now req st).1 = middlewares.Next userID user /\
          user ∈ database.users db /\ models.User.ID user = userID) \/
       (middlewares.AuthMiddleware fault db now req st).1 =
         middlewares.Abort 401 "User not found or invalid session")
  end.
Proof.
  intros Hne. unfold middlewares.AuthMiddleware.
  rewrite (proj2 (String.eqb_neq _ "") Hne).
  destruct (utils.ValidateToken now _ st) as [[userID|err] st']; [|done].
  destruct (gorm.First _ _ _ _ _) as [user|e] eqn:E; cbn [fst snd].
  - split; [done|]. left. exists user.
    apply First_Ok_inv in E as (_ & Hin & _ & Hid%N.eqb_eq). done.
  - split; [done|]. by right.
Qed.

Lemma prefix_append (p s : string) : String.prefix p (p ++ s) = true.
Proof.
  induction p as [|c p IH]; [by destruct s|].
  rewrite append_cons. cbn [String.prefix]. destruct (ascii_dec c c); done.
Qed.

Lemma prefix_inv (p s : string) :
  String.prefix p s = true -> exists rest, s = p ++ rest.
Proof.
  revert s. induction p as [|c p IH]; intros s; [by exists s|].
  destruct s as [|d s]; [done|]. cbn [String.prefix].
  destruct (ascii_dec c d) as [->|]; [|done].
  intros (rest & ->)%IH. by exists rest.
Qed.

Lemma from_append (p s : string) : strings.from (String.length p) (p ++ s) = s.
Proof.
  unfold strings.from. induction p as [|c p IH].
  - rewrite append_nil_l. cbn [String.length]. rewrite Nat.sub_0_r.
    induction s as [|a s IHs]; [done|]. cbn [String.length String.substring]. by rewrite IHs.
  - rewrite append_cons. cbn [String.length String.substring]. apply IH.
Qed.

(** The gate of the JWT variant, case by case, whatever the token validation
    is. *)
Lemma bearer_gate_cases ValidateToken fault db req :
  (middlewares_jwt.AuthMiddleware ValidateToken fault db req =
     middlewares.Abort 401 "Authorization header is required" <->
   middlewares.GetHeader req "Authorization" = "") /\
  (middlewares.GetHeader req "Authorization" <> "" ->
   strings.HasPrefix (middlewares.GetHeader req "Authorization") "Bearer " = false ->
   middlewares_jwt.AuthMiddleware ValidateToken fault db req =
     middlewares.Abort 401 "Authorization header must be in format: Bearer {token}") /\
  (forall token,
     middlewares.GetHeader req "Authorization" = "Bearer " ++ token ->
     if String.eqb token "" then
       middlewares_jwt.AuthMiddleware ValidateToken fault db req =
         middlewares.Abort 401 "Token cannot be empty"
     else
       match ValidateToken token with
       | Err _ =>
           exists error,
             middlewares_jwt.AuthMiddleware ValidateToken fault db req =
               middlewares.Abort 401 error
       | Ok userID =>
           (exists user,
              middlewares_jwt.AuthMiddleware ValidateToken fault db req =
                middlewares.Next userID user /\
              user ∈ database.users db /\ models.User.ID user = userID) \/
           middlewares_jwt.AuthMiddleware ValidateToken fault db req =
             middlewares.Abort 401 "User not found or invalid token"
       end).
Proof.
  unfold middlewares_jwt.AuthMiddleware, middlewares_jwt.bearerPrefix.
  set (authHeader := middlewares.GetHeader req "Authorization").
  repeat apply conj.
  - destruct (String.eqb authHeader "") eqn:Hh; [by intros _; apply String.eqb_eq|].
    intros Hreq. exfalso. revert Hreq.
    destruct (negb (strings.HasPrefix authHeader "Bearer ")); [done|].
    destruct (String.eqb (strings.TrimPrefix authHeader "Bearer ") ""); [done|].
    destruct (ValidateToken _) as [uid|err].
    + by destruct (gorm.First _ _ _ _ _).
    + destruct (_ || _); [done|].
      destruct (strings.Contains _ "signature"); [done|].
      by destruct (strings.Contains _ "parsing").
  - intros ->. reflexivity.
  - intros Hne Hpre. by rewrite (proj2 (String.eqb_neq _ "") Hne), Hpre.
  - intros token ->.
    assert (String.eqb ("Bearer " ++ token) "" = false) as -> by reflexivity.
    unfold strings.TrimPrefix, strings.HasPrefix. rewrite prefix_append. cbn [negb].
    rewrite from_append.
    destruct (String.eqb token ""); [done|].
    destruct (ValidateToken token) as [uid|err].
    + destruct (gorm.First _ _ _ _ _) as [u|e] eqn:Hfirst; [|by right].
      left. exists u. split; [done|].
      by apply First_Ok_inv in Hfirst as (_ & Hin & _ & Hid%N.eqb_eq).
    + by eexists.
Qed.

(** C5, as the code has it, for the two gates.  Both answer 401
    "Authorization header is required" exactly when the request carries no
    Authorization value or an empty one, the session gate leaving the session
    table alone.  Otherwise the session gate hands the value, trimmed by
    [strings.TrimSpace] and with no scheme prefix expected or removed, to
    [ValidateToken]; on every failure of the validation it answers 401
    "Invalid session: " followed by the error text, and on success it goes on
    to look the user up.  The gate of the JWT variant instead answers 401 to
    every non-empty value that does not start with "Bearer ", whatever the
    validation would say, and to "Bearer " alone; it hands what follows the
    prefix, untrimmed, to its validation, answers 401 on every failure, and
    on success goes on to look the user up. *)
Theorem gate_requires_and_validates fault db now req (st : gmap string utils.sessionData) :
  (middlewares.Header req !! "Authorization" = None ->
     middlewares.AuthMiddleware fault db now req st =
       (middlewares.Abort 401 "Authorization header is required", st)) /\
  ((middlewares.AuthMiddleware fault db now req st).1 =
     middlewares.Abort 401 "Authorization header is required" <->
   middlewares.GetHeader req "Authorization" = "") /\
  (middlewares.GetHeader req "Authorization" = "" ->
     (middlewares.AuthMiddleware fault db now req st).2 = st) /\
  (middlewares.GetHeader req "Authorization" <> "" ->
     match
       utils.ValidateToken now
         (strings.TrimSpace (middlewares.GetHeader req "Authorization")) st
     with
     | (Err err, st') =>
         middlewares.AuthMiddleware fault db now req st =
           (middlewares.Abort 401 ("Invalid session: " ++ utils.Error err), st')
     | (Ok userID, st') =>
         (middlewares.AuthMiddleware fault db now req st).2 = st' /\
         ((exists user,
             (middlewares.AuthMiddleware fault db now req st).1 =
               middlewares.Next userID user /\
             user ∈ database.users db /\ models.User.ID user = userID) \/
          (middlewares.AuthMiddleware fault db now req st).1 =
            middlewares.Abort 401 "User not found or invalid session")
     end) /\
  (forall ValidateToken : string -> result uint middlewares_jwt.TokenError,
     (middlewares_jwt.AuthMiddleware ValidateToken fault db req =
        middlewares.Abort 401 "Authorization header is required" <->
      middlewares.GetHeader req "Authorization" = "") /\
     (middlewares.GetHeader req "Authorization" <> "" ->
      strings.HasPrefix (middlewares.GetHeader req "Authorization") "Bearer " = false ->
      middlewares_jwt.AuthMiddleware ValidateToken fault db req =
        middlewares.Abort 401 "Authorization header must be in format: Bearer {token}") /\
     (forall token,
        middlewares.GetHeader req "Authorization" = "Bearer " ++ token ->
        if String.eqb token "" then
          middlewares_jwt.AuthMiddleware ValidateToken fault db req =
            middlewares.Abort 401 "Token cannot be empty"
        else
          match ValidateToken token with
          | Err _ =>
              exists error,
                middlewares_jwt.AuthMiddleware ValidateToken fault db req =
                  middlewares.Abort 401 error
          | Ok userID =>
              (exists user,
                 middlewares_jwt.AuthMiddleware ValidateToken fault db req =
                   middlewares.Next userID user /\
                 user ∈ database.users db /\ models.User.ID user = userID) \/
              middlewares_jwt.AuthMiddleware ValidateToken fault db req =
                middlewares.Abort 401 "User not found or invalid token"
          end)).
Proof.
  split; [|split; [|split; [|split]]].
  - intros Habs. by apply AuthMiddleware_no_value, GetHeader_absent.
  - split.
    + intros Hreq.
      destruct (decide (middlewares.GetHeader req "Authorization" = "")) as [|Hne]; [done|].
      exfalso. pose proof (AuthMiddleware_value fault db now req st Hne) as Hval.
      destruct (utils.ValidateToken now _ st) as [[userID|err] st'].
      * destruct Hval as [_ [(user & Hnext & _)|Hnot]]; rewrite Hreq in *; discriminate.
      * rewrite Hval in Hreq. discriminate Hreq.
    + intros Hreq. by rewrite AuthMiddleware_no_value.
  - intros Hreq. by rewrite AuthMiddleware_no_value.
  - apply AuthMiddleware_value.
- intros ValidateToken. apply bearer_gate_cases.
Qed.

Lemma gate_requires_and_validates_witness :
  middlewares.GetHeader
    {| middlewares.Header := {[ "Authorization" := ["  " ++ zeros_id ++ " "] ]} |}
    "Authorization" <> "" /\
  strings.TrimSpace ("  " ++ zeros_id ++ " ") = zeros_id /\
  middlewares.AuthMiddleware None sample_db 2000
    {| middlewares.Header := {[ "Authorization" := ["  " ++ zeros_id ++ " "] ]} |}
    (utils.GenerateToken ∅ zeros 1000 7%N ∅).2 =
  (middlewares.Next 7 alice, (utils.GenerateToken ∅ zeros 1000 7%N ∅).2) /\
  middlewares.AuthMiddleware None sample_db 2000
    {| middlewares.Header := {[ "Authorization" := ["Bearer " ++ zeros_id] ]} |}
    (utils.GenerateToken ∅ zeros 1000 7%N ∅).2 =
  (middlewares.Abort 401 "Invalid session: invalid session",
   (utils.GenerateToken ∅ zeros 1000 7%N ∅).2) /\
  strings.HasPrefix "good" "Bearer " = false /\
  middlewares_jwt.AuthMiddleware sample_jwt None sample_db (with_authorization "good") =
    middlewares.Abort 401 "Authorization header must be in format: Bearer {token}" /\
  middlewares_jwt.AuthMiddleware sample_jwt None sample_db
    (with_authorization "Bearer good") = middlewares.Next 7 alice.
Proof.
  assert (middlewares.GetHeader
            {| middlewares.Header := {[ "Authorization" := ["  " ++ zeros_id ++ " "] ]} |}
            "Authorization" <> "") as Hne by (vm_compute; discriminate).
  assert (middlewares.GetHeader
            {| middlewares.Header := {[ "Authorization" := ["Bearer " ++ zeros_id] ]} |}
            "Authorization" <> "") as Hne' by (vm_compute; discriminate).
  assert (middlewares.GetHeader (with_authorization "good") "Authorization" <> "") as Hgood
    by (vm_compute; discriminate).
  split; [exact Hne|]. split; [reflexivity|]. split; [reflexivity|].
  split.
  { exact (proj1 (proj2 (proj2 (proj2 (gate_requires_and_validates None sample_db 2000
      {| middlewares.Header := {[ "Authorization" := ["Bearer " ++ zeros_id] ]} |}
      (utils.GenerateToken ∅ zeros 1000 7%N ∅).2)))) Hne'). }
  split; [reflexivity|]. split; [|reflexivity].
  exact (proj1 (proj2 (proj2 (proj2 (proj2 (proj2
           (gate_requires_and_validates None sample_db 2000 (with_authorization "good") ∅))))
           sample_jwt)) Hgood eq_refl).
Defined.

(** C5 fails as stated.  A request whose Authorization header is present
    with an empty value is answered "Authorization header is required", as if
    the header were absent; and the gate of the JWT variant does require the
    "Bearer " prefix: it refuses a bare value that the validation accepts. *)
Lemma gate_empty_header_counterexample :
  middlewares.Header {| middlewares.Header := {[ "Authorization" := [""] ]} |}
    !! "Authorization" = Some [""] /\
  middlewares.AuthMiddleware None sample_db 2000
    {| middlewares.Header := {[ "Authorization" := [""] ]} |} ∅ =
  (middlewares.Abort 401 "Authorization header is required", ∅) /\
  ~ (forall fault db now req (st : gmap string utils.sessionData),
       (middlewares.AuthMiddleware fault db now req st).1 =
         middlewares.Abort 401 "Authorization header is required" <->
       middlewares.Header req !! "Authorization" = None) /\
  sample_jwt "good" = Ok 7%N /\
  middlewares_jwt.AuthMiddleware sample_jwt None sample_db (with_authorization "good") =
    middlewares.Abort 401 "Authorization header must be in format: Bearer {token}".
Proof.
  split; [reflexivity|]. split; [reflexivity|]. split; [|split; reflexivity].
  intros H.
  assert (middlewares.Header {| middlewares.Header := {[ "Authorization" := [""] ]} |}
            !! "Authorization" = None) as Habs.
  { apply (H None sample_db 2000 _ ∅). reflexivity. }
  vm_compute in Habs. discriminate Habs.
Qed.

(** The bearer gate of the JWT variant, for comparison: whatever the token
    validation is, a non-empty header that does not start with "Bearer " is
    answered 401 and never reaches the validation. *)
Lemma bearer_gate_requires_prefix ValidateToken fault db req :
  middlewares.GetHeader req "Authorization" <> "" ->
  strings.HasPrefix (middlewares.GetHeader req "Authorization") "Bearer " = false ->
  middlewares_jwt.AuthMiddleware ValidateToken fault db req =
    middlewares.Abort 401 "Authorization header must be in format: Bearer {token}".
Proof.
  intros Hne Hpre. unfold middlewares_jwt.AuthMiddleware.
  rewrite (proj2 (String.eqb_neq _ "") Hne).
  unfold middlewares_jwt.bearerPrefix. by rewrite Hpre.
Qed.

(** ** Task ownership *)

Lemma GetTaskByID_Ok_inv fault db taskID userID task :
  services.GetTaskByID fault db taskID userID = Ok task ->
  task ∈ database.tasks db /\
  models.Task.ID task = taskID /\
  models.Task.UserID task = userID /\
  models.Task.DeletedAt task = None.
Proof.
  unfold services.GetTaskByID.
  destruct (gorm.First _ _ _ _ _) as [row|[|text]] eqn:E; [|done..].
  intros [= ->]. apply First_Ok_inv in E as (_ & Hin & Hlive & Hcond).
  apply andb_true_iff in Hcond as [Hid%N.eqb_eq Huid%N.eqb_eq].
  unfold gorm.live in Hlive. by destruct (models.Task.DeletedAt task).
Qed.

Lemma GetTaskByID_not_owner fault db taskID userID :
  (forall task, task ∈ database.tasks db ->
     models.Task.ID task = taskID -> models.Task.UserID task <> userID) ->
  exists err, services.GetTaskByID fault db taskID userID = Err err /\
              (fault = None -> err = "task not found").
Proof.
  intros Hother. unfold services.GetTaskByID.
  destruct (First_no_match models.Task.ID models.Task.DeletedAt fault
              (fun task => (models.Task.ID task =? taskID)%N
                           && (models.Task.UserID task =? userID)%N)
              (database.tasks db)) as (err & -> & Herr).
  { intros task Hin. apply andb_false_iff.
    destruct (decide (models.Task.ID task = taskID)) as [Hid|Hid].
    - right. apply N.eqb_neq. by apply Hother.
    - left. by apply N.eqb_neq. }
  destruct err as [|text].
  - by eexists.
  - eexists. split; [done|]. intros Hf. by specialize (Herr Hf).
Qed.

Lemma elem_of_optional_filter {A} (b : bool) (f : A -> bool) (l : list A) x :
  x ∈ (if b then List.filter f l else l) -> x ∈ l.
Proof.
  destruct b; [|done]. rewrite !list_elem_of_In, filter_In. tauto.
Qed.

Lemma GetTasks_Ok_inv orderBy faults db options resp :
  services.GetTasks orderBy faults db options = Ok resp ->
  forall task, task ∈ services.Tasks resp ->
    task ∈ database.tasks db /\
    models.Task.UserID task = services.TaskFilterOptions.UserID options /\
    models.Task.DeletedAt task = None.
Proof.
  unfold services.GetTasks.
  destruct (faults 0%nat); [done|]. destruct (faults 1%nat); [done|].
  destruct (orderBy _) as [before|text]; [|done].
  intros [= <-] task Hin. cbn [services.Tasks] in Hin.
  apply subseteq_take, subseteq_drop in Hin.
  rewrite merge_sort_Permutation in Hin.
  apply elem_of_optional_filter, elem_of_optional_filter in Hin.
  rename Hin into Hq.
  apply list_elem_of_In, filter_In in Hq as [Hq Hc]. apply list_elem_of_In in Hq.
  apply andb_true_iff in Hc as [Hlive Huid%N.eqb_eq].
  unfold gorm.live in Hlive. by destruct (models.Task.DeletedAt task).
Qed.

(** C8: every task operation filters by the owning user.  When the rows
    with the requested task id belong to other users, get-by-id, update,
    update-status and delete all fail, return no task and leave the store as
    it was, and the failure is "task not found" whenever the store answers
    the query.  A task that get-by-id does return has the requested id and
    owner; and the list operation returns only live tasks of the requesting
    user, so never that task either. *)
Theorem task_operations_filter_by_owner faults now db taskID userID :
  (forall task, task ∈ database.tasks db ->
     models.Task.ID task = taskID -> models.Task.UserID task <> userID) ->
  (exists err, services.GetTaskByID (faults 0%nat) db taskID userID = Err err /\
               (faults 0%nat = None -> err = "task not found")) /\
  (forall req, services.TaskRequest.UserID req = userID ->
     exists err, services.UpdateTask faults now db taskID req = (Err err, db) /\
                 (faults 0%nat = None -> err = "task not found")) /\
  (forall req, services.TaskStatusRequest.UserID req = userID ->
     exists err, services.UpdateTaskStatus faults now db taskID req = (Err err, db) /\
                 (faults 0%nat = None -> err = "task not found")) /\
  (exists err, services.DeleteTask faults now db taskID userID = (Some err, db) /\
               (faults 0%nat = None -> err = "task not found")) /\
  (forall orderBy options resp,
     services.TaskFilterOptions.UserID options = userID ->
     services.GetTasks orderBy faults db options = Ok resp ->
     forall task, task ∈ services.Tasks resp ->
       task ∈ database.tasks db /\ models.Task.UserID task = userID /\
       models.Task.ID task <> taskID) /\
  (forall fault anyID anyUser task,
     services.GetTaskByID fault db anyID anyUser = Ok task ->
     task ∈ database.tasks db /\ models.Task.ID task = anyID /\
     models.Task.UserID task = anyUser).
Proof.
  intros Hother.
  destruct (GetTaskByID_not_owner (faults 0%nat) db taskID userID Hother) as (err & Hget & Herr).
  repeat apply conj.
  - by exists err.
  - intros req <-. exists err. unfold services.UpdateTask. by rewrite Hget.
  - intros req <-. exists err. unfold services.UpdateTaskStatus. by rewrite Hget.
  - exists err. unfold services.DeleteTask. by rewrite Hget.
  - intros orderBy options resp <- Hlist task Hin.
    destruct (GetTasks_Ok_inv _ _ _ _ _ Hlist task Hin) as (Hdb & Huid & _).
    repeat split; [done..|]. intros Hid. by apply (Hother task Hdb Hid).
  - intros fault anyID anyUser task Hget'.
    by apply GetTaskByID_Ok_inv in Hget' as (? & ? & ? & _).
Qed.

Lemma task_operations_filter_by_owner_witness :
  (forall task, task ∈ database.tasks sample_db ->
     models.Task.ID task = 2%N -> models.Task.UserID task <> 7%N) /\
  services.GetTaskByID None sample_db 2 7 = Err "task not found" /\
  services.GetTaskByID None sample_db 2 8 = Ok task_of_bob /\
  services.DeleteTask no_faults 5000 sample_db 2 7 = (Some "task not found", sample_db) /\
  (exists resp,
     services.GetTasks by_created_at no_faults sample_db
       {| services.TaskFilterOptions.UserID := 7; services.TaskFilterOptions.Status := "";
          services.TaskFilterOptions.Priority := ""; services.TaskFilterOptions.SortBy := "";
          services.TaskFilterOptions.Order := ""; services.TaskFilterOptions.Page := 0;
          services.TaskFilterOptions.PageSize := 0 |} = Ok resp /\
     services.Tasks resp = [task_of_alice]) /\
  exists err,
    services.UpdateTask no_faults 5000 sample_db 2
      {| services.TaskRequest.Title := "mine now"; services.TaskRequest.Description := "";
         services.TaskRequest.DueDate := None; services.TaskRequest.Priority := "";
         services.TaskRequest.UserID := 7 |} = (Err err, sample_db) /\
    (no_faults 0%nat = None -> err = "task not found").
Proof.
  assert (forall task, task ∈ database.tasks sample_db ->
            models.Task.ID task = 2%N -> models.Task.UserID task <> 7%N) as Hother.
  { intros task Hin Hid.
    apply list_elem_of_In in Hin. cbn in Hin.
    destruct Hin as [<- | [<- | []]]; [discriminate Hid | discriminate]. }
  split; [exact Hother|].
  split; [reflexivity|]. split; [reflexivity|]. split; [reflexivity|].
  split; [eexists; split; reflexivity|].
  exact (proj1 (proj2 (task_operations_filter_by_owner no_faults 5000 sample_db 2 7 Hother))
           {| services.TaskRequest.Title := "mine now"; services.TaskRequest.Description := "";
              services.TaskRequest.DueDate := None; services.TaskRequest.Priority := "";
              services.TaskRequest.UserID := 7 |} eq_refl).
Defined.

(** ** Writes touch the owner's row only *)

Lemma primary_key_unique (rows : list models.Task.t) row row' :
  NoDup (map models.Task.ID rows) ->
  row ∈ rows -> row' ∈ rows -> models.Task.ID row = models.Task.ID row' -> row = row'.
Proof.
  intros Hnodup Hrow Hrow' Hid.
  apply list_elem_of_lookup in Hrow as [i Hi]. apply list_elem_of_lookup in Hrow' as [j Hj].
  assert (i = j) as ->.
  { eapply NoDup_lookup; [exact Hnodup| |].
    - rewrite list_lookup_fmap, Hi. reflexivity.
    - rewrite list_lookup_fmap, Hj. cbn. by rewrite Hid. }
  congruence.
Qed.

Lemma Delete_other_rows fault now task (rows rows' : list models.Task.t) :
  gorm.Delete fault now task rows = Ok rows' ->
  forall i row, rows !! i = Some row -> models.Task.ID row <> models.Task.ID task ->
    rows' !! i = Some row.
Proof.
  unfold gorm.Delete. destruct fault; [done|]. intros [= <-] i row Hi Hid.
  rewrite list_lookup_fmap, Hi. cbn. by rewrite (proj2 (N.eqb_neq _ _) Hid).
Qed.

(** With unique primary keys, no update, status update or delete made for
    one user changes a row that belongs to another user. *)
Lemma writes_leave_other_users_rows faults now db taskID userID :
  NoDup (map models.Task.ID (database.tasks db)) ->
  forall i row,
    database.tasks db !! i = Some row -> models.Task.UserID row <> userID ->
    (forall req, services.TaskRequest.UserID req = userID ->
       database.tasks (services.UpdateTask faults now db taskID req).2 !! i = Some row) /\
    (forall req, services.TaskStatusRequest.UserID req = userID ->
       database.tasks (services.UpdateTaskStatus faults now db taskID req).2 !! i = Some row) /\
    database.tasks (services.DeleteTask faults now db taskID userID).2 !! i = Some row.
Proof.
  intros Hnodup i row Hi Howner.
  assert (forall task, services.GetTaskByID (faults 0%nat) db taskID userID = Ok task ->
            task ∈ database.tasks db /\ models.Task.ID row <> models.Task.ID task) as Hkey.
  { intros task (Hin & Hid & Huid & _)%GetTaskByID_Ok_inv. split; [done|].
    intros Heq. apply Howner. rewrite <- Huid. f_equal.
    apply (primary_key_unique (database.tasks db)); [done | | done..].
    apply list_elem_of_lookup. by exists i. }
  repeat apply conj.
  - intros req <-. unfold services.UpdateTask.
    destruct (services.GetTaskByID _ db taskID _) as [task|err] eqn:Hget; [|done].
    destruct (Hkey task eq_refl) as [Hin Hne].
    destruct (gorm.Save _ now _ _) as [[task' rows']|err] eqn:Hsave; [|done].
    cbn [snd database.tasks]. revert Hsave. unfold gorm.Save.
    destruct (faults 1%nat); [done|]. cbn [models.Task.ID].
    destruct (existsb _ _) eqn:Hex.
    + intros [= _ <-]. rewrite list_lookup_fmap, Hi. cbn.
      by rewrite (proj2 (N.eqb_neq _ _) Hne).
    + intros [= _ <-]. by apply lookup_app_l_Some.
  - intros req <-. unfold services.UpdateTaskStatus.
    destruct (services.GetTaskByID _ db taskID _) as [task|err] eqn:Hget; [|done].
    destruct (Hkey task eq_refl) as [Hin Hne].
    destruct (gorm.Save _ now _ _) as [[task' rows']|err] eqn:Hsave; [|done].
    cbn [snd database.tasks]. revert Hsave. unfold gorm.Save.
    destruct (faults 1%nat); [done|]. cbn [models.Task.ID].
    destruct (existsb _ _) eqn:Hex.
    + intros [= _ <-]. rewrite list_lookup_fmap, Hi. cbn.
      by rewrite (proj2 (N.eqb_neq _ _) Hne).
    + intros [= _ <-]. by apply lookup_app_l_Some.
  - unfold services.DeleteTask.
    destruct (services.GetTaskByID _ db taskID _) as [task|err] eqn:Hget; [|done].
    destruct (Hkey task eq_refl) as [Hin Hne].
    destruct (gorm.Delete _ now _ _) as [rows'|err] eqn:Hdel; [|done].
    cbn [snd database.tasks]. by eapply Delete_other_rows.
Qed.

(** The owner's own update goes through. *)
Example owner_updates_status :
  services.UpdateTaskStatus no_faults 5000123456 sample_db 1
    {| services.TaskStatusRequest.Status := "completed";
       services.TaskStatusRequest.UserID := 7 |} =
  (Ok {| models.Task.ID := 1; models.Task.UserID := 7; models.Task.Title := "write report";
         models.Task.Description := ""; models.Task.DueDate := None;
         models.Task.Priority := "medium"; models.Task.Status := "completed";
         models.Task.CreatedAt := 600000000; models.Task.UpdatedAt := 5000000000;
         models.Task.DeletedAt := None |},
   {| database.users := [alice];
      database.tasks :=
        [ {| models.Task.ID := 1; models.Task.UserID := 7;
             models.Task.Title := "write report"; models.Task.Description := "";
             models.Task.DueDate := None; models.Task.Priority := "medium";
             models.Task.Status := "completed"; models.Task.CreatedAt := 600000000;
             models.Task.UpdatedAt := 5000000000; models.Task.DeletedAt := None |};
          task_of_bob ] |}).
Proof. reflexivity. Qed.

(* ===================================================================== *)
(** * Part III: further properties of the code                           *)
(* ===================================================================== *)

(** ** The session table: identifiers *)

Lemma String_get_In n (s : string) c :
  String.get n s = Some c -> In c (list_ascii_of_string s).
Proof.
  revert n. induction s as [|a s IH]; intros n; [done|].
  destruct n as [|n]; cbn [String.get list_ascii_of_string].
  - intros [= ->]. by left.
  - intros H. right. by eapply IH.
Qed.

Lemma encode_urlsafe i : urlsafe (base64.encode i) = true.
Proof.
  unfold urlsafe, base64.encode.
  destruct (String.get (Z.to_nat i) base64.encodeURL) as [c|] eqn:E.
  - apply orb_true_iff. left. apply existsb_exists. exists c.
    split; [by eapply String_get_In | apply Ascii.eqb_refl].
  - reflexivity.
Qed.

Lemma EncodeToString_urlsafe_32 (f : nat -> byte) :
  all_chars urlsafe
    (base64.EncodeToString (imap (fun i _ => f i) (replicate 32 Byte.x00))) = true.
Proof.
  cbn [replicate imap]. cbn [base64.EncodeToString all_chars].
  rewrite !encode_urlsafe. reflexivity.
Qed.

Lemma reachable_id_shape (st : gmap string utils.sessionData) id session :
  reachable st -> st !! id = Some session ->
  String.length id = 44%nat /\ all_chars urlsafe id = true.
Proof.
  intros Hreach. revert id session.
  induction Hreach as [|env src now userID st _ IH|now sid st _ IH|now st _ IH];
    intros id session Hid.
  - by rewrite lookup_empty in Hid.
  - destruct (utils.GenerateToken env src now userID st) as [[sid|e] st'] eqn:E; cbn [snd] in Hid.
    + pose proof (GenerateToken_id_length _ _ _ _ _ _ _ E) as Hlen.
      apply GenerateToken_Ok_inv in E as (bytes & ttl & _ & Hsid & _ & ->).
      destruct (decide (sid = id)) as [<-|Hne].
      * split; [done|]. rewrite Hsid. apply EncodeToString_urlsafe_32.
      * rewrite lookup_insert_ne in Hid by done. by eapply IH.
    + apply GenerateToken_Err_inv in E as [-> _]. by eapply IH.
  - apply ValidateToken_keeps in Hid. by eapply IH.
  - rewrite CleanupSessions_lookup in Hid.
    destruct (st !! id) as [s|] eqn:Hs; [|done].
    by eapply IH.
Qed.

(** X1: every identifier in a table the process can reach is 44 characters
    long and made of the URL-safe base64 alphabet and the padding sign. *)
Theorem reachable_ids_wellformed (st : gmap string utils.sessionData) id session :
  reachable st -> st !! id = Some session ->
  String.length id = 44%nat /\ all_chars urlsafe id = true.
Proof. apply reachable_id_shape. Qed.

(** ** The encoding of identifiers loses nothing *)

Lemma uint_of_byte_range b : 0 <= base64.uint_of_byte b < 256.
Proof. unfold base64.uint_of_byte. pose proof (Byte.to_N_bounded b). lia. Qed.

Lemma uint_of_byte_inj b c : base64.uint_of_byte b = base64.uint_of_byte c -> b = c.
Proof.
  unfold base64.uint_of_byte. intros H. apply N2Z.inj in H.
  pose proof (Byte.of_to_N b) as Hb. rewrite H, Byte.of_to_N in Hb. congruence.
Qed.

(** Bits that do not overlap add up. *)
Lemma lor_low_bits x lo n :
  0 <= n -> 0 <= lo < 2 ^ n -> Z.lor (Z.shiftl x n) lo = x * 2 ^ n + lo.
Proof.
  intros Hn [Hlo0 Hlo]. rewrite Z.shiftl_mul_pow2 by done.
  assert (Z.land (x * 2 ^ n) lo = 0) as Hdisj.
  { apply Z.bits_inj'. intros k Hk. rewrite Z.land_spec, Z.bits_0.
    destruct (Z.lt_ge_cases k n) as [Hlt|Hge].
    - by rewrite Z.mul_pow2_bits_low.
    - destruct (Z.eq_dec lo 0) as [->|Hne]; [by rewrite Z.bits_0, andb_false_r|].
      rewrite (Z.bits_above_log2 lo k), andb_false_r; [done|done|].
      apply Z.log2_lt_pow2; [lia|].
      eapply Z.lt_le_trans; [exact Hlo|]. apply Z.pow_le_mono_r; lia. }
  rewrite <- Z.lxor_lor by done. symmetry. by apply Z.add_nocarry_lxor.
Qed.

Lemma encode_inj i j :
  0 <= i < 64 -> 0 <= j < 64 -> base64.encode i = base64.encode j -> i = j.
Proof.
  intros Hi Hj Heq.
  assert (forallb (fun a => forallb (fun b =>
            implb (Ascii.eqb (base64.encode (Z.of_nat a)) (base64.encode (Z.of_nat b)))
                  (Nat.eqb a b)) (seq 0 64)) (seq 0 64) = true) as Hall
    by (vm_compute; reflexivity).
  rewrite forallb_forall in Hall.
  specialize (Hall (Z.to_nat i)). rewrite forallb_forall in Hall.
  specialize (Hall ltac:(apply in_seq; lia) (Z.to_nat j) ltac:(apply in_seq; lia)).
  rewrite !Z2Nat.id in Hall by lia. rewrite Heq, Ascii.eqb_refl in Hall.
  cbn [implb] in Hall. apply Nat.eqb_eq in Hall. lia.
Qed.

Lemma sextet_range x k : 0 <= Z.land (Z.shiftr x k) 63 < 64.
Proof.
  change 63 with (Z.ones 6). rewrite Z.land_ones by lia.
  apply Z.mod_pos_bound. lia.
Qed.

Lemma sextet_div x k : 0 <= k -> Z.land (Z.shiftr x k) 63 = (x / 2 ^ k) mod 64.
Proof.
  intros Hk. change 63 with (Z.ones 6). rewrite Z.land_ones by lia.
  by rewrite Z.shiftr_div_pow2.
Qed.

Lemma land_63 x : Z.land x 63 = x mod 64.
Proof. change 63 with (Z.ones 6). by rewrite Z.land_ones by lia. Qed.

(** A full group: four characters determine three bytes. *)
Lemma group3_inj b0 b1 b2 c0 c1 c2 :
  let val x y z :=
    Z.lor (Z.lor (Z.shiftl (base64.uint_of_byte x) 16) (Z.shiftl (base64.uint_of_byte y) 8))
      (base64.uint_of_byte z) in
  base64.encode (Z.land (Z.shiftr (val b0 b1 b2) 18) 63) =
    base64.encode (Z.land (Z.shiftr (val c0 c1 c2) 18) 63) ->
  base64.encode (Z.land (Z.shiftr (val b0 b1 b2) 12) 63) =
    base64.encode (Z.land (Z.shiftr (val c0 c1 c2) 12) 63) ->
  base64.encode (Z.land (Z.shiftr (val b0 b1 b2) 6) 63) =
    base64.encode (Z.land (Z.shiftr (val c0 c1 c2) 6) 63) ->
  base64.encode (Z.land (val b0 b1 b2) 63) = base64.encode (Z.land (val c0 c1 c2) 63) ->
  b0 = c0 /\ b1 = c1 /\ b2 = c2.
Proof.
  intros val H18 H12 H6 H0.
  apply encode_inj in H18; [|apply sextet_range..].
  apply encode_inj in H12; [|apply sextet_range..].
  apply encode_inj in H6; [|apply sextet_range..].
  apply encode_inj in H0; [|rewrite land_63; apply Z.mod_pos_bound; lia..].
  rewrite !sextet_div in H18, H12, H6 by lia. rewrite !land_63 in H0.
  pose proof (uint_of_byte_range b0). pose proof (uint_of_byte_range b1).
  pose proof (uint_of_byte_range b2). pose proof (uint_of_byte_range c0).
  pose proof (uint_of_byte_range c1). pose proof (uint_of_byte_range c2).
  assert (forall x y z, 0 <= base64.uint_of_byte x < 256 -> 0 <= base64.uint_of_byte y < 256 ->
            0 <= base64.uint_of_byte z < 256 ->
            val x y z = base64.uint_of_byte x * 65536 + base64.uint_of_byte y * 256
                        + base64.uint_of_byte z) as Hval.
  { intros x y z Hx Hy Hz. unfold val.
    rewrite (Z.shiftl_mul_pow2 (base64.uint_of_byte y) 8) by lia.
    rewrite (lor_low_bits (base64.uint_of_byte x) (base64.uint_of_byte y * 2 ^ 8) 16) by lia.
    replace (base64.uint_of_byte x * 2 ^ 16 + base64.uint_of_byte y * 2 ^ 8)
      with (Z.shiftl (base64.uint_of_byte x * 256 + base64.uint_of_byte y) 8)
      by (rewrite Z.shiftl_mul_pow2 by lia; lia).
    rewrite lor_low_bits by lia. lia. }
  rewrite !Hval in * by done.
  change (2 ^ 18) with 262144 in *. change (2 ^ 12) with 4096 in *.
  change (2 ^ 6) with 64 in *.
  assert (base64.uint_of_byte b0 * 65536 + base64.uint_of_byte b1 * 256 + base64.uint_of_byte b2
          = base64.uint_of_byte c0 * 65536 + base64.uint_of_byte c1 * 256
            + base64.uint_of_byte c2) as Hsame.
  { clear Hval. Z.to_euclidean_division_equations. lia. }
  repeat split; apply uint_of_byte_inj; lia.
Qed.

(** The last two bytes, and the last byte. *)
Lemma group2_inj b0 b1 c0 c1 :
  let val x y :=
    Z.lor (Z.shiftl (base64.uint_of_byte x) 16) (Z.shiftl (base64.uint_of_byte y) 8) in
  base64.encode (Z.land (Z.shiftr (val b0 b1) 18) 63) =
    base64.encode (Z.land (Z.shiftr (val c0 c1) 18) 63) ->
  base64.encode (Z.land (Z.shiftr (val b0 b1) 12) 63) =
    base64.encode (Z.land (Z.shiftr (val c0 c1) 12) 63) ->
  base64.encode (Z.land (Z.shiftr (val b0 b1) 6) 63) =
    base64.encode (Z.land (Z.shiftr (val c0 c1) 6) 63) ->
  b0 = c0 /\ b1 = c1.
Proof.
  intros val H18 H12 H6.
  apply encode_inj in H18; [|apply sextet_range..].
  apply encode_inj in H12; [|apply sextet_range..].
  apply encode_inj in H6; [|apply sextet_range..].
  rewrite !sextet_div in H18, H12, H6 by lia.
  pose proof (uint_of_byte_range b0). pose proof (uint_of_byte_range b1).
  pose proof (uint_of_byte_range c0). pose proof (uint_of_byte_range c1).
  assert (forall x y, 0 <= base64.uint_of_byte x < 256 -> 0 <= base64.uint_of_byte y < 256 ->
            val x y = base64.uint_of_byte x * 65536 + base64.uint_of_byte y * 256) as Hval.
  { intros x y Hx Hy. unfold val.
    rewrite (Z.shiftl_mul_pow2 (base64.uint_of_byte y) 8) by lia.
    rewrite (lor_low_bits (base64.uint_of_byte x) (base64.uint_of_byte y * 2 ^ 8) 16) by lia.
    lia. }
  rewrite !Hval in * by done.
  change (2 ^ 18) with 262144 in *. change (2 ^ 12) with 4096 in *.
  change (2 ^ 6) with 64 in *.
  assert (base64.uint_of_byte b0 * 65536 + base64.uint_of_byte b1 * 256
          = base64.uint_of_byte c0 * 65536 + base64.uint_of_byte c1 * 256) as Hsame.
  { clear Hval. Z.to_euclidean_division_equations. lia. }
  split; apply uint_of_byte_inj; lia.
Qed.

Lemma group1_inj b0 c0 :
  base64.encode (Z.land (Z.shiftr (Z.shiftl (base64.uint_of_byte b0) 16) 18) 63) =
    base64.encode (Z.land (Z.shiftr (Z.shiftl (base64.uint_of_byte c0) 16) 18) 63) ->
  base64.encode (Z.land (Z.shiftr (Z.shiftl (base64.uint_of_byte b0) 16) 12) 63) =
    base64.encode (Z.land (Z.shiftr (Z.shiftl (base64.uint_of_byte c0) 16) 12) 63) ->
  b0 = c0.
Proof.
  intros H18 H12.
  apply encode_inj in H18; [|apply sextet_range..].
  apply encode_inj in H12; [|apply sextet_range..].
  rewrite !sextet_div in H18, H12 by lia.
  rewrite !Z.shiftl_mul_pow2 in H18, H12 by lia.
  pose proof (uint_of_byte_range b0). pose proof (uint_of_byte_range c0).
  change (2 ^ 18) with 262144 in *. change (2 ^ 12) with 4096 in *.
  change (2 ^ 16) with 65536 in *.
  apply uint_of_byte_inj. Z.to_euclidean_division_equations. lia.
Qed.

(** Byte strings of one length with the same encoding are the same. *)
Lemma EncodeToString_inj n : forall l l' : list byte,
  (length l <= n)%nat -> length l = length l' ->
  base64.EncodeToString l = base64.EncodeToString l' -> l = l'.
Proof.
  induction n as [|n IH]; intros l l' Hn Hlen Henc.
  - destruct l; [|cbn in Hn; lia]. by destruct l'.
  - destruct l as [|b0 [|b1 [|b2 l]]]; destruct l' as [|c0 [|c1 [|c2 l']]];
      try discriminate Hlen; [done| | |].
    + cbn [base64.EncodeToString] in Henc. injection Henc as H18 H12.
      f_equal. by apply group1_inj.
    + cbn [base64.EncodeToString] in Henc. injection Henc as H18 H12 H6.
      destruct (group2_inj b0 b1 c0 c1 H18 H12 H6) as [-> ->]. done.
    + cbn [base64.EncodeToString] in Henc. injection Henc as H18 H12 H6 H0 Hrest.
      destruct (group3_inj b0 b1 b2 c0 c1 c2 H18 H12 H6 H0) as (-> & -> & ->).
      do 3 f_equal. apply IH; [cbn in Hn; lia | cbn in Hlen; lia | done].
Qed.

Lemma filled_32_inj (f g : nat -> byte) :
  imap (fun i _ => f i) (replicate 32 Byte.x00) = imap (fun i _ => g i) (replicate 32 Byte.x00) ->
  forall i, (i < 32)%nat -> f i = g i.
Proof.
  intros Heq i Hi. apply (f_equal (fun l => l !! i)) in Heq.
  rewrite !list_lookup_imap in Heq.
  rewrite (lookup_replicate_2 32 Byte.x00 i Hi) in Heq. cbn in Heq. congruence.
Qed.

(** X2: two calls of [GenerateToken] whose random bytes differ in some
    position return different identifiers; after the second call both
    sessions are in the table, each validating to its own user until its own
    expiry. *)
Theorem distinct_bytes_distinct_sessions env env' f g now now' userID userID'
    (st : gmap string utils.sessionData) sid sid' st1 st2 :
  utils.GenerateToken env (rand.Fill f) now userID st = (Ok sid, st1) ->
  utils.GenerateToken env' (rand.Fill g) now' userID' st1 = (Ok sid', st2) ->
  (exists i, (i < 32)%nat /\ f i <> g i) ->
  sid <> sid' /\
  exists session session',
    st2 !! sid = Some session /\ utils.UserID session = userID /\
    st2 !! sid' = Some session' /\ utils.UserID session' = userID' /\
    (forall t, t <= utils.ExpiresAt session ->
       utils.ValidateToken t sid st2 = (Ok userID, st2)) /\
    (forall t, t <= utils.ExpiresAt session' ->
       utils.ValidateToken t sid' st2 = (Ok userID', st2)).
Proof.
  intros Hgen Hgen' (i & Hi & Hdiff).
  pose proof (GenerateToken_id_nonempty _ _ _ _ _ _ _ Hgen) as Hne.
  pose proof (GenerateToken_id_nonempty _ _ _ _ _ _ _ Hgen') as Hne'.
  apply GenerateToken_Ok_inv in Hgen as (f' & ttl & [= <-] & Hsid & _ & ->).
  apply GenerateToken_Ok_inv in Hgen' as (g' & ttl' & [= <-] & Hsid' & _ & ->).
  assert (sid <> sid') as Hids.
  { intros Heq. apply Hdiff. apply filled_32_inj; [|done].
    apply (EncodeToString_inj 32); [by rewrite length_imap, length_replicate
                                   |by rewrite !length_imap|congruence]. }
  split; [done|].
  set (session := {| utils.UserID := userID; utils.ExpiresAt := now + ttl |}).
  set (session' := {| utils.UserID := userID'; utils.ExpiresAt := now' + ttl' |}).
  assert (<[sid' := session']> (<[sid := session]> st) !! sid = Some session) as Hfirst
    by (by rewrite lookup_insert_ne, lookup_insert_eq).
  assert (<[sid' := session']> (<[sid := session]> st) !! sid' = Some session') as Hsecond
    by apply lookup_insert_eq.
  exists session, session'. repeat split; try done.
  - intros t Ht. by rewrite (ValidateToken_live t sid session _ Hne Hfirst Ht).
  - intros t Ht. by rewrite (ValidateToken_live t sid' session' _ Hne' Hsecond Ht).
Qed.

(** ** The session table: cleanup and eviction *)

Lemma CleanupSessions_twice t1 t2 (st : gmap string utils.sessionData) :
  utils.CleanupSessions t2 (utils.CleanupSessions t1 st) =
  utils.CleanupSessions (Z.max t1 t2) st.
Proof.
  apply map_eq. intros id. rewrite !CleanupSessions_lookup.
  destruct (st !! id) as [session|]; [|done].
  destruct (time.After t1 (utils.ExpiresAt session)) eqn:E1;
    destruct (time.After (Z.max t1 t2) (utils.ExpiresAt session)) eqn:E3.
  - done.
  - apply After_lt in E1. apply After_ge in E3. lia.
  - destruct (time.After t2 (utils.ExpiresAt session)) eqn:E2; [done|].
    apply After_ge in E1, E2. apply After_lt in E3. lia.
  - destruct (time.After t2 (utils.ExpiresAt session)) eqn:E2; [|done].
    apply After_lt in E2. apply After_ge in E3. lia.
Qed.

(** X3: the loop of [scheduleSessionCleanup] amounts to one cleanup: any
    run of cleanups leaves the table that a single cleanup at the latest of
    their clock readings leaves. *)
Theorem sweeps_as_one_cleanup t times (st : gmap string utils.sessionData) :
  sweeps (t :: times) st = utils.CleanupSessions (foldl Z.max t times) st.
Proof.
  unfold sweeps. cbn [foldl]. revert t.
  induction times as [|t' times IH]; intros t; [done|].
  cbn [foldl]. rewrite CleanupSessions_twice. apply IH.
Qed.

Lemma eviction_then_cleanup t now sid (st : gmap string utils.sessionData) :
  t <= now ->
  utils.CleanupSessions now (utils.ValidateToken t sid st).2 = utils.CleanupSessions now st.
Proof.
  intros Ht. unfold utils.ValidateToken.
  destruct (String.eqb sid ""); [done|].
  destruct (st !! sid) as [session|] eqn:Hsid; [|done].
  destruct (time.After t (utils.ExpiresAt session)) eqn:E; [|done].
  cbn [snd]. apply After_lt in E.
  apply map_eq. intros id. rewrite !CleanupSessions_lookup.
  destruct (decide (sid = id)) as [<-|Hne].
  - rewrite lookup_delete_eq, Hsid.
    assert (time.After now (utils.ExpiresAt session) = true) as ->
      by (apply After_lt; lia).
    done.
  - by rewrite lookup_delete_ne.
Qed.

(** X4: validations and earlier cleanups leave no trace once a cleanup runs:
    after any run of [ValidateToken] and [CleanupSessions] calls made no later
    than [now], a cleanup at [now] leaves the table it would have left without
    them.  Lazy eviction therefore never removes an entry the cleanup would
    keep. *)
Theorem housekeeping_absorbed_by_cleanup now calls :
  forall st : gmap string utils.sessionData,
  Forall (fun '(t, c) => t <= now /\ housekeeping c = true) calls ->
  utils.CleanupSessions now (run calls st) = utils.CleanupSessions now st.
Proof.
  induction calls as [|[t c] calls IH]; intros st Hall; [done|].
  apply Forall_cons in Hall as [[Ht Hc] Hall]. cbn [run foldl].
  change (foldl _ ?x calls) with (run calls x). rewrite IH by done.
  destruct c as [env src userID|sid|]; cbn [call]; [discriminate Hc| |].
  - by apply eviction_then_cleanup.
  - rewrite CleanupSessions_twice. f_equal. lia.
Qed.

Lemma housekeeping_absorbed_by_cleanup_witness :
  Forall (fun '(t, c) => t <= 3000 + day /\ housekeeping c = true)
    [(2000 + day, CallValidateToken zeros_id); (2500 + day, CallCleanupSessions)] /\
  run [(2000 + day, CallValidateToken zeros_id); (2500 + day, CallCleanupSessions)]
    (utils.GenerateToken ∅ zeros 1000 7%N ∅).2 = ∅ /\
  utils.CleanupSessions (3000 + day)
    (run [(2000 + day, CallValidateToken zeros_id); (2500 + day, CallCleanupSessions)]
       (utils.GenerateToken ∅ zeros 1000 7%N ∅).2) =
  utils.CleanupSessions (3000 + day) (utils.GenerateToken ∅ zeros 1000 7%N ∅).2.
Proof.
  assert (Forall (fun '(t, c) => t <= 3000 + day /\ housekeeping c = true)
            [(2000 + day, CallValidateToken zeros_id); (2500 + day, CallCleanupSessions)])
    as Hall by (repeat constructor; vm_compute; discriminate).
  split; [exact Hall|]. split; [reflexivity|].
  exact (housekeeping_absorbed_by_cleanup (3000 + day) _ _ Hall).
Defined.

Lemma reachable_ids_wellformed_witness :
  reachable (utils.GenerateToken ∅ ones 3000 8%N (utils.GenerateToken ∅ zeros 1000 7%N ∅).2).2 /\
  (utils.GenerateToken ∅ ones 3000 8%N (utils.GenerateToken ∅ zeros 1000 7%N ∅).2).2
    !! "__________________________________________8=" =
    Some {| utils.UserID := 8; utils.ExpiresAt := 3000 + day |} /\
  String.length "__________________________________________8=" = 44%nat /\
  all_chars urlsafe "__________________________________________8=" = true.
Proof.
  assert (reachable
            (utils.GenerateToken ∅ ones 3000 8%N
               (utils.GenerateToken ∅ zeros 1000 7%N ∅).2).2) as Hreach
    by (do 2 apply reachable_GenerateToken; apply reachable_init).
  assert ((utils.GenerateToken ∅ ones 3000 8%N
             (utils.GenerateToken ∅ zeros 1000 7%N ∅).2).2
            !! "__________________________________________8=" =
          Some {| utils.UserID := 8; utils.ExpiresAt := 3000 + day |}) as Hid
    by reflexivity.
  split; [exact Hreach|]. split; [exact Hid|].
  exact (reachable_ids_wellformed _ _ _ Hreach Hid).
Defined.

Lemma distinct_bytes_distinct_sessions_witness :
  utils.GenerateToken ∅ zeros 1000 7%N ∅ =
    (Ok zeros_id, (utils.GenerateToken ∅ zeros 1000 7%N ∅).2) /\
  utils.GenerateToken ∅ ones 3000 8%N (utils.GenerateToken ∅ zeros 1000 7%N ∅).2 =
    (Ok "__________________________________________8=",
     (utils.GenerateToken ∅ ones 3000 8%N (utils.GenerateToken ∅ zeros 1000 7%N ∅).2).2) /\
  (exists i, (i < 32)%nat /\ Byte.x00 <> Byte.xff) /\
  zeros_id <> "__________________________________________8=".
Proof.
  assert (utils.GenerateToken ∅ zeros 1000 7%N ∅ =
            (Ok zeros_id, (utils.GenerateToken ∅ zeros 1000 7%N ∅).2)) as Hfirst
    by reflexivity.
  assert (utils.GenerateToken ∅ ones 3000 8%N (utils.GenerateToken ∅ zeros 1000 7%N ∅).2 =
            (Ok "__________________________________________8=",
             (utils.GenerateToken ∅ ones 3000 8%N
                (utils.GenerateToken ∅ zeros 1000 7%N ∅).2).2)) as Hsecond
    by reflexivity.
  assert (exists i, (i < 32)%nat /\ Byte.x00 <> Byte.xff) as Hdiff
    by (exists 0%nat; split; [lia | discriminate]).
  split; [exact Hfirst|]. split; [exact Hsecond|]. split; [exact Hdiff|].
  exact (proj1 (distinct_bytes_distinct_sessions ∅ ∅ (fun _ => Byte.x00) (fun _ => Byte.xff)
                  1000 3000 7%N 8%N ∅ _ _ _ _ Hfirst Hsecond Hdiff)).
Defined.

(** ** The session table: lifetimes *)

(** X5: a session outlives everything that happens before its expiry.  After
    [GenerateToken] has returned an identifier, any run of calls made no later
    than the session's [ExpiresAt] in which no later [GenerateToken] draws the
    same identifier leaves the session in the table as issued, and
    validating it then still returns the user it was issued to. *)
Theorem session_valid_through_run env src now userID (st : gmap string utils.sessionData)
    sid st' calls t :
  utils.GenerateToken env src now userID st = (Ok sid, st') ->
  (forall session, st' !! sid = Some session ->
     undisturbed sid (utils.ExpiresAt session) calls st' /\ t <= utils.ExpiresAt session) ->
  exists session,
    st' !! sid = Some session /\
    run calls st' !! sid = Some session /\
    utils.UserID session = userID /\
    utils.ValidateToken t sid (run calls st') = (Ok userID, run calls st').
Proof.
  intros Hgen Hrun.
  pose proof (GenerateToken_id_nonempty _ _ _ _ _ _ _ Hgen) as Hne.
  apply GenerateToken_Ok_inv in Hgen as (bytes & ttl & _ & _ & _ & ->).
  set (session := {| utils.UserID := userID; utils.ExpiresAt := now + ttl |}) in *.
  destruct (Hrun session (lookup_insert_eq _ _ _)) as [Hcalls Ht].
  pose proof (session_survives_run sid session calls _ (lookup_insert_eq _ _ _) Hcalls)
    as Hkept.
  exists session. split; [apply lookup_insert_eq|]. split; [done|]. split; [done|].
  by rewrite (ValidateToken_live t sid session _ Hne Hkept Ht).
Qed.

Lemma session_valid_through_run_witness :
  utils.GenerateToken ∅ zeros 1000 7%N ∅ =
    (Ok zeros_id, (utils.GenerateToken ∅ zeros 1000 7%N ∅).2) /\
  exists session,
    (utils.GenerateToken ∅ zeros 1000 7%N ∅).2 !! zeros_id = Some session /\
    run [(2000, CallGenerateToken ∅ ones 8%N); (3000, CallCleanupSessions);
         (4000, CallValidateToken zeros_id); (1000 + day, CallCleanupSessions)]
      (utils.GenerateToken ∅ zeros 1000 7%N ∅).2 !! zeros_id = Some session /\
    utils.UserID session = 7%N /\
    utils.ValidateToken (1000 + day) zeros_id
      (run [(2000, CallGenerateToken ∅ ones 8%N); (3000, CallCleanupSessions);
            (4000, CallValidateToken zeros_id); (1000 + day, CallCleanupSessions)]
         (utils.GenerateToken ∅ zeros 1000 7%N ∅).2) =
    (Ok 7%N,
     run [(2000, CallGenerateToken ∅ ones 8%N); (3000, CallCleanupSessions);
          (4000, CallValidateToken zeros_id); (1000 + day, CallCleanupSessions)]
       (utils.GenerateToken ∅ zeros 1000 7%N ∅).2).
Proof.
  assert (utils.GenerateToken ∅ zeros 1000 7%N ∅ =
            (Ok zeros_id, (utils.GenerateToken ∅ zeros 1000 7%N ∅).2)) as Hgen
    by reflexivity.
  split; [exact Hgen|].
  apply (session_valid_through_run ∅ zeros 1000 7%N ∅ zeros_id _ _ (1000 + day) Hgen).
  intros session Hsid. vm_compute in Hsid. injection Hsid as <-.
  split; [|vm_compute; discriminate].
  cbn [undisturbed utils.ExpiresAt].
  repeat split; try (vm_compute; discriminate).
Defined.

(** X6: the lifetime has no lower bound.  When JWT_EXPIRES_IN parses to a
    negative duration, [GenerateToken] still succeeds and stores the session,
    but the session is expired from the start: the first validation at or
    after the issuing instant fails with "session expired" and deletes it. *)
Theorem negative_ttl_issues_expired_session env bytes now userID
    (st : gmap string utils.sessionData) ttl :
  configuredTTL env = Ok ttl -> ttl < 0 ->
  exists sid,
    utils.GenerateToken env (rand.Fill bytes) now userID st =
      (Ok sid, <[sid := {| utils.UserID := userID; utils.ExpiresAt := now + ttl |}]> st) /\
    forall t, now <= t ->
      utils.ValidateToken t sid
        (<[sid := {| utils.UserID := userID; utils.ExpiresAt := now + ttl |}]> st) =
      (Err Expired, delete sid st).
Proof.
  intros Httl Hneg.
  destruct (utils.GenerateToken env (rand.Fill bytes) now userID st) as [[sid|e] st'] eqn:E.
  - pose proof (GenerateToken_id_nonempty _ _ _ _ _ _ _ E) as Hne.
    apply GenerateToken_Ok_inv in E as (? & ttl' & _ & _ & Httl' & ->).
    rewrite Httl in Httl'. injection Httl' as <-.
    exists sid. split; [done|]. intros t Ht.
    rewrite (ValidateToken_expired t sid _ _ Hne (lookup_insert_eq _ _ _)); [|simpl; lia].
    by rewrite delete_insert_eq.
  - apply GenerateToken_Err_inv in E as [_ [(? & [=] & _)|(? & ? & _ & Httl' & _)]].
    congruence.
Qed.

Lemma negative_ttl_issues_expired_session_witness :
  configuredTTL {[ "JWT_EXPIRES_IN" := "-1h" ]} = Ok (- time.Hour) /\
  - time.Hour < 0 /\
  utils.GenerateToken {[ "JWT_EXPIRES_IN" := "-1h" ]} zeros 1000 7%N ∅ =
    (Ok zeros_id, {[ zeros_id := {| utils.UserID := 7; utils.ExpiresAt := 1000 - time.Hour |} ]}) /\
  exists sid,
    utils.GenerateToken {[ "JWT_EXPIRES_IN" := "-1h" ]} zeros 1000 7%N ∅ =
      (Ok sid, <[sid := {| utils.UserID := 7; utils.ExpiresAt := 1000 + - time.Hour |}]> ∅) /\
    forall t, 1000 <= t ->
      utils.ValidateToken t sid
        (<[sid := {| utils.UserID := 7; utils.ExpiresAt := 1000 + - time.Hour |}]> ∅) =
      (Err Expired, delete sid ∅).
Proof.
  assert (configuredTTL {[ "JWT_EXPIRES_IN" := "-1h" ]} = Ok (- time.Hour)) as Httl
    by reflexivity.
  assert (- time.Hour < 0) as Hneg by (vm_compute; reflexivity).
  split; [exact Httl|]. split; [exact Hneg|]. split; [reflexivity|].
  exact (negative_ttl_issues_expired_session _ (fun _ => Byte.x00) 1000 7%N ∅ _ Httl Hneg).
Defined.

(** ** White space around a header value *)

Lemma list_ascii_app (s t : string) :
  list_ascii_of_string (s ++ t) = (list_ascii_of_string s ++ list_ascii_of_string t)%list.
Proof. induction s as [|c s IH]; [done|]. rewrite append_cons. cbn. by rewrite IH. Qed.

Lemma length_append (s t : string) :
  String.length (s ++ t) = (String.length s + String.length t)%nat.
Proof. induction s as [|c s IH]; [done|]. rewrite append_cons. cbn. by rewrite IH. Qed.

Lemma upto_append (s t : string) : strings.upto (String.length s) (s ++ t) = s.
Proof.
  unfold strings.upto. induction s as [|c s IH].
  - rewrite append_nil_l. by destruct t.
  - rewrite append_cons. cbn [String.length String.substring]. by rewrite IH.
Qed.

Lemma trailingSpaces_blank (t : string) rest :
  blank t = true ->
  strings.trailingSpaces (rev (list_ascii_of_string t) ++ rest)%list =
  let '(n, nonASCII) := strings.trailingSpaces rest in
  ((String.length t + n)%nat, nonASCII).
Proof.
  revert rest. induction t as [|c t IH]; intros rest Hb.
  - cbn. by destruct (strings.trailingSpaces rest).
  - cbn [blank all_chars] in Hb. apply andb_true_iff in Hb as [Hc Hb].
    apply andb_true_iff in Hc as [Hascii Hsp]. apply Z.ltb_lt in Hascii.
    cbn [list_ascii_of_string rev]. rewrite <- app_assoc. rewrite IH by done.
    cbn [app strings.trailingSpaces].
    assert ((utf8.RuneSelf <=? byteZ c) = false) as -> by (apply Z.leb_gt; done).
    rewrite Hsp. destruct (strings.trailingSpaces rest) as [n b].
    cbn [String.length]. f_equal. lia.
Qed.

Lemma TrimSpace_leading (pad s : string) :
  blank pad = true -> strings.TrimSpace (pad ++ s) = strings.TrimSpace s.
Proof.
  induction pad as [|c pad IH]; intros Hb; [done|].
  cbn [blank all_chars] in Hb. apply andb_true_iff in Hb as [Hc Hb].
  apply andb_true_iff in Hc as [Hascii Hsp]. apply Z.ltb_lt in Hascii.
  rewrite append_cons. cbn [strings.TrimSpace].
  assert ((utf8.RuneSelf <=? byteZ c) = false) as -> by (apply Z.leb_gt; done).
  rewrite Hsp. by apply IH.
Qed.

Lemma TrimSpace_trailing (s pad : string) c c' :
  first_char s = Some c -> solid c = true ->
  last_char s = Some c' -> solid c' = true ->
  blank pad = true -> strings.TrimSpace (s ++ pad) = s.
Proof.
  intros Hfirst Hc Hlast Hc' Hb.
  destruct s as [|c0 s]; [done|]. cbn in Hfirst. injection Hfirst as ->.
  apply andb_true_iff in Hc as [Hascii Hsolid]. apply Z.ltb_lt in Hascii.
  apply negb_true_iff in Hsolid.
  rewrite append_cons. cbn [strings.TrimSpace].
  assert ((utf8.RuneSelf <=? byteZ c) = false) as -> by (apply Z.leb_gt; done).
  rewrite Hsolid. rewrite <- append_cons.
  rewrite list_ascii_app, rev_app_distr.
  unfold last_char in Hlast.
  destruct (rev (list_ascii_of_string (String c s))) as [|d rest] eqn:Hrev.
  { apply (f_equal (@length _)) in Hrev. rewrite length_rev in Hrev. done. }
  assert (d = c') as ->.
  { apply (f_equal (@rev _)) in Hrev. rewrite rev_involutive in Hrev.
    rewrite Hrev in Hlast. cbn [rev] in Hlast. rewrite last_snoc in Hlast. congruence. }
  rewrite trailingSpaces_blank by done.
  apply andb_true_iff in Hc' as [Hascii' Hsolid']. apply Z.ltb_lt in Hascii'.
  apply negb_true_iff in Hsolid'.
  cbn [strings.trailingSpaces].
  assert ((utf8.RuneSelf <=? byteZ c') = false) as -> by (apply Z.leb_gt; done).
  rewrite Hsolid'. rewrite length_append.
  replace (String.length (String c s) + String.length pad - (String.length pad + 0))%nat
    with (String.length (String c s)) by lia.
  apply upto_append.
Qed.

Lemma TrimSpace_padded (pad s pad' : string) c c' :
  first_char s = Some c -> solid c = true ->
  last_char s = Some c' -> solid c' = true ->
  blank pad = true -> blank pad' = true ->
  strings.TrimSpace (pad ++ s ++ pad') = s.
Proof.
  intros. rewrite TrimSpace_leading by done. by eapply TrimSpace_trailing.
Qed.

Lemma urlsafe_solid c : urlsafe c = true -> solid c = true.
Proof.
  unfold urlsafe. intros [Hin|Hpad]%orb_true_iff.
  - apply existsb_exists in Hin as (x & Hx & ->%Ascii.eqb_eq).
    change (list_ascii_of_string base64.encodeURL) with
      (list_ascii_of_string
         "ABCDEFGHIJKLMNOPQRSTUVWXYZabcdefghijklmnopqrstuvwxyz0123456789-_") in Hx.
    cbn [list_ascii_of_string In] in Hx.
    repeat (destruct Hx as [<-|Hx]; [reflexivity|]). destruct Hx.
  - apply Ascii.eqb_eq in Hpad as ->. reflexivity.
Qed.

Lemma all_chars_last p (s : string) c :
  all_chars p s = true -> last_char s = Some c -> p c = true.
Proof.
  unfold last_char. induction s as [|a s IH]; [done|].
  cbn [all_chars list_ascii_of_string]. intros [Ha Hs]%andb_true_iff.
  destruct s as [|b s]; [by intros [= <-]|].
  intros Hlast. apply IH; [done|]. by rewrite <- Hlast.
Qed.

Lemma reachable_id_solid_ends (st : gmap string utils.sessionData) sid session :
  reachable st -> st !! sid = Some session ->
  exists c c', first_char sid = Some c /\ solid c = true /\
               last_char sid = Some c' /\ solid c' = true.
Proof.
  intros Hreach Hsid.
  destruct (reachable_id_shape st sid session Hreach Hsid) as [Hlen Hall].
  destruct sid as [|c sid]; [done|].
  destruct (last_char (String c sid)) as [c'|] eqn:Hlast.
  - exists c, c'. split; [done|]. split.
    + apply urlsafe_solid. cbn [all_chars] in Hall. by apply andb_true_iff in Hall as [? _].
    + split; [done|]. apply urlsafe_solid. by eapply all_chars_last.
  - unfold last_char in Hlast. apply last_None in Hlast. done.
Qed.

(** ** The request gate: who passes *)

Lemma ValidateToken_Ok_inv now sid (st : gmap string utils.sessionData) userID st' :
  utils.ValidateToken now sid st = (Ok userID, st') ->
  st' = st /\ sid <> "" /\
  exists session, st !! sid = Some session /\ utils.UserID session = userID /\
                  now <= utils.ExpiresAt session.
Proof.
  unfold utils.ValidateToken. destruct (String.eqb sid "") eqn:Hempty; [done|].
  apply String.eqb_neq in Hempty.
  destruct (st !! sid) as [session|]; [|done].
  destruct (time.After now (utils.ExpiresAt session)) eqn:E; [done|].
  intros [= <- <-]. apply After_ge in E. split; [done|]. split; [done|]. by exists session.
Qed.


(** X7: the gate lets a request pass only on a live session and a live user.
    When [AuthMiddleware] hands the request on, the session table is as it
    was and holds, under the trimmed header value, a session of the attached
    user that has not expired; the attached user is a row of the users table
    with that id that is not soft-deleted; and [GetUserID] on the context
    the gate has filled returns that id. *)
Theorem gate_pass_is_sound fault db now req (st : gmap string utils.sessionData)
    userID user st' keys :
  middlewares.AuthMiddleware fault db now req st = (middlewares.Next userID user, st') ->
  st' = st /\
  (exists session,
     st !! strings.TrimSpace (middlewares.GetHeader req "Authorization") = Some session /\
     utils.UserID session = userID /\ now <= utils.ExpiresAt session) /\
  user ∈ database.users db /\ models.User.ID user = userID /\
  models.User.DeletedAt user = None /\
  middlewares_keys.GetUserID
    (middlewares_keys.attached (middlewares.Next userID user) keys) =
    gin.Returns (userID, true).
Proof.
  unfold middlewares.AuthMiddleware.
  destruct (String.eqb _ ""); [done|].
  destruct (utils.ValidateToken now _ st) as [[uid|err] st1] eqn:Hval; [|done].
  destruct (gorm.First _ _ _ _ _) as [u|e] eqn:Hfirst; [|done].
  intros [= <- <- <-].
  apply ValidateToken_Ok_inv in Hval as (-> & _ & session & Hsid & Huid & Hlive).
  apply First_Ok_inv in Hfirst as (_ & Hin & Hnotdel & Hid%N.eqb_eq).
  split; [done|]. split; [by exists session|]. split; [done|]. split; [done|]. split.
  - unfold gorm.live in Hnotdel. by destruct (models.User.DeletedAt u).
  - unfold middlewares_keys.GetUserID, middlewares_keys.attached.
    by rewrite lookup_insert_ne, lookup_insert_eq.
Qed.

(** X8: [GetUser] cannot read what the gate stores.  The gate sets the key
    "user" to a [models.User] value and [GetUser] asserts a [*models.User]:
    on every context the gate has filled the call panics; on a context
    without the key it returns no user and [false]. *)
Theorem GetUser_panics_after_gate userID user keys :
  middlewares_keys.GetUser (middlewares_keys.attached (middlewares.Next userID user) keys) =
    gin.Panics "interface conversion: interface {} is models.User, not *models.User" /\
  (forall code error,
     keys !! "user" = None ->
     middlewares_keys.GetUser (middlewares_keys.attached (middlewares.Abort code error) keys) =
       gin.Returns (None, false)).
Proof.
  split.
  - unfold middlewares_keys.GetUser, middlewares_keys.attached. by rewrite lookup_insert_eq.
  - intros code error Hnone. unfold middlewares_keys.GetUser, middlewares_keys.attached.
    by rewrite Hnone.
Qed.

(** X9: a valid session does not help a user who is gone.  With a session
    that is in the table and not expired, the gate still answers 401 "User
    not found or invalid session", and leaves the table alone, when the
    users query fails or every row with the session's user id is
    soft-deleted (or there is none). *)
Theorem gate_rejects_missing_user fault db now req (st : gmap string utils.sessionData)
    session :
  middlewares.GetHeader req "Authorization" <> "" ->
  strings.TrimSpace (middlewares.GetHeader req "Authorization") <> "" ->
  st !! strings.TrimSpace (middlewares.GetHeader req "Authorization") = Some session ->
  now <= utils.ExpiresAt session ->
  (fault <> None \/
   forall user, user ∈ database.users db ->
     models.User.ID user = utils.UserID session -> models.User.DeletedAt user <> None) ->
  middlewares.AuthMiddleware fault db now req st =
    (middlewares.Abort 401 "User not found or invalid session", st).
Proof.
  intros Hh Hne Hsid Hlive Hgone. unfold middlewares.AuthMiddleware.
  rewrite (proj2 (String.eqb_neq _ "") Hh).
  rewrite (ValidateToken_live now _ session st Hne Hsid Hlive).
  destruct (gorm.First _ _ _ _ _) as [u|e] eqn:Hfirst; [|done].
  apply First_Ok_inv in Hfirst as (Hfault & Hin & Hnotdel & Hid%N.eqb_eq).
  destruct Hgone as [Hf|Hgone]; [done|].
  specialize (Hgone u Hin Hid). unfold gorm.live in Hnotdel.
  by destruct (models.User.DeletedAt u).
Qed.


(** ** The bearer gate, and padded headers *)

(** X12: the bearer gate of the JWT variant.  Whatever the token validation
    does, every rejection is a 401 with one of eight fixed messages, so the
    text of a validation error never reaches the client; and a request passes
    only if the header is "Bearer " followed by a non-empty token that the
    validation accepts, taken as it is, without trimming, and the user is a
    live row with the validated id. *)
Theorem bearer_gate_outcomes ValidateToken fault db req :
  let authHeader := middlewares.GetHeader req "Authorization" in
  (forall code error,
     middlewares_jwt.AuthMiddleware ValidateToken fault db req = middlewares.Abort code error ->
     code = 401 /\
     error ∈ ["Authorization header is required";
              "Authorization header must be in format: Bearer {token}";
              "Token cannot be empty"; "Token has expired"; "Invalid token signature";
              "Token format is invalid"; "Invalid token";
              "User not found or invalid token"]) /\
  (forall userID user,
     middlewares_jwt.AuthMiddleware ValidateToken fault db req = middlewares.Next userID user ->
     exists token,
       authHeader = "Bearer " ++ token /\ token <> "" /\
       ValidateToken token = Ok userID /\
       user ∈ database.users db /\ models.User.ID user = userID /\
       models.User.DeletedAt user = None).
Proof.
  intros authHeader. unfold middlewares_jwt.AuthMiddleware. fold authHeader.
  destruct (String.eqb authHeader "") eqn:Hh.
  { split; [|done]. intros code error [= <- <-]. split; [done|]. set_solver. }
  unfold middlewares_jwt.bearerPrefix, strings.HasPrefix, strings.TrimPrefix, strings.HasPrefix.
  destruct (String.prefix "Bearer " authHeader) eqn:Hp; cbn [negb].
  2:{ split; [|done]. intros code error [= <- <-]. split; [done|]. set_solver. }
  apply prefix_inv in Hp as [token Htoken]. rewrite Htoken.
  change 7%nat with (String.length "Bearer "). rewrite from_append.
  destruct (String.eqb token "") eqn:Hempty.
  { split; [|done]. intros code error [= <- <-]. split; [done|]. set_solver. }
  apply String.eqb_neq in Hempty.
  destruct (ValidateToken token) as [uid|err] eqn:Hval.
  - destruct (gorm.First _ _ _ _ _) as [u|e] eqn:Hfirst.
    + split; [done|]. intros userID user [= <- <-].
      apply First_Ok_inv in Hfirst as (_ & Hin & Hnotdel & Hid%N.eqb_eq).
      exists token. repeat split; try done.
      unfold gorm.live in Hnotdel. by destruct (models.User.DeletedAt u).
    + split; [|done]. intros code error [= <- <-]. split; [done|]. set_solver.
  - split; [|done]. intros code error [= <- <-]. split; [done|].
    destruct (_ || _); [set_solver|].
    destruct (strings.Contains _ "signature"); [set_solver|].
    destruct (strings.Contains _ "parsing"); set_solver.
Qed.

(** X11: blanks around the identifier do not matter to the gate.  A header
    value that is ASCII white space, then a value that starts and ends with a
    non-blank ASCII byte, then ASCII white space again, gets the answer the
    bare value gets, with the same effect on the session table. *)
Theorem gate_ignores_surrounding_blanks fault db now req req'
    (st : gmap string utils.sessionData) s pad pad' c c' :
  first_char s = Some c -> solid c = true ->
  last_char s = Some c' -> solid c' = true ->
  blank pad = true -> blank pad' = true ->
  middlewares.GetHeader req "Authorization" = pad ++ s ++ pad' ->
  middlewares.GetHeader req' "Authorization" = s ->
  middlewares.AuthMiddleware fault db now req st =
  middlewares.AuthMiddleware fault db now req' st.
Proof.
  intros Hfirst Hc Hlast Hc' Hpad Hpad' Hreq Hreq'.
  unfold middlewares.AuthMiddleware. rewrite Hreq, Hreq'.
  rewrite (TrimSpace_padded pad s pad' c c') by done.
  pose proof (TrimSpace_padded "" s "" c c' Hfirst Hc Hlast Hc' eq_refl eq_refl) as Hbare.
  rewrite append_nil_l in Hbare.
  assert (s ++ "" = s) as Hnil by (clear; induction s as [|a s IH]; [done|]; by rewrite append_cons, IH).
  rewrite Hnil in Hbare. rewrite Hbare.
  destruct s as [|a s]; [done|].
  assert (String.eqb (pad ++ String a s ++ pad') "" = false) as ->.
  { apply String.eqb_neq. destruct pad; done. }
  done.
Qed.

(** ** Sample runs of the gates *)

Lemma gate_pass_is_sound_witness :
  middlewares.AuthMiddleware None sample_db 2000 (with_authorization zeros_id)
    (utils.GenerateToken ∅ zeros 1000 7%N ∅).2 =
    (middlewares.Next 7 alice, (utils.GenerateToken ∅ zeros 1000 7%N ∅).2) /\
  (exists session,
     (utils.GenerateToken ∅ zeros 1000 7%N ∅).2
       !! strings.TrimSpace
            (middlewares.GetHeader (with_authorization zeros_id) "Authorization")
     = Some session /\
     utils.UserID session = 7%N /\ 2000 <= utils.ExpiresAt session) /\
  middlewares_keys.GetUserID (middlewares_keys.attached (middlewares.Next 7 alice) ∅) =
    gin.Returns (7%N, true).
Proof.
  assert (middlewares.AuthMiddleware None sample_db 2000 (with_authorization zeros_id)
            (utils.GenerateToken ∅ zeros 1000 7%N ∅).2 =
          (middlewares.Next 7 alice, (utils.GenerateToken ∅ zeros 1000 7%N ∅).2)) as Hpass
    by reflexivity.
  destruct (gate_pass_is_sound None sample_db 2000 _ _ 7%N alice _ ∅ Hpass)
    as (_ & Hsession & _ & _ & _ & Hkeys).
  split; [exact Hpass|]. split; [exact Hsession | exact Hkeys].
Defined.

Lemma GetUser_panics_after_gate_witness :
  (∅ : gmap string gin.any) !! "user" = None /\
  middlewares_keys.GetUser
    (middlewares_keys.attached
       (middlewares.Abort 401 "Authorization header is required") ∅) =
    gin.Returns (None, false) /\
  middlewares_keys.GetUser (middlewares_keys.attached (middlewares.Next 7 alice) ∅) =
    gin.Panics "interface conversion: interface {} is models.User, not *models.User".
Proof.
  assert ((∅ : gmap string gin.any) !! "user" = None) as Hnone by reflexivity.
  destruct (GetUser_panics_after_gate 7%N alice ∅) as [Hpanic Hempty].
  split; [exact Hnone|].
  split; [exact (Hempty 401 "Authorization header is required" Hnone) | exact Hpanic].
Defined.

Lemma gate_rejects_missing_user_witness :
  middlewares.GetHeader (with_authorization zeros_id) "Authorization" <> "" /\
  (utils.GenerateToken ∅ zeros 1000 9%N ∅).2
    !! strings.TrimSpace (middlewares.GetHeader (with_authorization zeros_id) "Authorization")
  = Some {| utils.UserID := 9; utils.ExpiresAt := 1000 + day |} /\
  middlewares.AuthMiddleware None sample_db 2000 (with_authorization zeros_id)
    (utils.GenerateToken ∅ zeros 1000 9%N ∅).2 =
    (middlewares.Abort 401 "User not found or invalid session",
     (utils.GenerateToken ∅ zeros 1000 9%N ∅).2).
Proof.
  assert (middlewares.GetHeader (with_authorization zeros_id) "Authorization" <> "") as Hh
    by (vm_compute; discriminate).
  assert (strings.TrimSpace (middlewares.GetHeader (with_authorization zeros_id) "Authorization")
          <> "") as Hne by (vm_compute; discriminate).
  assert ((utils.GenerateToken ∅ zeros 1000 9%N ∅).2
            !! strings.TrimSpace
                 (middlewares.GetHeader (with_authorization zeros_id) "Authorization")
          = Some {| utils.UserID := 9; utils.ExpiresAt := 1000 + day |}) as Hsid
    by reflexivity.
  assert (2000 <= utils.ExpiresAt {| utils.UserID := 9; utils.ExpiresAt := 1000 + day |})
    as Hlive by (vm_compute; discriminate).
  assert (forall user, user ∈ database.users sample_db ->
            models.User.ID user = 9%N -> models.User.DeletedAt user <> None) as Hgone.
  { intros user Hin Hid. apply list_elem_of_In in Hin. cbn in Hin.
    destruct Hin as [<- | []]. discriminate Hid. }
  split; [exact Hh|]. split; [exact Hsid|].
  exact (gate_rejects_missing_user None sample_db 2000 _ _ _ Hh Hne Hsid Hlive
           (or_intror Hgone)).
Defined.


Lemma gate_ignores_surrounding_blanks_witness :
  first_char zeros_id = Some "A"%char /\ solid "A" = true /\
  last_char zeros_id = Some "="%char /\ solid "=" = true /\
  blank "  " = true /\
  middlewares.AuthMiddleware None sample_db 2000
    (with_authorization ("  " ++ zeros_id ++ "  "))
    (utils.GenerateToken ∅ zeros 1000 7%N ∅).2 =
  middlewares.AuthMiddleware None sample_db 2000 (with_authorization zeros_id)
    (utils.GenerateToken ∅ zeros 1000 7%N ∅).2 /\
  middlewares.AuthMiddleware None sample_db 2000 (with_authorization zeros_id)
    (utils.GenerateToken ∅ zeros 1000 7%N ∅).2 =
  (middlewares.Next 7 alice, (utils.GenerateToken ∅ zeros 1000 7%N ∅).2).
Proof.
  assert (first_char zeros_id = Some "A"%char) as Hfirst by reflexivity.
  assert (solid "A" = true) as Hc by reflexivity.
  assert (last_char zeros_id = Some "="%char) as Hlast by reflexivity.
  assert (solid "=" = true) as Hc' by reflexivity.
  assert (blank "  " = true) as Hpad by reflexivity.
  split; [exact Hfirst|]. split; [exact Hc|]. split; [exact Hlast|].
  split; [exact Hc'|]. split; [exact Hpad|].
  split; [|reflexivity].
  exact (gate_ignores_surrounding_blanks None sample_db 2000
           (with_authorization ("  " ++ zeros_id ++ "  ")) (with_authorization zeros_id)
           _ zeros_id "  " "  " "A"%char "="%char Hfirst Hc Hlast Hc' Hpad Hpad
           eq_refl eq_refl).
Defined.

Lemma bearer_gate_outcomes_witness :
  middlewares_jwt.AuthMiddleware sample_jwt None sample_db (with_authorization "Bearer good") =
    middlewares.Next 7 alice /\
  middlewares_jwt.AuthMiddleware sample_jwt None sample_db (with_authorization "Bearer bad") =
    middlewares.Abort 401 "Invalid token signature" /\
  middlewares_jwt.AuthMiddleware sample_jwt None sample_db (with_authorization "good") =
    middlewares.Abort 401 "Authorization header must be in format: Bearer {token}" /\
  exists token,
    middlewares.GetHeader (with_authorization "Bearer good") "Authorization" =
      "Bearer " ++ token /\
    token <> "" /\ sample_jwt token = Ok 7%N /\
    alice ∈ database.users sample_db /\ models.User.ID alice = 7%N /\
    models.User.DeletedAt alice = None.
Proof.
  assert (middlewares_jwt.AuthMiddleware sample_jwt None sample_db
            (with_authorization "Bearer good") = middlewares.Next 7 alice) as Hpass
    by reflexivity.
  split; [exact Hpass|]. split; [reflexivity|]. split; [reflexivity|].
  exact (proj2 (bearer_gate_outcomes sample_jwt None sample_db
                  (with_authorization "Bearer good")) 7%N alice Hpass).
Defined.

(** ** The two readers of JWT_EXPIRES_IN *)

Lemma ContainsAny_app (s t chars : string) :
  strings.ContainsAny (s ++ t) chars =
  strings.ContainsAny s chars || strings.ContainsAny t chars.
Proof.
  induction s as [|c s IH]; [done|]. rewrite append_cons.
  cbn [strings.ContainsAny]. by rewrite IH, orb_assoc.
Qed.

Lemma leadingInt_loop_suffix s : forall x v rest,
  time.leadingInt_loop x s = Some (v, rest) -> exists pre, s = pre ++ rest.
Proof.
  induction s as [|c s IH]; intros x v rest; cbn [time.leadingInt_loop].
  - intros [= _ <-]. by exists "".
  - destruct (isDigit c); [|intros [= _ <-]; by exists ""].
    destruct (x >? 2 ^ 63 / 10); [done|].
    destruct (_ >? 2 ^ 63); [done|].
    intros [pre ->]%IH. by exists (String c pre).
Qed.

Lemma leadingFraction_loop_suffix s : forall x scale overflow,
  exists pre, s = pre ++ (time.leadingFraction_loop x scale overflow s).2.
Proof.
  induction s as [|c s IH]; intros x scale overflow; cbn [time.leadingFraction_loop].
  - by exists "".
  - destruct (isDigit c); [|by exists ""].
    assert (forall x' scale' overflow',
              exists pre, String c s = pre ++ (time.leadingFraction_loop x' scale' overflow' s).2)
      as Hstep.
    { intros x' scale' overflow'. destruct (IH x' scale' overflow') as [pre Hpre].
      exists (String c pre). rewrite append_cons. by rewrite <- Hpre. }
    destruct overflow; [apply Hstep|].
    destruct (x >? _); [apply Hstep|].
    destruct (_ >? 2 ^ 63); apply Hstep.
Qed.

Lemma splitUnit_app s : s = (time.splitUnit s).1 ++ (time.splitUnit s).2.
Proof.
  induction s as [|c s IH]; [done|]. cbn [time.splitUnit].
  destruct ((byteZ c =? 46) || isDigit c); [done|].
  destruct (time.splitUnit s) as [u rest]. cbn [fst snd] in *.
  rewrite append_cons. by rewrite <- IH.
Qed.

Lemma unitMap_has_letter u unit :
  time.unitMap u = Some unit -> strings.ContainsAny u "hms" = true.
Proof.
  unfold time.unitMap.
  repeat (destruct (String.eqb u _) eqn:E;
          [apply String.eqb_eq in E; subst u; intros _; vm_compute; reflexivity|clear E]).
  discriminate.
Qed.

Lemma parseTerm_has_letter orig s d d' s' :
  time.parseTerm orig s d = Ok (d', s') -> strings.ContainsAny s "hms" = true.
Proof.
  unfold time.parseTerm. destruct s as [|c0 s0]; [done|].
  destruct (negb _); [done|].
  destruct (time.leadingInt (String c0 s0)) as [[v s1]|] eqn:Hint; [|done].
  apply leadingInt_loop_suffix in Hint as [pre1 ->].
  set (frac := match s1 with String c s'0 => _ | EmptyString => _ end).
  assert (exists pre2, s1 = pre2 ++ frac.2) as [pre2 Hs1].
  { subst frac. destruct s1 as [|c s1']; [by exists ""|].
    destruct (byteZ c =? 46); [|by exists ""].
    unfold time.leadingFraction.
    destruct (leadingFraction_loop_suffix s1' 0 (float64.of_uint64 1) false) as [pre Hpre].
    destruct (time.leadingFraction_loop _ _ _ _) as [[f scale] s'']. cbn [snd] in *.
    exists (String c pre). rewrite append_cons. by rewrite <- Hpre. }
  destruct frac as [[[f scale] post] s2]. cbn [snd] in Hs1.
  destruct (negb _ && negb post); [done|].
  pose proof (splitUnit_app s2) as Hunit.
  destruct (time.splitUnit s2) as [u s3]. cbn [fst snd] in Hunit.
  destruct (String.eqb u ""); [done|].
  destruct (time.unitMap u) as [unit|] eqn:Hmap; [|done].
  intros _. rewrite Hs1, Hunit, !ContainsAny_app.
  rewrite (unitMap_has_letter u unit Hmap). by rewrite !orb_true_r.
Qed.

Lemma ParseDuration_Ok_inv s d :
  time.ParseDuration s = Ok d ->
  strings.ContainsAny s "hms" = true \/ ((s = "0" \/ s = "+0" \/ s = "-0") /\ d = 0).
Proof.
  unfold time.ParseDuration.
  set (split := match s with String c s' => _ | EmptyString => _ end).
  assert (exists pre, s = pre ++ split.2 /\ (pre = "" \/ pre = "+" \/ pre = "-")) as (pre & Hs & Hpre).
  { subst split. destruct s as [|c s']; [exists ""; split; [done | by left]|].
    destruct ((byteZ c =? 45) || (byteZ c =? 43)) eqn:Hsign;
      [|exists ""; split; [done | by left]].
    exists (String c ""). split; [done|].
    apply orb_true_iff in Hsign as [H|H]; apply Z.eqb_eq in H.
    - right. right. f_equal. apply (f_equal Z.to_N) in H. unfold byteZ in H.
      rewrite N2Z.id in H. apply (f_equal ascii_of_N) in H. by rewrite ascii_N_embedding in H.
    - right. left. f_equal. apply (f_equal Z.to_N) in H. unfold byteZ in H.
      rewrite N2Z.id in H. apply (f_equal ascii_of_N) in H. by rewrite ascii_N_embedding in H. }
  destruct split as [neg s1]. cbn [snd] in Hs.
  destruct (String.eqb s1 "0") eqn:H0.
  { apply String.eqb_eq in H0 as ->. intros [= <-]. right. split; [|done].
    destruct Hpre as [->|[->| ->]]; rewrite Hs; auto. }
  destruct (String.eqb s1 "") eqn:Hnil; [done|].
  destruct s1 as [|c1 s1]; [done|]. cbn [String.length time.parseTerms].
  destruct (time.parseTerm s (String c1 s1) 0) as [[d1 s2]|e] eqn:Hterm; [|done].
  intros _. left. apply parseTerm_has_letter in Hterm.
  rewrite Hs, ContainsAny_app, Hterm. apply orb_true_r.
Qed.

(** X13: every lifetime the session table accepts, the configuration loader
    reads as the same duration: whenever [GenerateToken] can parse
    JWT_EXPIRES_IN (or falls back to "24h"), [getDurationEnvOrDefault] yields
    that very duration.  (The converse fails on values without a unit.) *)
Theorem session_ttl_agrees_with_config env ttl :
  configuredTTL env = Ok ttl -> config.JWT_ExpiresIn env = ttl.
Proof.
  unfold configuredTTL, config.JWT_ExpiresIn, config.getDurationEnvOrDefault.
  destruct (String.eqb (os.Getenv env "JWT_EXPIRES_IN") "").
  - by intros [= <-].
  - intros Hparse. destruct (ParseDuration_Ok_inv _ _ Hparse) as [-> | [Hzero ->]].
    + cbn [negb]. by rewrite Hparse.
    + destruct Hzero as [-> | [-> | ->]]; reflexivity.
Qed.

Lemma session_ttl_agrees_with_config_witness :
  configuredTTL {[ "JWT_EXPIRES_IN" := "1h30m" ]} = Ok (90 * time.Minute) /\
  config.JWT_ExpiresIn {[ "JWT_EXPIRES_IN" := "1h30m" ]} = 90 * time.Minute.
Proof.
  assert (configuredTTL {[ "JWT_EXPIRES_IN" := "1h30m" ]} = Ok (90 * time.Minute)) as Httl
    by reflexivity.
  split; [exact Httl|].
  exact (session_ttl_agrees_with_config _ _ Httl).
Defined.

(** ** The task service: what is written can be read *)

(** The stamp is the clock reading at the nearest whole millisecond, and a
    [datetime(3)] column keeps of an instant what the stamp of it would be. *)
Lemma Round_Millisecond t :
  time.Round t time.Millisecond mod time.Millisecond = 0 /\
  t - 500000 < time.Round t time.Millisecond <= t + 500000.
Proof.
  unfold time.Round. change time.Millisecond with 1000000.
  cbn [Z.leb Z.compare]. cbv zeta.
  pose proof (Z.mod_pos_bound t 1000000 ltac:(lia)) as Hr.
  pose proof (Z.div_mod t 1000000 ltac:(lia)) as Hdm.
  destruct (Z.ltb_spec (t mod 1000000 + t mod 1000000) 1000000).
  - split; [|lia].
    replace (t - t mod 1000000) with (t / 1000000 * 1000000) by lia.
    apply Z.mod_mul. lia.
  - split; [|lia].
    replace (t + (1000000 - t mod 1000000)) with ((t / 1000000 + 1) * 1000000) by lia.
    apply Z.mod_mul. lia.
Qed.

Lemma datetime3_Round t : gorm.datetime3 t = time.Round t time.Millisecond.
Proof.
  unfold gorm.datetime3, time.Truncate, time.Round.
  change time.Millisecond with 1000000. change time.Microsecond with 1000.
  cbn [Z.leb Z.compare]. cbv zeta.
  pose proof (Z.mod_pos_bound t 1000000 ltac:(lia)) as Hr.
  pose proof (Z.div_mod t 1000000 ltac:(lia)) as Hdm.
  assert (t mod 1000 = (t mod 1000000) mod 1000) as Hs.
  { symmetry. apply Z.mod_mod_divide. by exists 1000. }
  pose proof (Z.mod_pos_bound (t mod 1000000) 1000 ltac:(lia)) as Hsr.
  pose proof (Z.div_mod (t mod 1000000) 1000 ltac:(lia)) as Hsd.
  assert ((t - t mod 1000) mod 1000000 = t mod 1000000 - t mod 1000) as Hm.
  { symmetry. apply (Z.mod_unique _ _ (t / 1000000)); lia. }
  rewrite Hm.
  destruct (Z.ltb_spec (t mod 1000000 + t mod 1000000) 1000000);
    destruct (Z.ltb_spec (t mod 1000000 - t mod 1000 + (t mod 1000000 - t mod 1000))
                1000000);
    lia.
Qed.

Lemma datetime3_whole t : t mod time.Millisecond = 0 -> gorm.datetime3 t = t.
Proof.
  intros Ht. rewrite datetime3_Round. unfold time.Round.
  change time.Millisecond with 1000000 in *. cbn [Z.leb Z.compare]. cbv zeta.
  rewrite Ht. change (0 + 0 <? 1000000) with true. cbv iota. lia.
Qed.


Lemma datetime3_idem t : gorm.datetime3 (gorm.datetime3 t) = gorm.datetime3 t.
Proof. apply datetime3_whole. rewrite datetime3_Round. apply Round_Millisecond. Qed.

Lemma stored_ID task : models.Task.ID (gorm.stored task) = models.Task.ID task.
Proof. reflexivity. Qed.

Lemma lowest_singleton_class {A} (ID : A -> N) (rows : list A) (x : A) :
  rows <> [] -> (forall row, row ∈ rows -> row = x) -> gorm.lowest ID rows = Some x.
Proof.
  induction rows as [|r rows IH]; intros Hne Hall; [done|].
  assert (r = x) as -> by (apply Hall; apply list_elem_of_here).
  cbn [gorm.lowest]. destruct rows as [|r' rows]; [done|].
  rewrite IH; [|done|intros row Hin; apply Hall; by apply list_elem_of_further].
  by rewrite N.leb_refl.
Qed.

Lemma First_unique {A} (ID : A -> N) (DeletedAt : A -> option Z) cond (rows : list A) x :
  x ∈ rows -> gorm.live DeletedAt x = true -> cond x = true ->
  (forall row, row ∈ rows -> gorm.live DeletedAt row = true -> cond row = true -> row = x) ->
  gorm.First ID DeletedAt None cond rows = Ok x.
Proof.
  intros Hin Hlive Hcond Huniq. unfold gorm.First.
  rewrite (lowest_singleton_class ID _ x); [done| |].
  - intros Hnil. assert (x ∈ List.filter (fun row => gorm.live DeletedAt row && cond row) rows) as Hx.
    { apply list_elem_of_In, filter_In. split; [by apply list_elem_of_In|]. by rewrite Hlive, Hcond. }
    rewrite Hnil in Hx. by apply not_elem_of_nil in Hx.
  - intros row [Hrow Hc%andb_true_iff]%list_elem_of_In%filter_In.
    destruct Hc. apply Huniq; [by apply list_elem_of_In|done..].
Qed.


Lemma existsb_ID_false (rows : list models.Task.t) newID :
  existsb (fun row => (models.Task.ID row =? newID)%N) rows = false <->
  forall row, row ∈ rows -> models.Task.ID row <> newID.
Proof.
  split.
  - intros Hex row Hin Hid. apply not_true_iff_false in Hex. apply Hex.
    apply existsb_exists. exists row. split; [by apply list_elem_of_In|by apply N.eqb_eq].
  - intros Hall. apply not_true_iff_false. intros (row & Hin & Hid%N.eqb_eq)%existsb_exists.
    by apply (Hall row); [apply list_elem_of_In|].
Qed.


Lemma existsb_ID_true (rows : list models.Task.t) row :
  row ∈ rows -> existsb (fun r => (models.Task.ID r =? models.Task.ID row)%N) rows = true.
Proof.
  intros Hin. apply existsb_exists. exists row.
  split; [by apply list_elem_of_In|apply N.eqb_refl].
Qed.





(** ** The task service: deleting *)

Lemma GetTaskByID_none_live db taskID userID :
  (forall row, row ∈ database.tasks db -> models.Task.ID row = taskID ->
     models.Task.DeletedAt row <> None) ->
  services.GetTaskByID None db taskID userID = Err "task not found".
Proof.
  intros Hdead. unfold services.GetTaskByID.
  destruct (gorm.First _ _ _ _ _) as [row|err] eqn:E.
  - apply First_Ok_inv in E as (_ & Hin & Hlive & [Hid%N.eqb_eq _]%andb_true_iff).
    destruct (Hdead row Hin Hid). unfold gorm.live in Hlive.
    by destruct (models.Task.DeletedAt row).
  - unfold gorm.First in E. destruct (gorm.lowest _ _); [done|]. by injection E as <-.
Qed.

(** X17: [DeleteTask] is a soft delete that hides the task.  With unique
    primary keys and a store that answers, deleting a task that [GetTaskByID]
    gives the requester succeeds and keeps every key of the table; the row
    with the task's key is marked deleted at the stamp of the store, the
    clock reading rounded to the nearest millisecond; afterwards
    [GetTaskByID] answers "task not found" to every user, a second delete and
    an update of that task fail with "task not found" and leave the store as
    it is, and no listing returns a task with that key. *)
Theorem delete_then_gone faults now db taskID userID old :
  NoDup (map models.Task.ID (database.tasks db)) ->
  faults 0%nat = None -> faults 1%nat = None ->
  services.GetTaskByID None db taskID userID = Ok old ->
  exists db',
    services.DeleteTask faults now db taskID userID = (None, db') /\
    map models.Task.ID (database.tasks db') = map models.Task.ID (database.tasks db) /\
    (forall row, row ∈ database.tasks db' -> models.Task.ID row = taskID ->
       models.Task.DeletedAt row = Some (gorm.NowFunc now)) /\
    (forall user, services.GetTaskByID None db' taskID user = Err "task not found") /\
    (forall faults' now', faults' 0%nat = None ->
       services.DeleteTask faults' now' db' taskID userID = (Some "task not found", db')) /\
    (forall faults' now' req, faults' 0%nat = None ->
       services.UpdateTask faults' now' db' taskID req = (Err "task not found", db')) /\
    (forall orderBy faults' options resp,
       services.GetTasks orderBy faults' db' options = Ok resp ->
       forall task, task ∈ services.Tasks resp -> models.Task.ID task <> taskID).
Proof.
  intros Hnodup Hf0 Hf1 Hget. unfold services.DeleteTask at 1. rewrite Hf0, Hget, Hf1.
  apply GetTaskByID_Ok_inv in Hget as (Hin & Hid & Huid & Hlive).
  cbn [gorm.Delete]. eexists. split; [reflexivity|]. cbn [database.tasks].
  set (rows' := map _ (database.tasks db)).
  assert (forall row, row ∈ rows' -> models.Task.ID row = taskID ->
            models.Task.DeletedAt row = Some (gorm.NowFunc now)) as Hdead.
  { intros row (r & Hr & Hrin%list_elem_of_In)%list_elem_of_In%in_map_iff Hrow.
    destruct (models.Task.ID r =? models.Task.ID old)%N eqn:Heq.
    - apply N.eqb_eq in Heq.
      rewrite (primary_key_unique (database.tasks db) r old Hnodup Hrin Hin Heq) in Hr.
      unfold gorm.live in Hr. rewrite Hlive in Hr. cbn in Hr. by subst row.
    - cbn in Hr. subst row. apply N.eqb_neq in Heq. congruence. }
  assert (forall user,
            services.GetTaskByID None
              {| database.users := database.users db; database.tasks := rows' |}
              taskID user = Err "task not found") as Hgone.
  { intros user. apply GetTaskByID_none_live. intros row Hrow Hrid.
    by rewrite (Hdead row Hrow Hrid). }
  repeat apply conj.
  - subst rows'. rewrite map_map. apply map_ext. intros row. by destruct (_ && _).
  - done.
  - done.
  - intros faults' now' Hf. unfold services.DeleteTask. by rewrite Hf, Hgone.
  - intros faults' now' req Hf. unfold services.UpdateTask. by rewrite Hf, Hgone.
  - intros orderBy faults' options resp Hresp task Htask Htid.
    destruct (GetTasks_Ok_inv _ _ _ _ _ Hresp task Htask) as (Hrow & _ & Hl).
    cbn [database.tasks] in Hrow. by rewrite (Hdead task Hrow Htid) in Hl.
Qed.

(** ** The task service: listing *)

Lemma filter_filter_andb {A} (f g : A -> bool) (l : list A) :
  List.filter g (List.filter f l) = List.filter (fun x => f x && g x) l.
Proof.
  induction l as [|x l IH]; [done|]. cbn. destruct (f x); cbn; [|done].
  destruct (g x); by rewrite IH.
Qed.

Lemma optional_filter_andb {A} (b : bool) (f g : A -> bool) (l : list A) :
  (if negb b then List.filter g (List.filter f l) else List.filter f l)
  = List.filter (fun x => f x && (b || g x)) l.
Proof.
  destruct b; cbn.
  - apply List.filter_ext. intros x. by rewrite andb_true_r.
  - apply filter_filter_andb.
Qed.

(** What a listing that succeeds returns, with the three conditions of the
    query as one filter and the arithmetic as written. *)
Lemma GetTasks_Ok_shape orderBy faults db options resp :
  services.GetTasks orderBy faults db options = Ok resp ->
  let page := Z.max 1 (services.TaskFilterOptions.Page options) in
  let pageSize := effective_page_size options in
  let rows := List.filter (matching options) (database.tasks db) in
  exists before,
    orderBy (order_clause options) = Ok before /\
    resp =
      {| services.Tasks :=
           take (Z.to_nat pageSize)
             (drop (Z.to_nat (wrap_int64 ((page - 1) * pageSize)))
                (merge_sort (fun x y => Is_true (before x y)) rows));
         services.CurrentPage := page;
         services.PageSize := pageSize;
         services.TotalItems := Z.of_nat (length rows);
         services.TotalPages :=
           Z.quot (wrap_int64 (Z.of_nat (length rows) + pageSize - 1)) pageSize |}.
Proof.
  unfold services.GetTasks.
  rewrite (optional_filter_andb (String.eqb (services.TaskFilterOptions.Status options) "")).
  rewrite (optional_filter_andb (String.eqb (services.TaskFilterOptions.Priority options) "")).
  destruct (faults 0%nat); [done|]. destruct (faults 1%nat); [done|].
  assert ((if negb (String.eqb (services.TaskFilterOptions.SortBy options) "")
           then services.TaskFilterOptions.SortBy options else "created_at")
          ++ " " ++
          (if negb (String.eqb (services.TaskFilterOptions.Order options) "")
           then services.TaskFilterOptions.Order options else "desc")
          = order_clause options) as ->.
  { unfold order_clause. by do 2 destruct (String.eqb _ ""). }
  destruct (orderBy _) as [before|text]; [|done].
  intros [= <-]. exists before. split; [done|].
  assert ((if services.TaskFilterOptions.Page options <? 1 then 1
           else services.TaskFilterOptions.Page options)
          = Z.max 1 (services.TaskFilterOptions.Page options)) as ->.
  { destruct (Z.ltb_spec (services.TaskFilterOptions.Page options) 1); lia. }
  reflexivity.
Qed.




(** X19: the page is in the order asked for.  When the engine accepts the
    ORDER BY clause that [GetTasks] builds ("created_at desc" when the request
    names no column and no direction) and orders by a total, transitive
    comparison, every task of the returned page comes before all the tasks
    after it. *)
Theorem listing_page_sorted orderBy faults db options resp before :
  orderBy (order_clause options) = Ok before ->
  (forall x y, before x y = true \/ before y x = true) ->
  (forall x y z, before x y = true -> before y z = true -> before x z = true) ->
  services.GetTasks orderBy faults db options = Ok resp ->
  StronglySorted (fun x y => before x y = true) (services.Tasks resp).
Proof.
  intros Hclause Htotal Htrans Hresp.
  destruct (GetTasks_Ok_shape _ _ _ _ _ Hresp) as (before' & Hclause' & ->).
  rewrite Hclause in Hclause'. injection Hclause' as <-.
  cbn [services.Tasks].
  set (R := fun x y : models.Task.t => Is_true (before x y)).
  assert (Transitive R) as HT.
  { intros x y z Hxy Hyz. apply Is_true_true. eapply Htrans; by apply Is_true_true. }
  assert (Total R) as Htot.
  { intros x y. destruct (Htotal x y); [left|right]; by apply Is_true_true. }
  set (sorted := merge_sort R _).
  assert (StronglySorted R sorted) as Hsorted by apply (StronglySorted_merge_sort R).
  assert (forall l, StronglySorted R l -> StronglySorted (fun x y => before x y = true) l) as Hconv.
  { intros l Hl. induction Hl as [|x l Hl IH Hx]; constructor; [done|].
    eapply Forall_impl; [exact Hx|]. intros y Hy. by apply Is_true_true. }
  apply Hconv.
  set (off := Z.to_nat (wrap_int64 _)).
  rewrite <- (take_drop off sorted) in Hsorted. apply StronglySorted_app_1_r in Hsorted.
  rewrite <- (take_drop (Z.to_nat (effective_page_size options)) (drop off sorted)) in Hsorted.
  by apply StronglySorted_app_1_l in Hsorted.
Qed.

(** ** The task service: sample runs, and what writes leave alone *)

Lemma sample_db_keys : NoDup (map models.Task.ID (database.tasks sample_db)).
Proof. by apply (bool_decide_unpack _). Qed.





Lemma delete_then_gone_witness :
  NoDup (map models.Task.ID (database.tasks sample_db)) /\
  services.GetTaskByID None sample_db 1 7 = Ok task_of_alice /\
  exists db',
    services.DeleteTask no_faults 5000123456 sample_db 1 7 = (None, db') /\
    length (database.tasks db') = 2%nat /\
    (exists row, database.tasks db' !! 0%nat = Some row /\
                 models.Task.DeletedAt row = Some 5000000000) /\
    services.GetTaskByID None db' 1 7 = Err "task not found" /\
    services.DeleteTask no_faults 6000000000 db' 1 7 = (Some "task not found", db').
Proof.
  split; [exact sample_db_keys|]. split; [reflexivity|].
  destruct (delete_then_gone no_faults 5000123456 sample_db 1 7 task_of_alice
              sample_db_keys eq_refl eq_refl eq_refl)
    as (db' & Hdelete & Hkeys & Hmarked & Hget & Hagain & _).
  exists db'. split; [exact Hdelete|].
  split; [by rewrite <- (length_map models.Task.ID), Hkeys|].
  split.
  - assert (exists row, database.tasks db' !! 0%nat = Some row /\ models.Task.ID row = 1%N)
      as (row & Hrow & Hid).
    { apply (f_equal (fun ids => ids !! 0%nat)) in Hkeys.
      rewrite list_lookup_fmap in Hkeys.
      destruct (database.tasks db' !! 0%nat) as [row|]; [|discriminate Hkeys].
      exists row. split; [done|]. by injection Hkeys. }
    exists row. split; [exact Hrow|].
    rewrite (Hmarked row (list_elem_of_lookup_2 _ _ _ Hrow) Hid). reflexivity.
  - split; [exact (Hget 7%N)|]. exact (Hagain no_faults 6000000000 eq_refl).
Defined.


Lemma listing_page_sorted_witness :
  by_created_at (order_clause sample_options)
    = Ok (fun x y => models.Task.CreatedAt y <=? models.Task.CreatedAt x) /\
  database.tasks busy_db = [task_of_alice; task_of_bob; later_task_of_alice] /\
  exists resp,
    services.GetTasks by_created_at no_faults busy_db sample_options = Ok resp /\
    services.Tasks resp = [later_task_of_alice; task_of_alice] /\
    StronglySorted
      (fun x y => (models.Task.CreatedAt y <=? models.Task.CreatedAt x) = true)
      (services.Tasks resp).
Proof.
  split; [reflexivity|]. split; [reflexivity|].
  eexists. split; [reflexivity|]. split; [reflexivity|].
  apply (listing_page_sorted by_created_at no_faults busy_db sample_options _
           (fun x y => models.Task.CreatedAt y <=? models.Task.CreatedAt x)).
  - reflexivity.
  - intros x y. rewrite !Z.leb_le. lia.
  - intros x y z. rewrite !Z.leb_le. lia.
  - reflexivity.
Defined.

(** X20: the tasks table keeps its keys.  Whatever the store answers,
    [UpdateTask], [UpdateTaskStatus] and [DeleteTask] leave the primary keys
    of the table as they are, row by row: no row is added, removed or moved;
    and [CreateTask] keeps unique keys unique. *)
Theorem writes_keep_keys faults now db :
  (forall taskID req,
     map models.Task.ID (database.tasks (services.UpdateTask faults now db taskID req).2)
     = map models.Task.ID (database.tasks db)) /\
  (forall taskID req,
     map models.Task.ID
       (database.tasks (services.UpdateTaskStatus faults now db taskID req).2)
     = map models.Task.ID (database.tasks db)) /\
  (forall taskID userID,
     map models.Task.ID (database.tasks (services.DeleteTask faults now db taskID userID).2)
     = map models.Task.ID (database.tasks db)) /\
  (forall newID req,
     NoDup (map models.Task.ID (database.tasks db)) ->
     NoDup (map models.Task.ID
              (database.tasks (services_create.CreateTask faults now newID db req).2))).
Proof.
  assert (forall task rows, task ∈ rows ->
            forall fault task', models.Task.ID task' = models.Task.ID task ->
            match gorm.Save fault now task' rows with
            | Ok (_, rows') => map models.Task.ID rows' = map models.Task.ID rows
            | Err _ => True
            end) as Hsave.
  { intros task rows Hin fault task' Hid. unfold gorm.Save. destruct fault; [done|].
    cbn [models.Task.ID]. rewrite Hid, (existsb_ID_true _ _ Hin).
    rewrite map_map. apply map_ext. intros row.
    destruct (models.Task.ID row =? _)%N eqn:Heq; [|done]. by apply N.eqb_eq in Heq. }
  repeat apply conj.
  - intros taskID req. unfold services.UpdateTask.
    destruct (services.GetTaskByID _ db taskID _) as [task|err] eqn:Hget; [|done].
    apply GetTaskByID_Ok_inv in Hget as (Hin & _).
    match goal with |- context [gorm.Save ?f now ?t ?r] =>
      pose proof (Hsave task r Hin f t eq_refl) as Hs; destruct (gorm.Save f now t r) as [[? ?]|?]
    end; done.
  - intros taskID req. unfold services.UpdateTaskStatus.
    destruct (services.GetTaskByID _ db taskID _) as [task|err] eqn:Hget; [|done].
    apply GetTaskByID_Ok_inv in Hget as (Hin & _).
    match goal with |- context [gorm.Save ?f now ?t ?r] =>
      pose proof (Hsave task r Hin f t eq_refl) as Hs; destruct (gorm.Save f now t r) as [[? ?]|?]
    end; done.
  - intros taskID userID. unfold services.DeleteTask.
    destruct (services.GetTaskByID _ db taskID _) as [task|err]; [|done].
    unfold gorm.Delete. destruct (faults 1%nat); [done|]. cbn [snd database.tasks].
    rewrite map_map. apply map_ext. intros row. by destruct (_ && _).
  - intros newID req Hnodup. unfold services_create.CreateTask, gorm_create.task.
    destruct (faults 0%nat); [done|].
    destruct (existsb _ _) eqn:Hex; [done|]. cbn [snd database.tasks].
    rewrite map_app. cbn [map models.Task.ID]. apply NoDup_app.
    split; [done|]. split; [|apply NoDup_singleton].
    intros id Hid ->%list_elem_of_singleton.
    apply list_elem_of_fmap in Hid as (row & Hrow & Hin).
    by apply (proj1 (existsb_ID_false _ _) Hex row).
Qed.

Lemma writes_keep_keys_witness :
  NoDup (map models.Task.ID (database.tasks sample_db)) /\
  map models.Task.ID (database.tasks (services.DeleteTask no_faults 5000 sample_db 1 7).2)
    = [1%N; 2%N] /\
  NoDup (map models.Task.ID
           (database.tasks
              (services_create.CreateTask no_faults 1000 3 sample_db sample_request).2)).
Proof.
  split; [exact sample_db_keys|].
  destruct (writes_keep_keys no_faults 5000 sample_db) as (_ & _ & Hdelete & _).
  split; [exact (Hdelete 1%N 7%N)|].
  destruct (writes_keep_keys no_faults 1000 sample_db) as (_ & _ & _ & Hcreate).
  exact (Hcreate 3%N sample_request sample_db_keys).
Defined.

(** X21: no write made for one user changes a row of another user.  With
    unique primary keys, a row that belongs to another user is at its place,
    unchanged, after any [CreateTask], [UpdateTask], [UpdateTaskStatus] or
    [DeleteTask] made for the user, whatever task id is named and whatever
    the store answers. *)
Theorem writes_touch_only_own_rows faults now db userID i row :
  NoDup (map models.Task.ID (database.tasks db)) ->
  database.tasks db !! i = Some row -> models.Task.UserID row <> userID ->
  (forall newID req, services.TaskRequest.UserID req = userID ->
     database.tasks (services_create.CreateTask faults now newID db req).2 !! i = Some row) /\
  (forall taskID req, services.TaskRequest.UserID req = userID ->
     database.tasks (services.UpdateTask faults now db taskID req).2 !! i = Some row) /\
  (forall taskID req, services.TaskStatusRequest.UserID req = userID ->
     database.tasks (services.UpdateTaskStatus faults now db taskID req).2 !! i = Some row) /\
  (forall taskID,
     database.tasks (services.DeleteTask faults now db taskID userID).2 !! i = Some row).
Proof.
  intros Hnodup Hi Howner. repeat apply conj.
  - intros newID req _. unfold services_create.CreateTask, gorm_create.task.
    destruct (faults 0%nat); [done|]. destruct (existsb _ _); [done|].
    cbn [snd database.tasks]. by apply lookup_app_l_Some.
  - intros taskID.
    apply (writes_leave_other_users_rows faults now db taskID userID Hnodup i row Hi Howner).
  - intros taskID.
    apply (writes_leave_other_users_rows faults now db taskID userID Hnodup i row Hi Howner).
  - intros taskID.
    apply (writes_leave_other_users_rows faults now db taskID userID Hnodup i row Hi Howner).
Qed.

Lemma writes_touch_only_own_rows_witness :
  NoDup (map models.Task.ID (database.tasks sample_db)) /\
  database.tasks sample_db !! 1%nat = Some task_of_bob /\
  models.Task.UserID task_of_bob <> 7%N /\
  database.tasks (services.UpdateTask no_faults 5000 sample_db 1 sample_request).2 !! 1%nat
    = Some task_of_bob /\
  database.tasks (services.DeleteTask no_faults 5000 sample_db 2 7).2 !! 1%nat
    = Some task_of_bob.
Proof.
  split; [exact sample_db_keys|]. split; [reflexivity|].
  assert (models.Task.UserID task_of_bob <> 7%N) as Hbob by discriminate.
  split; [exact Hbob|].
  destruct (writes_touch_only_own_rows no_faults 5000 sample_db 7 1 task_of_bob
              sample_db_keys eq_refl Hbob) as (_ & Hupdate & _ & Hdelete).
  split; [exact (Hupdate 1%N sample_request eq_refl)|exact (Hdelete 2%N)].
Defined.

(** ** The user service *)

Section UserTableFacts.
Context {A : Type} (ID : A -> uint) (DeletedAt : A -> option time.Time).

Lemma First_none_live cond (rows : list A) :
  (forall row, row ∈ rows -> gorm.live DeletedAt row = true -> cond row = false) ->
  gorm.First ID DeletedAt None cond rows = Err gorm.ErrRecordNotFound.
Proof.
  intros Hnone. destruct (gorm.First ID DeletedAt None cond rows) as [row|err] eqn:E.
  - apply First_Ok_inv in E as (_ & Hin & Hlive & Hcond).
    by rewrite (Hnone row Hin Hlive) in Hcond.
  - unfold gorm.First in E. destruct (gorm.lowest ID _); [done|]. by injection E as <-.
Qed.

Lemma First_some_live cond (rows : list A) row :
  row ∈ rows -> gorm.live DeletedAt row = true -> cond row = true ->
  exists row', gorm.First ID DeletedAt None cond rows = Ok row'.
Proof.
  intros Hin Hlive Hcond. unfold gorm.First.
  destruct (gorm.lowest ID _) as [row'|] eqn:E; [by exists row'|].
  apply lowest_None in E.
  assert (row ∈ List.filter (fun r => gorm.live DeletedAt r && cond r) rows) as Hrow.
  { apply list_elem_of_In, filter_In. split; [by apply list_elem_of_In|].
    by rewrite Hlive, Hcond. }
  rewrite E in Hrow. by apply not_elem_of_nil in Hrow.
Qed.
End UserTableFacts.

Lemma append_nil_r (s : string) : s ++ "" = s.
Proof. induction s as [|c s IH]; [done|]. by rewrite append_cons, IH. Qed.

(** An identifier [GenerateToken] returns is its own trimmed form. *)
Lemma GenerateToken_id_trimmed env src now userID (st : gmap string utils.sessionData)
    sid st' :
  utils.GenerateToken env src now userID st = (Ok sid, st') ->
  sid <> "" /\ strings.TrimSpace sid = sid.
Proof.
  intros Hgen. pose proof (GenerateToken_id_length _ _ _ _ _ _ _ Hgen) as Hlen.
  split; [by intros ->|].
  apply GenerateToken_Ok_inv in Hgen as (bytes & ttl & -> & Hsid & Httl & _).
  assert (reachable (utils.GenerateToken env (rand.Fill bytes) now userID ∅).2) as Hreach
    by apply reachable_GenerateToken, reachable_init.
  destruct (utils.GenerateToken env (rand.Fill bytes) now userID ∅) as [[sid0|e] st0] eqn:E.
  - apply GenerateToken_Ok_inv in E as (bytes' & ttl' & [= <-] & Hsid0 & _ & ->).
    rewrite <- Hsid in Hsid0. subst sid0. cbn [snd] in Hreach.
    destruct (reachable_id_solid_ends _ sid _ Hreach (lookup_insert_eq _ _ _))
      as (c & c' & Hfirst & Hc & Hlast & Hc').
    rewrite <- (append_nil_r sid) at 1. by eapply TrimSpace_trailing.
  - apply GenerateToken_Err_inv in E as (_ & [(err & [=] & _)|(b & err & _ & Herr & _)]).
    congruence.
Qed.

(** The gate lets the holder of a live session through when the users table
    has one row with the session's user id, and that row is live. *)
Lemma gate_passes db now (st : gmap string utils.sessionData) sid session user :
  sid <> "" -> strings.TrimSpace sid = sid ->
  st !! sid = Some session -> now <= utils.ExpiresAt session ->
  user ∈ database.users db -> models.User.ID user = utils.UserID session ->
  models.User.DeletedAt user = None ->
  (forall row, row ∈ database.users db ->
     models.User.ID row = utils.UserID session -> row = user) ->
  middlewares.AuthMiddleware None db now (with_authorization sid) st =
    (middlewares.Next (utils.UserID session) user, st).
Proof.
  intros Hne Htrim Hsid Hnow Hin Hid Hlive Huniq. unfold middlewares.AuthMiddleware.
  assert (middlewares.GetHeader (with_authorization sid) "Authorization" = sid) as ->.
  { unfold middlewares.GetHeader, with_authorization. cbn [middlewares.Header].
    by rewrite lookup_singleton_eq. }
  apply String.eqb_neq in Hne as Hne'. rewrite Hne', Htrim.
  rewrite (ValidateToken_live now sid session st Hne Hsid Hnow).
  rewrite (First_unique models.User.ID models.User.DeletedAt _ _ user); [done|done| | |].
  - unfold gorm.live. by rewrite Hlive.
  - by apply N.eqb_eq.
  - intros row Hrow _ Hr%N.eqb_eq. by apply Huniq.
Qed.

Section UserService.
Variable GenerateFromPassword : string -> result string bcrypt.error.
Variable same : string -> string -> bool.

(** Up to the session: what [Register] does when the names are free and the
    store answers. *)
Lemma Register_creates (faults : nat -> option string) now newID env src now' db
    (st : gmap string utils.sessionData) req hash :
  faults 0%nat = None -> faults 1%nat = None -> faults 2%nat = None ->
  available same db newID req ->
  services_users.UserRegisterRequest.Password req <> "" ->
  GenerateFromPassword (services_users.UserRegisterRequest.Password req) = Ok hash ->
  services_users.Register GenerateFromPassword same faults now newID env src now' db st req =
    match utils.GenerateToken env src now' newID st with
    | (Err err, st') =>
        (Err (services_users.failed_to_generate_session err),
         with_user db (registered req hash newID now), st')
    | (Ok token, st') =>
        (Ok {| services_users.Token := token;
               services_users.User := registered req hash newID now |},
         with_user db (registered req hash newID now), st')
    end.
Proof.
  intros Hf0 Hf1 Hf2 Hfree Hpw Hhash. unfold services_users.Register.
  rewrite Hf0, Hf1, Hf2.
  rewrite First_none_live by (intros row Hin _; by apply Hfree).
  rewrite First_none_live by (intros row Hin _; by apply Hfree).
  unfold gorm_users.Create, models_User.BeforeSave. cbn [models.User.Password].
  apply String.eqb_neq in Hpw. rewrite Hpw. cbn [negb]. rewrite Hhash.
  cbn [models.User.Username models.User.Email models.User.Password models.User.DeletedAt].
  assert (existsb
            (fun row =>
               (models.User.ID row =? newID)%N
               || same (models.User.Username row)
                    (services_users.UserRegisterRequest.Username req)
               || same (models.User.Email row)
                    (services_users.UserRegisterRequest.Email req))
            (database.users db) = false) as ->.
  { apply not_true_iff_false. intros (row & Hin%list_elem_of_In & Hrow)%existsb_exists.
    destruct (Hfree row Hin) as (Hid%N.eqb_neq & Hu & He).
    by rewrite Hid, Hu, He in Hrow. }
  cbn [models.User.ID]. reflexivity.
Qed.

Lemma registered_unique db newID req hash now :
  available same db newID req ->
  forall row, row ∈ database.users (with_user db (registered req hash newID now)) ->
    models.User.ID row = newID -> row = registered req hash newID now.
Proof.
  intros Hfree row Hin Hid. cbn [with_user database.users] in Hin.
  apply elem_of_app in Hin as [Hin|Hin%list_elem_of_singleton]; [|done].
  by destruct (Hfree row Hin) as (Hne & _).
Qed.

Lemma registered_elem_of db user : user ∈ database.users (with_user db user).
Proof. cbn. apply elem_of_app. right. by apply list_elem_of_singleton. Qed.

(** X22: a registration that succeeds opens the gate.  When the store
    answers, no row of the users table has the new key, the username or the
    email, the password is not empty and is hashed, and [GenerateToken]
    issues a session, [Register] returns the session identifier and the new
    user, whose stored password is the hash; the users table is the old one
    with that user added; the session table has gained the session, for the
    new user's key and expiring one configured lifetime after the later clock
    reading; and until then the session gate, given the identifier as
    Authorization value, hands the request on with that user attached. *)
Theorem register_then_gate_passes (faults : nat -> option string) now newID env src now' db
    (st : gmap string utils.sessionData) req hash token st' :
  faults 0%nat = None -> faults 1%nat = None -> faults 2%nat = None ->
  available same db newID req ->
  services_users.UserRegisterRequest.Password req <> "" ->
  GenerateFromPassword (services_users.UserRegisterRequest.Password req) = Ok hash ->
  utils.GenerateToken env src now' newID st = (Ok token, st') ->
  let user := registered req hash newID now in
  services_users.Register GenerateFromPassword same faults now newID env src now' db st req =
    (Ok {| services_users.Token := token; services_users.User := user |},
     with_user db user, st') /\
  exists ttl,
    configuredTTL env = Ok ttl /\
    st' = <[token := {| utils.UserID := newID; utils.ExpiresAt := now' + ttl |}]> st /\
    forall t, t <= now' + ttl ->
      middlewares.AuthMiddleware None (with_user db user) t (with_authorization token) st' =
        (middlewares.Next newID user, st').
Proof.
  intros Hf0 Hf1 Hf2 Hfree Hpw Hhash Hgen user.
  split.
  { rewrite (Register_creates faults now newID env src now' db st req hash) by done.
    by rewrite Hgen. }
  destruct (GenerateToken_id_trimmed _ _ _ _ _ _ _ Hgen) as [Hne Htrim].
  apply GenerateToken_Ok_inv in Hgen as (bytes & ttl & _ & _ & Httl & Hst).
  exists ttl. split; [done|]. split; [done|]. intros t Ht.
  apply (gate_passes (with_user db user) t st' token
           {| utils.UserID := newID; utils.ExpiresAt := now' + ttl |} user); try done.
  - rewrite Hst. apply lookup_insert_eq.
  - apply registered_elem_of.
  - by apply registered_unique.
Qed.

(** X23: a registration is not undone when the session cannot be issued.
    When everything up to the insert goes well and [GenerateToken] then
    fails (no random bytes, or a JWT_EXPIRES_IN that does not parse),
    [Register] returns "failed to generate session" and no session, but the
    user stays in the table; so the same request, sent again to a store that
    answers, is refused with "username already exists" whatever the
    configuration is by then (the engine's text comparison holding between
    the username and itself). *)
Theorem register_is_not_atomic (faults : nat -> option string) now newID env src now' db
    (st : gmap string utils.sessionData) req hash err st' :
  faults 0%nat = None -> faults 1%nat = None -> faults 2%nat = None ->
  available same db newID req ->
  services_users.UserRegisterRequest.Password req <> "" ->
  GenerateFromPassword (services_users.UserRegisterRequest.Password req) = Ok hash ->
  same (services_users.UserRegisterRequest.Username req)
       (services_users.UserRegisterRequest.Username req) = true ->
  utils.GenerateToken env src now' newID st = (Err err, st') ->
  let db' := with_user db (registered req hash newID now) in
  services_users.Register GenerateFromPassword same faults now newID env src now' db st req =
    (Err (services_users.failed_to_generate_session err), db', st) /\
  forall (faults2 : nat -> option string) now2 newID2 env2 src2 now2',
    faults2 0%nat = None ->
    services_users.Register GenerateFromPassword same faults2 now2 newID2 env2 src2 now2'
      db' st req =
      (Err services_users.username_already_exists, db', st).
Proof.
  intros Hf0 Hf1 Hf2 Hfree Hpw Hhash Hrefl Hgen db'.
  split.
  { rewrite (Register_creates faults now newID env src now' db st req hash) by done.
    rewrite Hgen. by apply GenerateToken_Err_inv in Hgen as [-> _]. }
  intros faults2 now2 newID2 env2 src2 now2' Hf. unfold services_users.Register. rewrite Hf.
  destruct (First_some_live models.User.ID models.User.DeletedAt
              (fun user => same (models.User.Username user)
                             (services_users.UserRegisterRequest.Username req))
              (database.users db') (registered req hash newID now))
    as [row ->]; [apply registered_elem_of|done|done|done].
Qed.

(** X24: taken names are refused before anything is written.  When the
    store answers the first query, a live user with the username makes
    [Register] fail with "username already exists"; when none has it and the
    second query is answered, a live user with the email makes it fail with
    "email already exists"; in both cases nothing is written.  In general a
    registration that fails leaves the session table as it was, and the users
    table too unless the failure is that of the session. *)
Theorem register_refuses_taken_names (faults : nat -> option string) now newID env src now' db
    (st : gmap string utils.sessionData) req :
  faults 0%nat = None ->
  ((exists row, row ∈ database.users db /\ models.User.DeletedAt row = None /\
      same (models.User.Username row) (services_users.UserRegisterRequest.Username req) = true) ->
   services_users.Register GenerateFromPassword same faults now newID env src now' db st req =
     (Err services_users.username_already_exists, db, st)) /\
  ((forall row, row ∈ database.users db -> models.User.DeletedAt row = None ->
      same (models.User.Username row) (services_users.UserRegisterRequest.Username req) = false) ->
   (exists row, row ∈ database.users db /\ models.User.DeletedAt row = None /\
      same (models.User.Email row) (services_users.UserRegisterRequest.Email req) = true) ->
   faults 1%nat = None ->
   services_users.Register GenerateFromPassword same faults now newID env src now' db st req =
     (Err services_users.email_already_exists, db, st)) /\
  (forall e db' st',
     services_users.Register GenerateFromPassword same faults now newID env src now' db st req
       = (Err e, db', st') ->
     st' = st /\
     ((exists err, e = services_users.failed_to_generate_session err) \/ db' = db)).
Proof.
  intros Hf0. assert (forall row : models.User.t,
            models.User.DeletedAt row = None -> gorm.live models.User.DeletedAt row = true)
    as Hlive by (intros row Hrow; unfold gorm.live; by rewrite Hrow).
  repeat apply conj.
  - intros (row & Hin & Hl & Hsame). unfold services_users.Register. rewrite Hf0.
    by destruct (First_some_live models.User.ID models.User.DeletedAt
                   (fun user => same (models.User.Username user)
                                  (services_users.UserRegisterRequest.Username req))
                   _ row Hin (Hlive row Hl) Hsame) as [row' ->].
  - intros Hnone (row & Hin & Hl & Hsame) Hf1. unfold services_users.Register.
    rewrite Hf0, Hf1. rewrite First_none_live.
    + by destruct (First_some_live models.User.ID models.User.DeletedAt
                     (fun user => same (models.User.Email user)
                                    (services_users.UserRegisterRequest.Email req))
                     _ row Hin (Hlive row Hl) Hsame) as [row' ->].
    + intros r Hr Hrl. apply Hnone; [done|]. unfold gorm.live in Hrl.
      by destruct (models.User.DeletedAt r).
  - intros e db' st'. unfold services_users.Register.
    destruct (gorm.First _ _ _ _ _) as [?|[|?]]; [by intros [= <- <- <-]; split; [|right]|
      |by intros [= <- <- <-]; split; [|right]].
    destruct (gorm.First _ _ _ _ _) as [?|[|?]]; [by intros [= <- <- <-]; split; [|right]|
      |by intros [= <- <- <-]; split; [|right]].
    destruct (gorm_users.Create _ _ _ _ _ _ _) as [[user rows]|err];
      [|by intros [= <- <- <-]; split; [|right]].
    destruct (utils.GenerateToken _ _ _ _ _) as [[token|err] st''] eqn:Hgen; [done|].
    intros [= <- <- <-]. apply GenerateToken_Err_inv in Hgen as [-> _].
    split; [done|]. left. by eexists.
Qed.
End UserService.

Section UserService2.
Variable GenerateFromPassword : string -> result string bcrypt.error.
Variable CompareHashAndPassword : string -> string -> option bcrypt.error.
Variable same : string -> string -> bool.

(** What a registration that succeeds has done. *)
Lemma Register_Ok_inv (faults : nat -> option string) now newID env src now' db
    (st : gmap string utils.sessionData) req resp db' st' :
  services_users.Register GenerateFromPassword same faults now newID env src now' db st req
    = (Ok resp, db', st') ->
  available same db newID req /\
  (exists hash, services_users.User resp = registered req hash newID now) /\
  db' = with_user db (services_users.User resp) /\
  utils.GenerateToken env src now' newID st = (Ok (services_users.Token resp), st').
Proof.
  unfold services_users.Register.
  destruct (gorm.First _ _ _ _ _) as [?|[|?]]; [done| |done].
  destruct (gorm.First _ _ _ _ _) as [?|[|?]]; [done| |done].
  unfold gorm_users.Create.
  destruct (models_User.BeforeSave _ _) as [u|err] eqn:Hhook; [|done].
  destruct (faults 2%nat); [done|].
  destruct (existsb _ _) eqn:Hex; [done|]. cbn [models.User.ID].
  destruct (utils.GenerateToken _ _ _ _ _) as [[token|err] st''] eqn:Hgen; [|done].
  intros [= <- <- <-]. cbn [services_users.User services_users.Token].
  assert (models.User.Username u = services_users.UserRegisterRequest.Username req /\
          models.User.Email u = services_users.UserRegisterRequest.Email req /\
          models.User.DeletedAt u = None) as (Hu & He & Hd).
  { revert Hhook. unfold models_User.BeforeSave. cbn [models.User.Password].
    destruct (negb _); [|by intros [= <-]].
    destruct (GenerateFromPassword _); [|done]. by intros [= <-]. }
  repeat apply conj; try done.
  - intros row Hin. apply not_true_iff_false in Hex.
    assert (forall b, b = true \/ b = false) as Hb by (intros []; tauto).
    destruct (decide (models.User.ID row = newID)) as [Hid|Hid].
    { destruct Hex. apply existsb_exists. exists row.
      split; [by apply list_elem_of_In|]. apply N.eqb_eq in Hid. by rewrite Hid. }
    split; [done|]. rewrite Hu, He in Hex. split.
    + destruct (Hb (same (models.User.Username row)
                      (services_users.UserRegisterRequest.Username req))) as [Ht|]; [|done].
      destruct Hex. apply existsb_exists. exists row.
      split; [by apply list_elem_of_In|]. rewrite Ht. by rewrite orb_true_r.
    + destruct (Hb (same (models.User.Email row)
                      (services_users.UserRegisterRequest.Email req))) as [Ht|]; [|done].
      destruct Hex. apply existsb_exists. exists row.
      split; [by apply list_elem_of_In|]. rewrite Ht. by rewrite orb_true_r.
  - exists (models.User.Password u). unfold registered. by rewrite Hu, He, Hd.
Qed.

(** X25: unknown email and wrong password are one answer.  When the store
    answers and no live user with the requested email has a password hash
    that bcrypt accepts the password for (there is no such user, or the check
    fails, for whatever reason), [Login] fails with "invalid email or
    password" and leaves the session table alone. *)
Theorem login_failures_look_alike env src now db (st : gmap string utils.sessionData) req :
  (forall row, row ∈ database.users db -> models.User.DeletedAt row = None ->
     same (models.User.Email row) (services_users.UserLoginRequest.Email req) = true ->
     CompareHashAndPassword (models.User.Password row)
       (services_users.UserLoginRequest.Password req) <> None) ->
  services_users.Login CompareHashAndPassword same None env src now db st req =
    (Err services_users.invalid_email_or_password, st).
Proof.
  intros Hbad. unfold services_users.Login.
  destruct (gorm.First _ _ _ _ _) as [user|[|text]] eqn:E.
  - apply First_Ok_inv in E as (_ & Hin & Hlive & Hsame).
    unfold gorm.live in Hlive.
    destruct (models.User.DeletedAt user) eqn:Hd; [done|].
    specialize (Hbad user Hin Hd Hsame). unfold models_User.CheckPassword.
    by destruct (CompareHashAndPassword _ _) as [[|]|].
  - done.
  - unfold gorm.First in E. by destruct (gorm.lowest _ _).
Qed.

(** X26: a session is issued only to a live user whose password was
    accepted.  When [Login] succeeds, the user it returns is a live row of the
    users table with the requested email, bcrypt has accepted the password
    against that row's hash, and the session table has gained exactly the
    returned identifier, for that user's key, which [ValidateToken] accepts
    until one configured lifetime after the clock reading.  When [Login]
    fails, the session table is as it was. *)
Theorem login_is_sound fault env src now db (st : gmap string utils.sessionData) req :
  (forall resp st',
     services_users.Login CompareHashAndPassword same fault env src now db st req
       = (Ok resp, st') ->
     let user := services_users.User resp in
     user ∈ database.users db /\ models.User.DeletedAt user = None /\
     same (models.User.Email user) (services_users.UserLoginRequest.Email req) = true /\
     CompareHashAndPassword (models.User.Password user)
       (services_users.UserLoginRequest.Password req) = None /\
     exists ttl,
       configuredTTL env = Ok ttl /\
       st' = <[services_users.Token resp :=
                 {| utils.UserID := models.User.ID user; utils.ExpiresAt := now + ttl |}]> st /\
       forall t, t <= now + ttl ->
         utils.ValidateToken t (services_users.Token resp) st' =
           (Ok (models.User.ID user), st')) /\
  (forall e st',
     services_users.Login CompareHashAndPassword same fault env src now db st req
       = (Err e, st') -> st' = st).
Proof.
  unfold services_users.Login. split.
  - intros resp st'.
    destruct (gorm.First _ _ _ _ _) as [user|[|text]] eqn:E; [|done..].
    apply First_Ok_inv in E as (_ & Hin & Hlive & Hsame).
    unfold models_User.CheckPassword.
    destruct (CompareHashAndPassword _ _) as [[|]|] eqn:Hcheck; [done..|].
    destruct (utils.GenerateToken _ _ _ _ _) as [[token|err] st''] eqn:Hgen; [|done].
    intros [= <- <-]. cbn [services_users.User services_users.Token].
    split; [done|]. split.
    { unfold gorm.live in Hlive. by destruct (models.User.DeletedAt user). }
    split; [done|]. split; [done|].
    destruct (GenerateToken_id_trimmed _ _ _ _ _ _ _ Hgen) as [Hne _].
    apply GenerateToken_Ok_inv in Hgen as (bytes & ttl & _ & _ & Httl & Hst).
    exists ttl. split; [done|]. split; [done|]. intros t Ht.
    rewrite (ValidateToken_live t token
               {| utils.UserID := models.User.ID user; utils.ExpiresAt := now + ttl |} st'');
      [done|done| |done].
    rewrite Hst. apply lookup_insert_eq.
  - intros e st'.
    destruct (gorm.First _ _ _ _ _) as [user|[|text]]; [|by intros [= _ <-]..].
    destruct (models_User.CheckPassword _ _ _); [by intros [= _ <-]|].
    destruct (utils.GenerateToken _ _ _ _ _) as [[token|err] st''] eqn:Hgen; [done|].
    intros [= _ <-]. by apply GenerateToken_Err_inv in Hgen as [-> _].
Qed.

(** X27: who has registered can log in.  After a registration that
    succeeded, on the store it left, [Login] with the email and the password
    of the registration returns the registered user and the identifier that
    [GenerateToken] issues for the user's key, provided bcrypt accepts the
    password against the stored hash, the engine's text comparison holds
    between the email and itself, and the store answers. *)
Theorem register_then_login (faults : nat -> option string) now newID env src now' db
    (st : gmap string utils.sessionData) req resp db' st' env2 src2 now2
    (st2 : gmap string utils.sessionData) token2 st2' :
  services_users.Register GenerateFromPassword same faults now newID env src now' db st req
    = (Ok resp, db', st') ->
  same (services_users.UserRegisterRequest.Email req)
       (services_users.UserRegisterRequest.Email req) = true ->
  CompareHashAndPassword (models.User.Password (services_users.User resp))
    (services_users.UserRegisterRequest.Password req) = None ->
  utils.GenerateToken env2 src2 now2 newID st2 = (Ok token2, st2') ->
  services_users.Login CompareHashAndPassword same None env2 src2 now2 db' st2
    {| services_users.UserLoginRequest.Email := services_users.UserRegisterRequest.Email req;
       services_users.UserLoginRequest.Password :=
         services_users.UserRegisterRequest.Password req |}
  = (Ok {| services_users.Token := token2; services_users.User := services_users.User resp |},
     st2').
Proof.
  intros (Hfree & (hash & Huser) & -> & _)%Register_Ok_inv Hrefl Hcheck Hgen.
  unfold services_users.Login. cbn [services_users.UserLoginRequest.Email
    services_users.UserLoginRequest.Password].
  rewrite (First_unique models.User.ID models.User.DeletedAt _ _ (services_users.User resp)).
  - unfold models_User.CheckPassword. rewrite Hcheck.
    assert (models.User.ID (services_users.User resp) = newID) as -> by by rewrite Huser.
    by rewrite Hgen.
  - apply registered_elem_of.
  - by rewrite Huser.
  - by rewrite Huser.
  - intros row Hin _ Hsame. cbn [with_user database.users] in Hin.
    apply elem_of_app in Hin as [Hin|Hin%list_elem_of_singleton]; [|done].
    destruct (Hfree row Hin) as (_ & _ & He). by rewrite He in Hsame.
Qed.
End UserService2.

(** ** The user service: sample runs *)

Lemma sample_available : available String.eqb sample_db 8 sample_register.
Proof.
  intros row Hin. apply list_elem_of_In in Hin. cbn in Hin.
  destruct Hin as [<- | []]. by split; [|split].
Qed.

Lemma register_then_gate_passes_witness :
  available String.eqb sample_db 8 sample_register /\
  sample_hash "secret" = Ok "$2a$10$secret" /\
  utils.GenerateToken ∅ zeros 1001 8%N ∅ =
    (Ok zeros_id, {[ zeros_id := {| utils.UserID := 8%N; utils.ExpiresAt := 1001 + day |} ]}) /\
  services_users.Register sample_hash String.eqb no_faults 1000 8 ∅ zeros 1001 sample_db ∅
    sample_register =
    (Ok {| services_users.Token := zeros_id; services_users.User := bob |},
     with_user sample_db bob,
     {[ zeros_id := {| utils.UserID := 8%N; utils.ExpiresAt := 1001 + day |} ]}) /\
  middlewares.AuthMiddleware None (with_user sample_db bob) 5000 (with_authorization zeros_id)
    {[ zeros_id := {| utils.UserID := 8%N; utils.ExpiresAt := 1001 + day |} ]} =
    (middlewares.Next 8 bob,
     {[ zeros_id := {| utils.UserID := 8%N; utils.ExpiresAt := 1001 + day |} ]}).
Proof.
  assert (utils.GenerateToken ∅ zeros 1001 8%N ∅ =
            (Ok zeros_id,
             {[ zeros_id := {| utils.UserID := 8%N; utils.ExpiresAt := 1001 + day |} ]}))
    as Hgen by reflexivity.
  assert ("secret" <> "") as Hpw by discriminate.
  split; [exact sample_available|]. split; [reflexivity|]. split; [exact Hgen|].
  destruct (register_then_gate_passes sample_hash String.eqb no_faults 1000 8 ∅ zeros 1001
              sample_db ∅ sample_register "$2a$10$secret" zeros_id _
              eq_refl eq_refl eq_refl sample_available Hpw eq_refl Hgen)
    as (Hreg & ttl & Httl & _ & Hgate).
  split; [exact Hreg|].
  assert (ttl = day) as -> by (vm_compute in Httl; by injection Httl as <-).
  apply Hgate. vm_compute. discriminate.
Defined.

Lemma register_is_not_atomic_witness :
  available String.eqb sample_db 8 sample_register /\
  utils.GenerateToken {[ "JWT_EXPIRES_IN" := "48" ]} zeros 1001 8%N ∅ =
    (Err (utils.invalid_JWT_EXPIRES_IN_value (time.missing_unit "48")), ∅) /\
  services_users.Register sample_hash String.eqb no_faults 1000 8
    {[ "JWT_EXPIRES_IN" := "48" ]} zeros 1001 sample_db ∅ sample_register =
    (Err (services_users.failed_to_generate_session
            (utils.invalid_JWT_EXPIRES_IN_value (time.missing_unit "48"))),
     with_user sample_db bob, ∅) /\
  services_users.Register sample_hash String.eqb no_faults 2000 9
    {[ "JWT_EXPIRES_IN" := "48h" ]} zeros 2001 (with_user sample_db bob) ∅ sample_register =
    (Err services_users.username_already_exists, with_user sample_db bob, ∅).
Proof.
  assert (utils.GenerateToken {[ "JWT_EXPIRES_IN" := "48" ]} zeros 1001 8%N ∅ =
            (Err (utils.invalid_JWT_EXPIRES_IN_value (time.missing_unit "48")), ∅))
    as Hgen by reflexivity.
  assert ("secret" <> "") as Hpw by discriminate.
  split; [exact sample_available|]. split; [exact Hgen|].
  destruct (register_is_not_atomic sample_hash String.eqb no_faults 1000 8
              {[ "JWT_EXPIRES_IN" := "48" ]} zeros 1001
              sample_db ∅ sample_register "$2a$10$secret" _ _
              eq_refl eq_refl eq_refl sample_available Hpw eq_refl eq_refl Hgen)
    as (Hreg & Hretry).
  split; [exact Hreg|].
  exact (Hretry no_faults 2000 9%N {[ "JWT_EXPIRES_IN" := "48h" ]} zeros 2001 eq_refl).
Defined.

Lemma register_refuses_taken_names_witness :
  no_faults 0%nat = None /\
  services_users.Register sample_hash String.eqb no_faults 1000 8 ∅ zeros 1001 sample_db ∅
    {| services_users.UserRegisterRequest.Username := "alice";
       services_users.UserRegisterRequest.Email := "other@example.com";
       services_users.UserRegisterRequest.Password := "secret" |} =
    (Err services_users.username_already_exists, sample_db, ∅) /\
  services_users.Register sample_hash String.eqb no_faults 1000 8 ∅ zeros 1001 sample_db ∅
    {| services_users.UserRegisterRequest.Username := "alice2";
       services_users.UserRegisterRequest.Email := "alice@example.com";
       services_users.UserRegisterRequest.Password := "secret" |} =
    (Err services_users.email_already_exists, sample_db, ∅).
Proof.
  assert (alice ∈ database.users sample_db) as Hin by apply list_elem_of_here.
  split; [reflexivity|]. split.
  - apply (register_refuses_taken_names sample_hash String.eqb no_faults); [reflexivity|].
    exists alice. by split; [|split].
  - apply (register_refuses_taken_names sample_hash String.eqb no_faults); [reflexivity| | |].
    + intros row Hrow _. apply list_elem_of_In in Hrow. cbn in Hrow.
      by destruct Hrow as [<- | []].
    + exists alice. by split; [|split].
    + reflexivity.
Defined.

Lemma login_failures_look_alike_witness :
  services_users.Login sample_compare String.eqb None ∅ zeros 1000 sample_db ∅
    {| services_users.UserLoginRequest.Email := "alice@example.com";
       services_users.UserLoginRequest.Password := "guess" |} =
    (Err services_users.invalid_email_or_password, ∅) /\
  services_users.Login sample_compare String.eqb None ∅ zeros 1000 sample_db ∅
    {| services_users.UserLoginRequest.Email := "nobody@example.com";
       services_users.UserLoginRequest.Password := "hash" |} =
    (Err services_users.invalid_email_or_password, ∅).
Proof.
  split.
  - apply login_failures_look_alike. intros row Hrow _ _.
    apply list_elem_of_In in Hrow. cbn in Hrow. by destruct Hrow as [<- | []].
  - apply login_failures_look_alike. intros row Hrow _ Hsame.
    apply list_elem_of_In in Hrow. cbn in Hrow. by destruct Hrow as [<- | []].
Defined.

Lemma login_is_sound_witness :
  exists resp st',
    services_users.Login sample_compare String.eqb None ∅ zeros 1000 sample_db ∅
      {| services_users.UserLoginRequest.Email := "alice@example.com";
         services_users.UserLoginRequest.Password := "hash" |} = (Ok resp, st') /\
    services_users.User resp = alice /\
    utils.ValidateToken 5000 (services_users.Token resp) st' = (Ok 7%N, st').
Proof.
  eexists _, _. split; [reflexivity|]. split; [reflexivity|].
  destruct (login_is_sound sample_compare String.eqb None ∅ zeros 1000 sample_db ∅
              {| services_users.UserLoginRequest.Email := "alice@example.com";
                 services_users.UserLoginRequest.Password := "hash" |}) as [Hok _].
  destruct (Hok _ _ eq_refl) as (_ & _ & _ & _ & ttl & Httl & _ & Hvalid).
  assert (ttl = day) as -> by (vm_compute in Httl; by injection Httl as <-).
  apply Hvalid. vm_compute. discriminate.
Defined.

Lemma register_then_login_witness :
  services_users.Register sample_hash String.eqb no_faults 1000 8 ∅ zeros 1001 sample_db ∅
    sample_register =
    (Ok {| services_users.Token := zeros_id; services_users.User := bob |},
     with_user sample_db bob,
     {[ zeros_id := {| utils.UserID := 8%N; utils.ExpiresAt := 1001 + day |} ]}) /\
  sample_compare (models.User.Password bob) "secret" = None /\
  services_users.Login sample_compare String.eqb None ∅ ones 3000 (with_user sample_db bob) ∅
    {| services_users.UserLoginRequest.Email := "bob@example.com";
       services_users.UserLoginRequest.Password := "secret" |} =
    (Ok {| services_users.Token := "__________________________________________8=";
           services_users.User := bob |},
     {[ "__________________________________________8=" :=
          {| utils.UserID := 8%N; utils.ExpiresAt := 3000 + day |} ]}).
Proof.
  assert (services_users.Register sample_hash String.eqb no_faults 1000 8 ∅ zeros 1001
            sample_db ∅ sample_register =
          (Ok {| services_users.Token := zeros_id; services_users.User := bob |},
           with_user sample_db bob,
           {[ zeros_id := {| utils.UserID := 8%N; utils.ExpiresAt := 1001 + day |} ]}))
    as Hreg by reflexivity.
  split; [exact Hreg|]. split; [reflexivity|].
  apply (register_then_login sample_hash sample_compare String.eqb no_faults 1000 8 ∅ zeros
           1001 sample_db ∅ sample_register _ _ _ ∅ ones 3000 ∅ _ _ Hreg);
    reflexivity.
Defined.

(** ** The id parameter of the task routes *)

Lemma byteZ_range c : 0 <= byteZ c < 256.
Proof.
  unfold byteZ. pose proof (N_ascii_bounded c) as Hc. lia.
Qed.

Lemma ParseUint_loop_decimal s : forall n m,
  0 <= n < 2 ^ 32 ->
  strconv.ParseUint_loop 10 (strconv.maxUint64 / 10 + 1) (2 ^ 32 - 1) s n = Ok m <->
  digits s = true /\ decimal_loop n s < 2 ^ 32 /\ m = decimal_loop n s.
Proof.
  induction s as [|c s IH]; intros n m Hn.
  - cbn. split; [intros [= <-]; lia|]. by intros (_ & _ & ->).
  - cbn [strconv.ParseUint_loop digits decimal_loop]. unfold isDigit.
    pose proof (byteZ_range c) as Hc.
    destruct ((48 <=? byteZ c) && (byteZ c <=? 57)) eqn:Hdigit.
    + apply andb_true_iff in Hdigit as [H48%Z.leb_le H57%Z.leb_le].
      assert ((byteZ c - 48 >=? 10) = false) as -> by (rewrite Z.geb_leb; apply Z.leb_gt; lia).
      assert ((n >=? strconv.maxUint64 / 10 + 1) = false) as ->.
      { rewrite Z.geb_leb. apply Z.leb_gt. unfold strconv.maxUint64.
        change (2 ^ 32) with 4294967296 in Hn.
        change ((2 ^ 64 - 1) / 10 + 1) with 1844674407370955162. lia. }
      change (2 ^ 32) with 4294967296 in *.
      assert (wrap_uint64 (n * 10) = n * 10) as ->.
      { unfold wrap_uint64. apply Z.mod_small. change (2 ^ 64) with 18446744073709551616. lia. }
      assert (wrap_uint64 (n * 10 + (byteZ c - 48)) = n * 10 + (byteZ c - 48)) as ->.
      { unfold wrap_uint64. apply Z.mod_small. change (2 ^ 64) with 18446744073709551616. lia. }
      assert ((n * 10 + (byteZ c - 48) <? n * 10) = false) as -> by (apply Z.ltb_ge; lia).
      cbn [orb andb]. rewrite Z.gtb_ltb.
      destruct (Z.ltb_spec (4294967296 - 1) (n * 10 + (byteZ c - 48))) as [Hbig|Hsmall].
      * split; [done|]. intros (Hd & Hlt & _).
        pose proof (decimal_loop_ge s (n * 10 + (byteZ c - 48)) Hd ltac:(lia)). lia.
      * apply IH. lia.
    + cbn [andb]. split; [|by intros (? & _)].
      destruct ((97 <=? strconv.lower (byteZ c)) && (strconv.lower (byteZ c) <=? 122)) eqn:Hl;
        [|done].
      apply andb_true_iff in Hl as [H97%Z.leb_le _].
      assert ((strconv.lower (byteZ c) - 97 + 10 >=? 10) = true) as ->
        by (rewrite Z.geb_leb; apply Z.leb_le; lia).
      done.
Qed.

(** [strconv.ParseUint(id, 10, 32)] succeeds on the decimal numerals below
    2^32, with their value, and on nothing else. *)
Lemma ParseUint_task_key id :
  match task_key id with
  | Some n => strconv.ParseUint id 10 32 = Ok n
  | None => exists err, strconv.ParseUint id 10 32 = Err err
  end.
Proof.
  unfold task_key, strconv.ParseUint.
  destruct (String.eqb id "") eqn:Hid; [by eexists|]. cbn [negb andb].
  destruct (strconv.ParseUint_loop _ _ _ id 0) as [m|err] eqn:E.
  - apply ParseUint_loop_decimal in E as (Hd & Hlt & ->); [|lia].
    unfold decimal. rewrite Hd. cbn [andb].
    by rewrite (proj2 (Z.ltb_lt _ _) Hlt).
  - destruct (digits id && (decimal id <? 2 ^ 32)) eqn:Hok; [|by eexists].
    apply andb_true_iff in Hok as [Hd Hlt%Z.ltb_lt].
    assert (strconv.ParseUint_loop 10 (strconv.maxUint64 / 10 + 1) (2 ^ 32 - 1) id 0
            = Ok (decimal id)) as Hp by (apply ParseUint_loop_decimal; [lia|done]).
    congruence.
Qed.

Lemma ParseUint_Ok id n : task_key id = Some n -> strconv.ParseUint id 10 32 = Ok n.
Proof. intros Hk. pose proof (ParseUint_task_key id) as Hp. by rewrite Hk in Hp. Qed.

Lemma ParseUint_Err id :
  task_key id = None -> exists err, strconv.ParseUint id 10 32 = Err err.
Proof. intros Hk. pose proof (ParseUint_task_key id) as Hp. by rewrite Hk in Hp. Qed.

Lemma task_key_range id n : task_key id = Some n -> 0 <= n < 2 ^ 32.
Proof.
  unfold task_key. destruct (negb _ && digits id && _) eqn:Hok; [|done].
  intros [= <-]. apply andb_true_iff in Hok as [[_ Hd]%andb_true_iff Hlt%Z.ltb_lt].
  split; [|done]. by apply decimal_loop_nonneg.
Qed.

(** X28: which id parameters the task handlers accept.  [GetTask] and
    [DeleteTask] answer 400 "Invalid task ID" exactly when the id parameter
    is not a non-empty string of decimal digits with a value below 2^32 (so a
    sign, a prefix, a blank or the key of a row beyond 2^32 is refused),
    whatever the context and the store hold; and [DeleteTask] then leaves the
    store as it is. *)
Theorem task_id_parameter faults now db keys id :
  (handlers.GetTask (faults 0%nat) db keys id =
     gin.Returns {| handlers.code := 400; handlers.body := handlers.error "Invalid task ID" |}
   <-> task_key id = None) /\
  ((handlers.DeleteTask faults now db keys id).1 =
     gin.Returns {| handlers.code := 400; handlers.body := handlers.error "Invalid task ID" |}
   <-> task_key id = None) /\
  (task_key id = None -> (handlers.DeleteTask faults now db keys id).2 = db).
Proof.
  unfold handlers.GetTask, handlers.DeleteTask.
  destruct (task_key id) as [n|] eqn:Hk.
  - rewrite (ParseUint_Ok id n Hk).
    destruct (middlewares_keys.GetUserID keys) as [[userID []]|text].
    + destruct (gorm.First _ _ (faults 0%nat) _ _) as [t|[|text]]; cbn [fst].
      * destruct (gorm.Delete _ _ _ _); cbn [fst]; repeat split; done.
      * repeat split; done.
      * repeat split; done.
    + repeat split; done.
    + repeat split; done.
  - destruct (ParseUint_Err id Hk) as [err ->]. repeat split; done.
Qed.

(** ** The task routes behind the gate *)

Section BehindTheGate.
(** A store and a session table the process can be in, a session of the
    table that has not expired, and the one live user it belongs to. *)
Variables (db : database.DB) (st : gmap string utils.sessionData).
Variables (sid : string) (session : utils.sessionData) (user : models.User.t).
Hypothesis Hreach : reachable st.
Hypothesis Hsid : st !! sid = Some session.
Hypothesis Huser : user ∈ database.users db.
Hypothesis Hid : models.User.ID user = utils.UserID session.
Hypothesis Hlive : models.User.DeletedAt user = None.
Hypothesis Huniq :
  forall row, row ∈ database.users db -> models.User.ID row = utils.UserID session ->
    row = user.

Lemma gate_passes_session db' now :
  database.users db' = database.users db -> now <= utils.ExpiresAt session ->
  middlewares.AuthMiddleware None db' now (with_authorization sid) st =
    (middlewares.Next (utils.UserID session) user, st).
Proof.
  intros Husers Hnow.
  destruct (reachable_id_solid_ends st sid session Hreach Hsid)
    as (c & c' & Hfirst & Hc & Hlast & Hc').
  apply (gate_passes db' now st sid session user); try done.
  - intros ->. done.
  - rewrite <- (append_nil_r sid) at 1. by eapply TrimSpace_trailing.
  - by rewrite Husers.
  - rewrite Husers. apply Huniq.
Qed.

Lemma GetUserID_attached userID u :
  middlewares_keys.GetUserID (middlewares_keys.attached (middlewares.Next userID u) ∅) =
    gin.Returns (userID, true).
Proof.
  unfold middlewares_keys.GetUserID, middlewares_keys.attached.
  rewrite lookup_insert_ne by done. by rewrite lookup_insert_eq.
Qed.

Lemma GET_task_passed (faults : nat -> option string) db' now id n :
  database.users db' = database.users db -> now <= utils.ExpiresAt session ->
  faults 0%nat = None -> task_key id = Some n ->
  routes.GET_task faults db' now (with_authorization sid) id st =
    (match
       gorm.First models.Task.ID models.Task.DeletedAt (faults 1%nat)
         (owned n (utils.UserID session)) (database.tasks db')
     with
     | Err gorm.ErrRecordNotFound =>
         gin.Returns {| handlers.code := 404; handlers.body := handlers.error "Task not found" |}
     | Err err =>
         gin.Returns
           {| handlers.code := 500;
              handlers.body :=
                handlers.error ("Failed to retrieve task: " ++ gorm.Error_text err) |}
     | Ok t => gin.Returns {| handlers.code := 200; handlers.body := handlers.task t |}
     end, st).
Proof.
  intros Husers Hnow Hf Hk. unfold routes.GET_task, routes.guarded.
  rewrite Hf, (gate_passes_session db' now Husers Hnow).
  unfold handlers.GetTask. rewrite (ParseUint_Ok id n Hk), GetUserID_attached.
  fold (owned n (utils.UserID session)). by destruct (gorm.First _ _ _ _ _) as [t|[|text]].
Qed.

(** X29: GET /api/tasks/:id gives a task to its owner only.  Take a session
    table the process can reach, a request whose Authorization value is the
    identifier of a session of it that has not expired, whose user has one
    row in the users table, a live one, a users query that is answered, and
    an id parameter that parses.  When every task row with that key belongs
    to another user or is deleted (or there is none) and the store answers,
    the answer is 404 "Task not found", the same in all three cases; a 200
    carries a live row of the tasks table with the requested key whose owner
    is the user of the session, and leaves the session table untouched; and
    the handler's type assertion on the context never panics. *)
Theorem get_route_protected (faults : nat -> option string) now id n :
  now <= utils.ExpiresAt session -> faults 0%nat = None -> task_key id = Some n ->
  ((forall row, row ∈ database.tasks db -> Z.of_N (models.Task.ID row) = n ->
      models.Task.UserID row <> utils.UserID session \/ models.Task.DeletedAt row <> None) ->
   faults 1%nat = None ->
   routes.GET_task faults db now (with_authorization sid) id st =
     (gin.Returns {| handlers.code := 404; handlers.body := handlers.error "Task not found" |},
      st)) /\
  (forall t st',
     routes.GET_task faults db now (with_authorization sid) id st =
       (gin.Returns {| handlers.code := 200; handlers.body := handlers.task t |}, st') ->
     t ∈ database.tasks db /\ Z.of_N (models.Task.ID t) = n /\
     models.Task.UserID t = utils.UserID session /\ models.Task.DeletedAt t = None /\
     st' = st) /\
  (forall text, (routes.GET_task faults db now (with_authorization sid) id st).1
                <> gin.Panics text).
Proof.
  intros Hnow Hf Hk. rewrite (GET_task_passed faults db now id n eq_refl Hnow Hf Hk).
  repeat apply conj.
  - intros Hnone ->. rewrite First_none_live; [done|].
    intros row Hin Hl. unfold owned. apply andb_false_iff.
    destruct (Z.eqb_spec (Z.of_N (models.Task.ID row)) n) as [Hrow|]; [|by left].
    right. apply N.eqb_neq. destruct (Hnone row Hin Hrow) as [|Hd]; [done|].
    unfold gorm.live in Hl. by destruct (models.Task.DeletedAt row).
  - intros t st'.
    destruct (gorm.First _ _ _ _ _) as [t'|[|text]] eqn:E; [|done..].
    intros [= -> <-].
    apply First_Ok_inv in E as (_ & Hin & Hl & [Hn%Z.eqb_eq Hu%N.eqb_eq]%andb_true_iff).
    unfold gorm.live in Hl. by destruct (models.Task.DeletedAt t).
  - intros text. by destruct (gorm.First _ _ _ _ _) as [t'|[|?]].
Qed.

(** X30: DELETE /api/tasks/:id deletes the caller's own task and no other.
    For a reachable session table, a request with a live session of a user
    with one live row, an id parameter that parses and a store that answers
    the two queries: when every task row with the key belongs to another
    user or is deleted, the answer is 404 "Task not found" and the store is
    as it was; when the user has a live task with the key and the delete is
    accepted, the answer is 200 "Task deleted successfully", the users table
    and every task row with another key are as they were, and from then on
    GET for the same id with the same session, while it lasts, answers
    404. *)
Theorem delete_route_protected (faults : nat -> option string) now now' id n :
  now <= utils.ExpiresAt session -> faults 0%nat = None -> faults 1%nat = None ->
  task_key id = Some n ->
  ((forall row, row ∈ database.tasks db -> Z.of_N (models.Task.ID row) = n ->
      models.Task.UserID row <> utils.UserID session \/ models.Task.DeletedAt row <> None) ->
   routes.DELETE_task faults db now now' (with_authorization sid) id st =
     (gin.Returns {| handlers.code := 404; handlers.body := handlers.error "Task not found" |},
      db, st)) /\
  ((exists t, t ∈ database.tasks db /\ Z.of_N (models.Task.ID t) = n /\
      models.Task.UserID t = utils.UserID session /\ models.Task.DeletedAt t = None) ->
   faults 2%nat = None ->
   exists db',
     routes.DELETE_task faults db now now' (with_authorization sid) id st =
       (gin.Returns {| handlers.code := 200;
                       handlers.body := handlers.message "Task deleted successfully" |},
        db', st) /\
     database.users db' = database.users db /\
     (forall i row, database.tasks db !! i = Some row ->
        Z.of_N (models.Task.ID row) <> n -> database.tasks db' !! i = Some row) /\
     (forall (faults2 : nat -> option string) later,
        later <= utils.ExpiresAt session -> faults2 0%nat = None -> faults2 1%nat = None ->
        routes.GET_task faults2 db' later (with_authorization sid) id st =
          (gin.Returns
             {| handlers.code := 404; handlers.body := handlers.error "Task not found" |},
           st))).
Proof.
  intros Hnow Hf0 Hf1 Hk.
  assert (routes.DELETE_task faults db now now' (with_authorization sid) id st =
          (let '(response, db') :=
             handlers.DeleteTask (fun k => faults (S k)) now' db
               (middlewares_keys.attached
                  (middlewares.Next (utils.UserID session) user) ∅) id in
           (response, db', st))) as ->.
  { unfold routes.DELETE_task, routes.guarded.
    by rewrite Hf0, (gate_passes_session db now eq_refl Hnow). }
  unfold handlers.DeleteTask. rewrite (ParseUint_Ok id n Hk), GetUserID_attached, Hf1.
  fold (owned n (utils.UserID session)). split.
  - intros Hnone. rewrite First_none_live; [done|].
    intros row Hin Hl. unfold owned. apply andb_false_iff.
    destruct (Z.eqb_spec (Z.of_N (models.Task.ID row)) n) as [Hrow|]; [|by left].
    right. apply N.eqb_neq. destruct (Hnone row Hin Hrow) as [|Hd]; [done|].
    unfold gorm.live in Hl. by destruct (models.Task.DeletedAt row).
  - intros (t & Hin & Hn & Hu & Hd) Hf2.
    destruct (First_some_live models.Task.ID models.Task.DeletedAt
                (owned n (utils.UserID session)) (database.tasks db) t)
      as [t' E]; [done| | |].
    { unfold gorm.live. by rewrite Hd. }
    { unfold owned. rewrite Hu, N.eqb_refl. by rewrite (proj2 (Z.eqb_eq _ _) Hn). }
    rewrite E, Hf2. cbn [gorm.Delete].
    apply First_Ok_inv in E as (_ & Hin' & Hl' & [Hn'%Z.eqb_eq Hu'%N.eqb_eq]%andb_true_iff).
    set (rows' := map _ (database.tasks db)).
    set (db' := {| database.users := database.users db; database.tasks := rows' |}).
    exists db'. split; [reflexivity|]. split; [done|]. split.
    + intros i row Hi Hrow. cbn [db' database.tasks]. subst rows'.
      rewrite list_lookup_fmap, Hi. cbn.
      assert ((models.Task.ID row =? models.Task.ID t')%N = false) as ->; [|done].
      apply N.eqb_neq. intros Heq. apply Hrow. by rewrite Heq.
    + intros faults2 later Hlater Hg0 Hg1.
      rewrite (GET_task_passed faults2 db' later id n eq_refl Hlater Hg0 Hk), Hg1.
      rewrite First_none_live; [done|]. cbn [db' database.tasks]. subst rows'.
      intros row (r & <- & Hr)%list_elem_of_In%in_map_iff Hl.
      destruct ((models.Task.ID r =? models.Task.ID t')%N
                && gorm.live models.Task.DeletedAt r) eqn:Hmark; [done|].
      unfold owned. apply andb_false_iff. left. apply Z.eqb_neq. intros Hrn.
      apply andb_false_iff in Hmark as [Hne%N.eqb_neq|Hdead]; [|congruence].
      apply Hne. apply N2Z.inj. congruence.
Qed.
End BehindTheGate.

(** ** The task routes: sample runs *)

Lemma task_id_parameter_witness :
  task_key "42" = Some 42 /\ task_key "4294967296" = None /\ task_key "+42" = None /\
  task_key "0x2a" = None /\
  handlers.GetTask None sample_db ∅ "4294967296" =
    gin.Returns {| handlers.code := 400; handlers.body := handlers.error "Invalid task ID" |}.
Proof.
  split; [reflexivity|]. split; [reflexivity|]. split; [reflexivity|]. split; [reflexivity|].
  apply (task_id_parameter no_faults 0 sample_db ∅ "4294967296"). reflexivity.
Defined.

Lemma sample_sessions_reachable : reachable sample_sessions.
Proof. apply reachable_GenerateToken, reachable_init. Qed.

Lemma sample_sessions_lookup : sample_sessions !! zeros_id = Some sample_session.
Proof. reflexivity. Qed.

Lemma sample_user_unique :
  forall row, row ∈ database.users sample_db ->
    models.User.ID row = utils.UserID sample_session -> row = alice.
Proof.
  intros row Hin _. apply list_elem_of_In in Hin. cbn in Hin. by destruct Hin as [<- | []].
Qed.

Lemma get_route_protected_witness :
  reachable sample_sessions /\ sample_sessions !! zeros_id = Some sample_session /\
  alice ∈ database.users sample_db /\ task_key "2" = Some 2 /\ task_key "1" = Some 1 /\
  routes.GET_task no_faults sample_db 5000 (with_authorization zeros_id) "2" sample_sessions =
    (gin.Returns {| handlers.code := 404; handlers.body := handlers.error "Task not found" |},
     sample_sessions) /\
  (routes.GET_task no_faults sample_db 5000 (with_authorization zeros_id) "1" sample_sessions =
     (gin.Returns {| handlers.code := 200; handlers.body := handlers.task task_of_alice |},
      sample_sessions) /\
   models.Task.UserID task_of_alice = utils.UserID sample_session).
Proof.
  assert (alice ∈ database.users sample_db) as Hin by apply list_elem_of_here.
  assert (5000 <= utils.ExpiresAt sample_session) as Hnow by (vm_compute; discriminate).
  split; [exact sample_sessions_reachable|]. split; [exact sample_sessions_lookup|].
  split; [exact Hin|]. split; [reflexivity|]. split; [reflexivity|]. split.
  - apply (get_route_protected sample_db sample_sessions zeros_id sample_session alice
             sample_sessions_reachable sample_sessions_lookup Hin eq_refl eq_refl
             sample_user_unique no_faults 5000 "2" 2 Hnow eq_refl eq_refl); [|reflexivity].
    intros row Hrow Hkey. apply list_elem_of_In in Hrow. cbn in Hrow.
    destruct Hrow as [<- | [<- | []]]; [discriminate Hkey|by left].
  - assert (routes.GET_task no_faults sample_db 5000 (with_authorization zeros_id) "1"
              sample_sessions =
            (gin.Returns {| handlers.code := 200; handlers.body := handlers.task task_of_alice |},
             sample_sessions)) as Hget by reflexivity.
    split; [exact Hget|].
    destruct (get_route_protected sample_db sample_sessions zeros_id sample_session alice
                sample_sessions_reachable sample_sessions_lookup Hin eq_refl eq_refl
                sample_user_unique no_faults 5000 "1" 1 Hnow eq_refl eq_refl)
      as (_ & Hsound & _).
    exact (proj1 (proj2 (proj2 (Hsound _ _ Hget)))).
Defined.

Lemma delete_route_protected_witness :
  reachable sample_sessions /\ sample_sessions !! zeros_id = Some sample_session /\
  alice ∈ database.users sample_db /\ task_key "2" = Some 2 /\ task_key "1" = Some 1 /\
  routes.DELETE_task no_faults sample_db 5000 5001 (with_authorization zeros_id) "2"
    sample_sessions =
    (gin.Returns {| handlers.code := 404; handlers.body := handlers.error "Task not found" |},
     sample_db, sample_sessions) /\
  exists db',
    routes.DELETE_task no_faults sample_db 5000 5001 (with_authorization zeros_id) "1"
      sample_sessions =
      (gin.Returns {| handlers.code := 200;
                      handlers.body := handlers.message "Task deleted successfully" |},
       db', sample_sessions) /\
    database.tasks db' !! 1%nat = Some task_of_bob /\
    routes.GET_task no_faults db' 6000 (with_authorization zeros_id) "1" sample_sessions =
      (gin.Returns {| handlers.code := 404; handlers.body := handlers.error "Task not found" |},
       sample_sessions).
Proof.
  assert (alice ∈ database.users sample_db) as Hin by apply list_elem_of_here.
  assert (5000 <= utils.ExpiresAt sample_session) as Hnow by (vm_compute; discriminate).
  assert (6000 <= utils.ExpiresAt sample_session) as Hlater by (vm_compute; discriminate).
  split; [exact sample_sessions_reachable|]. split; [exact sample_sessions_lookup|].
  split; [exact Hin|]. split; [reflexivity|]. split; [reflexivity|]. split.
  - apply (delete_route_protected sample_db sample_sessions zeros_id sample_session alice
             sample_sessions_reachable sample_sessions_lookup Hin eq_refl eq_refl
             sample_user_unique no_faults 5000 5001 "2" 2 Hnow eq_refl eq_refl eq_refl).
    intros row Hrow Hkey. apply list_elem_of_In in Hrow. cbn in Hrow.
    destruct Hrow as [<- | [<- | []]]; [discriminate Hkey|by left].
  - destruct (delete_route_protected sample_db sample_sessions zeros_id sample_session alice
                sample_sessions_reachable sample_sessions_lookup Hin eq_refl eq_refl
                sample_user_unique no_faults 5000 5001 "1" 1 Hnow eq_refl eq_refl eq_refl)
      as (_ & Hown).
    destruct Hown as (db' & Hdelete & _ & Hothers & Hgone); [|reflexivity|].
    { exists task_of_alice. split; [apply list_elem_of_here|]. by split; [|split]. }
    exists db'. split; [exact Hdelete|]. split.
    + apply (Hothers 1%nat task_of_bob); [reflexivity|discriminate].
    + exact (Hgone no_faults 6000 Hlater eq_refl eq_refl).
Defined.
